(** * ERI form-filling automation: a shallow embedding and its properties

    The development follows the Python modules that carry the workflow
    engine:

    - [parse_user_input], common to [V0.py] and [V2.py] (module
      [Parser]);
    - [erieri_login_selenium2.py]: session acquisition (module [Login]);
    - [V0.py]: extraction in the single-record script (module [V0]);
    - [V2.py]: interactions, step sequences, extraction and the batch of
      the multi-record script (module [V2]).

    Python strings are [string]s; the characters are taken in the ASCII
    range, so whitespace is the ASCII whitespace of [str.isspace] and
    digits are ['0'..'9'] (module [Py]).  Dictionaries decoded from JSON
    are [gmap]s.  The browser is an arbitrary deterministic machine
    answering the requests of the driver, possibly with an exception;
    programs are functions on the automation object, the browser and the
    log of requests, returning a value or raising.  [print] and
    [time.sleep] have no effect on any value the program computes and
    are left out. *)

From Stdlib Require Import ZArith String Ascii List Lia DecimalString.
From Stdlib Require QArith.
From Stdlib Require DecimalPos.
From stdpp Require Import base strings gmap list.

Open Scope string_scope.
Open Scope list_scope.

(** ** Python string primitives *)

Module Py.

(** [c.isspace()] on ASCII: tab to carriage return, the four separators
    0x1c..0x1f, and the space. *)
Definition is_space (c : ascii) : bool :=
  let n := nat_of_ascii c in
  ((9 <=? n)%nat && (n <=? 13)%nat) || ((28 <=? n)%nat && (n <=? 32)%nat).

Fixpoint lstrip (s : string) : string :=
  match s with
  | EmptyString => EmptyString
  | String c r => if is_space c then lstrip r else s
  end.

Fixpoint rstrip (s : string) : string :=
  match s with
  | EmptyString => EmptyString
  | String c r =>
      match rstrip r with
      | EmptyString => if is_space c then EmptyString else String c EmptyString
      | r' => String c r'
      end
  end.

(** [s.strip()] *)
Definition strip (s : string) : string := rstrip (lstrip s).

(** Truth value of a string: [if s:]. *)
Definition truthy (s : string) : bool :=
  match s with EmptyString => false | _ => true end.

(** [s.startswith(prefix)] *)
Fixpoint startswith (s prefix : string) {struct prefix} : bool :=
  match prefix with
  | EmptyString => true
  | String a p =>
      match s with
      | EmptyString => false
      | String b r => Ascii.eqb a b && startswith r p
      end
  end.

(** [needle in hay] *)
Fixpoint contains (needle hay : string) : bool :=
  startswith hay needle ||
  match hay with
  | EmptyString => false
  | String _ r => contains needle r
  end.

(** [s.endswith(suffix)] *)
Fixpoint endswith (s suffix : string) : bool :=
  String.eqb s suffix ||
  match s with
  | EmptyString => false
  | String _ r => endswith r suffix
  end.

(** [s.lower()] *)
Definition lower_char (c : ascii) : ascii :=
  let n := nat_of_ascii c in
  if (65 <=? n)%nat && (n <=? 90)%nat then ascii_of_nat (n + 32) else c.

Fixpoint lower (s : string) : string :=
  match s with
  | EmptyString => EmptyString
  | String c r => String (lower_char c) (lower r)
  end.

(** [s.lstrip(".")] and [s.strip("/")] *)
Fixpoint lstrip_char (x : ascii) (s : string) : string :=
  match s with
  | EmptyString => EmptyString
  | String c r => if Ascii.eqb c x then lstrip_char x r else s
  end.

Fixpoint rstrip_char (x : ascii) (s : string) : string :=
  match s with
  | EmptyString => EmptyString
  | String c r =>
      match rstrip_char x r with
      | EmptyString => if Ascii.eqb c x then EmptyString else String c EmptyString
      | r' => String c r'
      end
  end.

Definition strip_char (x : ascii) (s : string) : string :=
  rstrip_char x (lstrip_char x s).

(** [s.split(sep, 1)] for a one-character separator that occurs in [s]:
    the text before the first occurrence and the text after it.  Without
    an occurrence the whole string is the first component. *)
Fixpoint split_once (sep : ascii) (s : string) : string * string :=
  match s with
  | EmptyString => (EmptyString, EmptyString)
  | String c r =>
      if Ascii.eqb c sep then (EmptyString, r)
      else let '(a, b) := split_once sep r in (String c a, b)
  end.

(** The part of [s] after the first occurrence of the two-character
    separator ["//"], or [s] itself: [s.split("//", 1)[-1]]. *)
Fixpoint after_slashes (s : string) : option string :=
  match s with
  | String "/" (String "/" r) => Some r
  | String _ r => after_slashes r
  | EmptyString => None
  end.

Definition split_slashes_last (s : string) : string :=
  match after_slashes s with Some r => r | None => s end.

Definition is_digit (c : ascii) : bool :=
  let n := nat_of_ascii c in (48 <=? n)%nat && (n <=? 57)%nat.

Definition digit_value (c : ascii) : Z := Z.of_nat (nat_of_ascii c - 48).

(** Digits of an integer literal: underscores are accepted singly and
    only between two digits. *)
Fixpoint int_digits (s : string) (acc : Z) (after_digit : bool) : option Z :=
  match s with
  | EmptyString => if after_digit then Some acc else None
  | String c r =>
      if is_digit c then int_digits r (10 * acc + digit_value c) true
      else if Ascii.eqb c "_" && after_digit then int_digits r acc false
      else None
  end.

(** The whitespace that [int()] skips around an ASCII literal: tab to
    carriage return and the space.  The separators 0x1c..0x1f, which
    [str.strip] removes, are not among them. *)
Definition is_literal_space (c : ascii) : bool :=
  let n := nat_of_ascii c in
  ((9 <=? n)%nat && (n <=? 13)%nat) || (n =? 32)%nat.

Fixpoint skip_spaces (s : string) : string :=
  match s with
  | EmptyString => EmptyString
  | String c r => if is_literal_space c then skip_spaces r else s
  end.

Fixpoint drop_spaces (s : string) : string :=
  match s with
  | EmptyString => EmptyString
  | String c r =>
      match drop_spaces r with
      | EmptyString =>
          if is_literal_space c then EmptyString else String c EmptyString
      | r' => String c r'
      end
  end.

(** The number of digits of a literal, leading zeros included. *)
Fixpoint count_digits (s : string) : N :=
  match s with
  | EmptyString => 0%N
  | String c r => if is_digit c then N.succ (count_digits r) else count_digits r
  end.

(** [sys.int_info.default_max_str_digits]: a conversion between [int]
    and [str] of more digits raises [ValueError]. *)
Definition max_str_digits : N := 4300%N.

(** [int(s)] for a string: [None] stands for [ValueError]. *)
Definition int (s : string) : option Z :=
  let t := drop_spaces (skip_spaces s) in
  if (count_digits t <=? max_str_digits)%N then
    match t with
    | String "-" r => option_map Z.opp (int_digits r 0 false)
    | String "+" r => int_digits r 0 false
    | _ => int_digits t 0 false
    end
  else None.

(** [str(n)] for an integer of at most [max_str_digits] digits, as
    [int] returns them; no other integer reaches [str] or a format in
    the scripts. *)
Definition str (n : Z) : string := NilZero.string_of_int (Z.to_int n).

(** Thousands separators over a run of digits, [k] being the number of
    digits that follow the current one. *)
Fixpoint group3 (digits : string) : string :=
  match digits with
  | EmptyString => EmptyString
  | String c r =>
      let k := String.length r in
      if (0 <? k)%nat && (k mod 3 =? 0)%nat
      then String c (String "," (group3 r))
      else String c (group3 r)
  end.

(** [f"{n:,}"] *)
Definition format_commas (n : Z) : string :=
  if (n <? 0)%Z then String "-" (group3 (str (Z.abs n)))
  else group3 (str n).

(** [s.split(sep)] for a one-character separator: the texts between
    the occurrences of [sep], one more than there are occurrences. *)
Fixpoint split (sep : ascii) (s : string) : list string :=
  match s with
  | EmptyString => [EmptyString]
  | String c r =>
      if Ascii.eqb c sep then EmptyString :: split sep r
      else match split sep r with
           | p :: ps => String c p :: ps
           | [] => [String c EmptyString]
           end
  end.

(** [s.replace(x, '')] for a one-character [x]. *)
Fixpoint remove (x : ascii) (s : string) : string :=
  match s with
  | EmptyString => EmptyString
  | String c r => if Ascii.eqb c x then remove x r else String c (remove x r)
  end.

End Py.

(** ** The automation object

    [ERICompleteAutomation.__init__] sets every input field to [None];
    [driver] tells whether [self.driver] has been assigned.  [V2.py]
    adds the list [all_data] of extracted rows; [V0.py] has the same
    fields without it. *)

(** The dictionary returned by [extract_years_experience_data] in
    [V2.py] (the timestamp is not kept: no decision reads it). *)
Record result_row := {
  r_eri_code : option string;
  r_location : option string;
  r_industry : option string;
  r_revenue : option string;
  r_years_experience : string;
  r_data_type : option string;
  r_extracted_value : string
}.

Record automation := {
  driver : bool;
  eri_code : option string;
  location : option string;
  revenue : option string;
  industry : option string;
  years_experience : option string;
  data_type : option string;
  all_data : list result_row
}.

Definition new_automation : automation :=
  {| driver := false; eri_code := None; location := None; revenue := None;
     industry := None; years_experience := None; data_type := None;
     all_data := [] |}.

(** Assignment to one attribute. *)
Definition set_driver (v : bool) (a : automation) : automation :=
  {| driver := v; eri_code := eri_code a; location := location a;
     revenue := revenue a; industry := industry a;
     years_experience := years_experience a; data_type := data_type a;
     all_data := all_data a |}.

Definition set_eri_code (v : option string) (a : automation) : automation :=
  {| driver := driver a; eri_code := v; location := location a;
     revenue := revenue a; industry := industry a;
     years_experience := years_experience a; data_type := data_type a;
     all_data := all_data a |}.

Definition set_location (v : option string) (a : automation) : automation :=
  {| driver := driver a; eri_code := eri_code a; location := v;
     revenue := revenue a; industry := industry a;
     years_experience := years_experience a; data_type := data_type a;
     all_data := all_data a |}.

Definition set_revenue (v : option string) (a : automation) : automation :=
  {| driver := driver a; eri_code := eri_code a; location := location a;
     revenue := v; industry := industry a;
     years_experience := years_experience a; data_type := data_type a;
     all_data := all_data a |}.

Definition set_industry (v : option string) (a : automation) : automation :=
  {| driver := driver a; eri_code := eri_code a; location := location a;
     revenue := revenue a; industry := v;
     years_experience := years_experience a; data_type := data_type a;
     all_data := all_data a |}.

Definition set_years_experience (v : option string) (a : automation) : automation :=
  {| driver := driver a; eri_code := eri_code a; location := location a;
     revenue := revenue a; industry := industry a; years_experience := v;
     data_type := data_type a; all_data := all_data a |}.

Definition set_data_type (v : option string) (a : automation) : automation :=
  {| driver := driver a; eri_code := eri_code a; location := location a;
     revenue := revenue a; industry := industry a;
     years_experience := years_experience a; data_type := v;
     all_data := all_data a |}.

Definition set_all_data (v : list result_row) (a : automation) : automation :=
  {| driver := driver a; eri_code := eri_code a; location := location a;
     revenue := revenue a; industry := industry a;
     years_experience := years_experience a; data_type := data_type a;
     all_data := v |}.

(** ** [parse_user_input] (the same text in [V0.py] and [V2.py]) *)

Module Parser.

(** [in_location] is set to [False] once and never assigned again. *)
Definition in_location : bool := false.

(** One turn of the character loop over [(parts, current_part)]. *)
Definition split_step (st : list string * string) (char : ascii)
  : list string * string :=
  let '(parts, current_part) := st in
  if Ascii.eqb char "," && Py.contains "Dallas" current_part
     && negb (Py.contains "Texas" current_part)
  then (parts, current_part +:+ String char EmptyString)
  else if Ascii.eqb char "," && negb in_location
  then if Py.truthy (Py.strip current_part)
       then (parts ++ [Py.strip current_part], EmptyString)
       else (parts, current_part)
  else (parts, current_part +:+ String char EmptyString).

Fixpoint split_loop (user_input : string) (st : list string * string)
  : list string * string :=
  match user_input with
  | EmptyString => st
  | String char rest => split_loop rest (split_step st char)
  end.

(** The list [parts] after the loop and the final flush. *)
Definition split_parts (user_input : string) : list string :=
  let '(parts, current_part) := split_loop user_input ([], EmptyString) in
  if Py.truthy (Py.strip current_part)
  then parts ++ [Py.strip current_part]
  else parts.

Definition statistics : list string :=
  ["Mean"; "Median"; "25th Percentile"; "75th Percentile"].

Definition is_statistic (part : string) : bool :=
  existsb (String.eqb part) statistics.

(** The body of [for part in parts]. *)
Definition assign_part (self : automation) (part : string) : automation :=
  if Py.contains "=" part then
    let '(k, v) := Py.split_once "=" part in
    let key := Py.strip k in
    let value := Py.strip v in
    if String.eqb key "ERI Code" then set_eri_code (Some value) self
    else if String.eqb key "ERI Location" then set_location (Some value) self
    else if String.eqb key "Revenue" then set_revenue (Some value) self
    else if String.eqb key "Industry" then set_industry (Some value) self
    else if String.eqb key "Years of Experience"
    then set_years_experience (Some value) self
    else self
  else if is_statistic part then set_data_type (Some part) self
  else self.

(** No operation of the body can raise on a string, so the handler that
    returns [False] is never entered. *)
Definition parse_user_input (user_input : string) (self : automation)
  : bool * automation :=
  (true, fold_left assign_part (split_parts user_input) self).

End Parser.

(** ** The browser seen from the driver

    Every call made on the Selenium driver, on the file system or on the
    process environment is a [request]; the environment answers with a
    [reply], which may be an exception. *)

Inductive exn :=
| TimeoutException
| NoSuchElementException
| ElementNotInteractableException
| WebDriverException
| OtherError.  (* ValueError, TypeError, AttributeError, OSError, ... *)

(** [isinstance(e, WebDriverException)]: the three named Selenium
    exceptions derive from it. *)
Definition is_webdriver_exception (e : exn) : bool :=
  match e with OtherError => false | _ => true end.

Definition is_timeout (e : exn) : bool :=
  match e with TimeoutException => true | _ => false end.

Definition is_no_such_element (e : exn) : bool :=
  match e with NoSuchElementException => true | _ => false end.

Definition is_element_not_interactable (e : exn) : bool :=
  match e with ElementNotInteractableException => true | _ => false end.

Definition any_exception (e : exn) : bool := true.

(** Values decoded by [json.loads]. *)
#[warnings="-register-all"]
Inductive json :=
| JNull
| JBool (b : bool)
| JInt (n : Z)
| JFloat (x : QArith_base.Q)      (* a finite float, by its exact value *)
| JStr (s : string)
| JArray (items : list json)
| JObject (fields : list (string * json)).

(** [bool(v)] *)
Definition json_truth (v : json) : bool :=
  match v with
  | JNull => false
  | JBool b => b
  | JInt n => negb (n =? 0)%Z
  | JFloat x => negb (QArith_base.Qeq_bool x (QArith_base.Qmake 0 1))
  | JStr s => Py.truthy s
  | JArray items => match items with [] => false | _ => true end
  | JObject fields => match fields with [] => false | _ => true end
  end.

(** One cookie record of the snapshot file. *)
Abbreviation cookie := (gmap string json).

(** A row of the input file, as [read_csv_input] and
    [parse_multi_input] build it. *)
Record input_row := {
  row_eri_code : string;
  row_location : string;
  row_revenue : string;
  row_industry : string;
  row_years_experience : option string;
  row_data_type : string
}.

Inductive locator :=
| XPath (path : string)
| TableCell (row_num td : nat)  (* [table_xpath/tr[row_num]/td[td]] *)
| Css (selector : string)
| ById (id : string).

Inductive keys :=
| ARROW_DOWN | ENTER | DELETE | BACKSPACE
| CONTROL_a                      (* [Keys.CONTROL + "a"] *)
| Chars (text : string).

Inductive target :=
| ActiveElement                  (* [driver.switch_to.active_element] *)
| Element (l : locator).

Inductive request :=
| StartChrome                    (* [webdriver.Chrome(options=opts)] *)
| ExecuteCdp                     (* [driver.execute_cdp_cmd(...)] *)
| Get (url : string)             (* [driver.get(url)] *)
| WaitReady (timeout : nat)      (* [_wait_ready(driver, timeout)] *)
| CurrentUrl                     (* [driver.current_url] *)
| ExecuteScript (js : string)    (* [driver.execute_script(js)] *)
| WaitClickable (l : locator)    (* [wait.until(element_to_be_clickable)] *)
| Click (l : locator)            (* [element.click()] *)
| ScriptClick (l : locator)      (* ["arguments[0].click();"] *)
| ScrollIntoView (l : locator)   (* ["arguments[0].scrollIntoView(true);"] *)
| Clear (l : locator)            (* [element.clear()] *)
| Submit (l : locator)           (* [element.submit()] *)
| SwitchToActive                 (* [driver.switch_to.active_element] *)
| SendKeys (t : target) (k : keys)
| GetText (l : locator)          (* [find_element(l).text] *)
| GetValue (l : locator)         (* [element.get_attribute('value')] *)
| IsDisplayed (l : locator)      (* [find_element(l).is_displayed()] *)
| AnyDisplayed (l : locator)     (* some [e] of [find_elements(l)] is displayed *)
| FirstDisplayedEnabled (l : locator)
                                 (* some [e] of [find_elements(l)] is
                                    displayed and enabled *)
| DeleteAllCookies
| AddCookie (c : cookie)
| GetCookies
| CookieFileExists (path : string)
| ReadCookieFile (path : string) (* [json.loads(p.read_text())] *)
| WriteCookieFile (path : string) (cookies : list cookie)
| ReadCreds                      (* [_read_creds()] *)
| ReadCsv (path : string)        (* [read_csv_input] up to its handlers *)
| CsvFileExists
| AppendCsv (header : bool) (rows : list result_row)
| WaitForEnter                   (* [input(...)] *)
| Quit.                          (* [driver.quit()] *)

Inductive reply :=
| Done
| Text (s : string)
| Flag (b : bool)
| Cookies (l : list cookie)
| Creds (c : option (string * string))
| Rows (l : list input_row)
| Raise (e : exn).

Class Browser := {
  world : Type;
  respond : request -> world -> reply * world
}.

(** ** Programs: state and exceptions

    A program runs on the automation object, the browser and the log of
    the requests issued so far; it returns a value or raises. *)

Record machine {B : Browser} := {
  self : automation;
  page : world;
  requests : list request
}.

Inductive result (A : Type) :=
| Ok (a : A)
| Raised (e : exn).
Arguments Ok {A} a.
Arguments Raised {A} e.

Definition M {B : Browser} (A : Type) : Type := machine -> result A * machine.

Section Programs.
Context {B : Browser}.

Definition ret {A} (a : A) : M A := fun m => (Ok a, m).

Definition bind {A C} (c : M A) (k : A -> M C) : M C :=
  fun m =>
    match c m with
    | (Ok a, m') => k a m'
    | (Raised e, m') => (Raised e, m')
    end.

Definition raise {A} (e : exn) : M A := fun m => (Raised e, m).

(** [try: body  except <handles>: handler]; an exception the clause
    does not name goes on to the caller. *)
Definition try_except {A} (body : M A) (handles : exn -> bool)
    (handler : M A) : M A :=
  fun m =>
    match body m with
    | (Raised e, m') => if handles e then handler m' else (Raised e, m')
    | r => r
    end.

(** Issue a request: the browser moves on, the request is logged. *)
Definition call (r : request) : M reply :=
  fun m =>
    let '(a, w) := respond r (page m) in
    let m' := {| self := self m; page := w;
                 requests := requests m ++ [r] |} in
    match a with
    | Raise e => (Raised e, m')
    | _ => (Ok a, m')
    end.

Definition get_self : M automation := fun m => (Ok (self m), m).

Definition modify_self (f : automation -> automation) : M unit :=
  fun m => (Ok tt, {| self := f (self m); page := page m;
                      requests := requests m |}).

End Programs.

Declare Scope prog_scope.
Delimit Scope prog_scope with prog.
Notation "x <- c1 ;; c2" := (bind c1 (fun x => c2))
  (at level 100, c1 at next level, right associativity) : prog_scope.
Notation "c1 ;; c2" := (bind c1 (fun _ => c2))
  (at level 100, right associativity) : prog_scope.
Open Scope prog_scope.

Section Replies.
Context {B : Browser}.

(** The value of a reply, read at the type the caller expects; a reply
    of another kind reads as the empty value ([driver.current_url or
    ""], [get_attribute('value') or '']). *)
Definition ask_text (r : request) : M string :=
  a <- call r ;; ret (match a with Text s => s | _ => EmptyString end).

Definition ask_flag (r : request) : M bool :=
  a <- call r ;; ret (match a with Flag b => b | _ => false end).

Definition ask_cookies (r : request) : M (list cookie) :=
  a <- call r ;; ret (match a with Cookies l => l | _ => [] end).

(** [pass] *)
Definition pass : M unit := ret tt.

End Replies.

(** ** [erieri_login_selenium2.py] *)

Module Login.

Definition HOME_URL : string := "https://online.erieri.com/".
Definition LOGIN_URL : string := "https://online.erieri.com/Account/Login".

(** [_sanitize_cookie]: works on a copy; an [expiry] that is a string or
    [None] (also when the key is missing) is popped, [sameSite] and
    [hostOnly] are popped, [httpOnly] and [secure] are coerced to
    [bool] when present. *)
Definition _sanitize_cookie (c : cookie) : cookie :=
  let c1 :=
    match c !! "expiry" with
    | None | Some JNull | Some (JStr _) => delete "expiry" c
    | Some _ => c
    end in
  let c2 := delete "hostOnly" (delete "sameSite" c1) in
  let c3 :=
    match c2 !! "httpOnly" with
    | Some v => <["httpOnly" := JBool (json_truth v)]> c2
    | None => c2
    end in
  match c3 !! "secure" with
  | Some v => <["secure" := JBool (json_truth v)]> c3
  | None => c3
  end.

(** [(c.get("domain") or "").lstrip(".").lower()]; [None] stands for
    the [AttributeError] of a true value that is not a string. *)
Definition cookie_domain (c : cookie) : option string :=
  match c !! "domain" with
  | Some (JStr s) => Some (Py.lower (Py.lstrip_char "." s))
  | Some v => if json_truth v then None else Some EmptyString
  | None => Some EmptyString
  end.

(** [host.split("//", 1)[-1].strip("/").lower()] *)
Definition host_netloc (host : string) : string :=
  Py.lower (Py.strip_char "/" (Py.split_slashes_last host)).

(** The test guarding [driver.add_cookie]. *)
Definition domain_matches (netloc domain : string) : bool :=
  Py.truthy domain &&
  (String.eqb domain netloc || Py.endswith netloc domain).

Definition username_selectors : list string :=
  ["input#Email"; "input#UserName"; "input#Username";
   "input[name='Email']"; "input[name='UserName']"; "input[name='Username']";
   "input[type='email']"; "input[type='text']"].

Definition password_selectors : list string :=
  ["input#Password"; "input[name='Password']"; "input[type='password']"].

Definition submit_selectors : list string :=
  ["button[type='submit']"; "input[type='submit']";
   "//button[contains(translate(., 'LOGIN','login'),'login')]";
   "//button[contains(translate(., 'SIGN IN','sign in'),'sign in')]"].

Definition logout_xpath : string :=
  "//a[contains(translate(., 'LOGOUT','logout'),'logout')] | //button[contains(translate(., 'LOGOUT','logout'),'logout')]".

Section Session.
Context {B : Browser}.

Definition _build_driver : M unit :=
  call StartChrome ;;
  try_except (call ExecuteCdp ;; pass) any_exception pass.

Definition _wait_ready (timeout : nat) : M unit :=
  call (WaitReady timeout) ;; pass.

(** [try: _wait_ready(driver, t)  except TimeoutException: pass] *)
Definition wait_ready_or_pass (timeout : nat) : M unit :=
  try_except (_wait_ready timeout) is_timeout pass.

Definition _is_on_login_page : M bool :=
  u <- ask_text CurrentUrl ;;
  let url := Py.lower u in
  if Py.contains "login" url || Py.contains "signin" url then ret true
  else
    try_except (ask_flag (AnyDisplayed (Css "input[type='password']")))
      any_exception (ret false).

Definition _is_logged_in : M bool :=
  on_login <- _is_on_login_page ;;
  if on_login then ret false
  else
    logout <- try_except (ask_flag (AnyDisplayed (XPath logout_xpath)))
                any_exception (ret false) ;;
    if logout then ret true
    else
      u <- ask_text CurrentUrl ;;
      ret (negb (Py.contains "account/login" (Py.lower u))).

(** The [for raw in cookies] loop of [_add_cookies_for_host]. *)
Fixpoint add_cookies_loop (cookies : list cookie) (netloc : string)
    (added : nat) : M nat :=
  match cookies with
  | [] => ret added
  | raw :: rest =>
      let c := _sanitize_cookie raw in
      match cookie_domain c with
      | None => raise OtherError
      | Some domain =>
          if negb (Py.truthy domain) then add_cookies_loop rest netloc added
          else if String.eqb domain netloc || Py.endswith netloc domain
          then
            added' <- try_except (call (AddCookie c) ;; ret (S added))
                        is_webdriver_exception (ret added) ;;
            add_cookies_loop rest netloc added'
          else add_cookies_loop rest netloc added
      end
  end.

Definition _add_cookies_for_host (cookies : list cookie) (host : string)
  : M nat :=
  call (Get host) ;;
  add_cookies_loop cookies (host_netloc host) 0.

Definition _load_cookies_safely (cookies_path : string) : M bool :=
  there <- ask_flag (CookieFileExists cookies_path) ;;
  if negb there then ret false
  else
    try_except
      (cookies <- ask_cookies (ReadCookieFile cookies_path) ;;
       call DeleteAllCookies ;;
       a <- _add_cookies_for_host cookies HOME_URL ;;
       b <- _add_cookies_for_host cookies "https://erieri.com/" ;;
       call (Get HOME_URL) ;;
       ret (0 <? a + b)%nat)
      any_exception (ret false).

Definition _save_fresh_cookies (cookies_path : string) : M unit :=
  try_except
    (l <- ask_cookies GetCookies ;;
     call (WriteCookieFile cookies_path l) ;; pass)
    any_exception pass.

(** [_read_creds]: the pair found in the environment or in a
    credential file, both parts true, or [(None, None)]. *)
Definition _read_creds : M (option (string * string)) :=
  a <- call ReadCreds ;;
  ret (match a with
       | Creds (Some (u, p)) =>
           if Py.truthy u && Py.truthy p then Some (u, p) else None
       | _ => None
       end).

Definition selector_locator (sel : string) : locator :=
  if Py.startswith sel "//" then XPath sel else Css sel.

Fixpoint find_first_displayed (selectors : list string) : M (option locator) :=
  match selectors with
  | [] => ret None
  | sel :: rest =>
      found <- try_except (ask_flag (FirstDisplayedEnabled (selector_locator sel)))
                 any_exception (ret false) ;;
      if found then ret (Some (selector_locator sel))
      else find_first_displayed rest
  end.

(** [for _ in range(n): time.sleep(1.0); if _is_logged_in(driver): return True] *)
Fixpoint poll_logged_in (n : nat) : M bool :=
  match n with
  | O => ret false
  | S k => b <- _is_logged_in ;; if b then ret true else poll_logged_in k
  end.

Definition _attempt_auto_login : M bool :=
  creds <- _read_creds ;;
  match creds with
  | None => ret false
  | Some (user, pw) =>
      call (Get LOGIN_URL) ;;
      wait_ready_or_pass 30 ;;
      u <- find_first_displayed username_selectors ;;
      p <- find_first_displayed password_selectors ;;
      match u, p with
      | Some u, Some p =>
          typed <-
            try_except
              (call (Clear u) ;; call (SendKeys (Element u) (Chars user)) ;;
               call (Clear p) ;; call (SendKeys (Element p) (Chars pw)) ;;
               btn <- find_first_displayed submit_selectors ;;
               match btn with
               | Some b =>
                   try_except (call (Click b) ;; pass) any_exception
                     (call (ScriptClick b) ;; pass)
               | None => call (Submit p) ;; pass
               end ;;
               ret true)
              any_exception (ret false) ;;
          if typed then poll_logged_in 60 else ret false
      | _, _ => ret false
      end
  end.

(** The returned driver is the browser itself; the value is the flag
    [is_logged_in]. *)
Definition login_with_selenium (cookies_file : string) : M bool :=
  _build_driver ;;
  call (Get HOME_URL) ;;
  wait_ready_or_pass 20 ;;
  fast <- _is_logged_in ;;
  if fast then _save_fresh_cookies cookies_file ;; ret true
  else
    loaded <- _load_cookies_safely cookies_file ;;
    by_cookies <- (if loaded
                   then wait_ready_or_pass 15 ;; _is_logged_in
                   else ret false) ;;
    if by_cookies then _save_fresh_cookies cookies_file ;; ret true
    else
      by_creds <- _attempt_auto_login ;;
      if by_creds then _save_fresh_cookies cookies_file ;; ret true
      else
        call (Get LOGIN_URL) ;;
        wait_ready_or_pass 20 ;;
        ret false.

End Session.

End Login.

(** ** The result table

    Both scripts address the result table through one absolute XPath,
    ending in [/tr[row_num]/td[k]]; [TableCell row_num k] stands for
    that path.  The summary field is a fixed span. *)

Definition table_xpath : string :=
  "/html/body/div[1]/div[3]/div[2]/div[2]/div[1]/div[1]/div[1]/div/div[1]/div[2]/div/div/table/tbody".

Definition all_incumbent_xpath : string :=
  "/html/body/div[1]/div[3]/div[2]/div[1]/div[1]/div[2]/span[3]".

(** The text of a locator as the driver receives it. *)
Definition locator_text (l : locator) : string :=
  match l with
  | XPath p => p
  | TableCell row_num td =>
      table_xpath +:+ "/tr[" +:+ Py.str (Z.of_nat row_num) +:+ "]/td["
      +:+ Py.str (Z.of_nat td) +:+ "]"
  | Css s => s
  | ById i => i
  end.

(** What one turn of the row loop decides: go to the next row, or leave
    the loop, with the value read when there is one. *)
Inductive flow :=
| Next
| Stop (value : option string).

(** [o == s] for a field that may be [None]. *)
Definition is_str (o : option string) (s : string) : bool :=
  match o with Some t => String.eqb t s | None => false end.

(** [range(1, 20)] *)
Definition row_range : list nat := seq 1 19.

(** ** [V0.py]: extraction *)

Module V0.

(** The dictionary returned by [extract_years_experience_data]. *)
Record extracted := {
  x_eri_code : option string;
  x_location : option string;
  x_industry : option string;
  x_revenue : option string;
  x_years_experience : option string;
  x_data_type : option string;
  x_all_incumbent_average : string;
  x_mean_value : string
}.

(** The [td] chosen for a matching row; [None] stands for the
    [AttributeError] of [None.lower()]. *)
Definition data_column (data_type : option string) : option nat :=
  match data_type with
  | None => None
  | Some d =>
      if String.eqb (Py.lower d) "mean" then Some 4%nat
      else if Py.contains "75th" (Py.lower d)
              || Py.contains "percentile" (Py.lower d) then Some 5%nat
      else Some 4%nat
  end.

Section Extraction.
Context {B : Browser}.

(** The body of [for row_num in range(1, 20)], with its handlers. *)
Definition check_row (row_num : nat) (target : string)
    (data_type : option string) : M flow :=
  try_except
    (try_except
       (t <- ask_text (GetText (TableCell row_num 1)) ;;
        if String.eqb (Py.strip t) target then
          match data_column data_type with
          | None => raise OtherError
          | Some td =>
              try_except
                (v <- ask_text (GetText (TableCell row_num td)) ;;
                 ret (Stop (Some (Py.strip v))))
                any_exception (ret Next)
          end
        else ret Next)
       is_no_such_element (ret (Stop None)))
    any_exception (ret Next).

Fixpoint scan_rows (row_nums : list nat) (target : string)
    (data_type : option string) (mean_value : string) : M string :=
  match row_nums with
  | [] => ret mean_value
  | row_num :: rest =>
      f <- check_row row_num target data_type ;;
      match f with
      | Next => scan_rows rest target data_type mean_value
      | Stop None => ret mean_value
      | Stop (Some v) => ret v
      end
  end.

Definition extract_years_experience_data : M (option extracted) :=
  try_except
    (aia <- try_except
              (t <- ask_text (GetText (XPath all_incumbent_xpath)) ;;
               ret (Py.strip t))
              any_exception (ret "Not found") ;;
     a <- get_self ;;
     match years_experience a with
     | None => raise OtherError                 (* [int(None)] *)
     | Some y =>
         match Py.int y with
         | None => raise OtherError             (* [ValueError] *)
         | Some target_years =>
             mean_value <- scan_rows row_range (Py.str target_years)
                             (data_type a) "Not found" ;;
             ret (Some {| x_eri_code := eri_code a;
                          x_location := location a;
                          x_industry := industry a;
                          x_revenue := revenue a;
                          x_years_experience := years_experience a;
                          x_data_type := data_type a;
                          x_all_incumbent_average := aia;
                          x_mean_value := mean_value |})
         end
     end)
    any_exception (ret None).

End Extraction.

Section Interaction.
Context {B : Browser}.

(** [wait_and_click] of [V0.py]: the element is scrolled into view
    before the click, and the JavaScript click follows an
    [ElementNotInteractableException] only. *)
Definition wait_and_click (xpath : string) : M bool :=
  try_except
    (call (WaitClickable (XPath xpath)) ;;
     call (ScrollIntoView (XPath xpath)) ;;
     try_except (call (Click (XPath xpath)) ;; ret true)
       is_element_not_interactable
       (call (ScriptClick (XPath xpath)) ;; ret true))
    any_exception (ret false).

End Interaction.

End V0.

(** ** [V2.py] *)

Module V2.

(** [self.years_experience or 'N/A'] *)
Definition years_or_na (y : option string) : string :=
  match y with
  | Some s => if Py.truthy s then s else "N/A"
  | None => "N/A"
  end.

Definition result_of (a : automation) (years : string) (value : string)
  : result_row :=
  {| r_eri_code := eri_code a; r_location := location a;
     r_industry := industry a; r_revenue := revenue a;
     r_years_experience := years; r_data_type := data_type a;
     r_extracted_value := value |}.

(** The [td] chosen inside the branch for ["Mean"] and
    ["75th Percentile"]; no other statistic reaches it. *)
Definition data_column (data_type : option string) : option nat :=
  if is_str data_type "Mean" then Some 4%nat
  else if is_str data_type "75th Percentile" then Some 5%nat
  else None.

(** [row_data] copied into the object. *)
Definition load_row (row : input_row) (a : automation) : automation :=
  set_data_type (Some (row_data_type row))
    (set_years_experience (row_years_experience row)
       (set_industry (Some (row_industry row))
          (set_revenue (Some (row_revenue row))
             (set_location (Some (row_location row))
                (set_eri_code (Some (row_eri_code row)) a))))).

Definition step1_xpath : string :=
  "/html/body/div[1]/div[3]/div/div/div/div[1]/div[3]/a".
Definition step2_xpath : string :=
  "/html/body/div[1]/div[3]/div[1]/div/div[1]/div/div/div[2]/div/div[2]/button".
Definition step3_xpath : string :=
  "/html/body/div[59]/div/div[3]/table/tbody/tr/td[1]/div[2]/span/span".
Definition step5_xpath : string :=
  "/html/body/div[59]/div/div[3]/table/tbody/tr/td[1]/div[1]/div[2]/input".
Definition step6_xpath : string :=
  "/html/body/div[59]/div/div[4]/div/div[2]/button[2]".
Definition step7_xpath : string :=
  "/html/body/div[1]/div[3]/div[1]/div/div[1]/div/div/div[36]/div[1]/div[1]/div[1]/div/input".
Definition step8_xpath : string :=
  "/html/body/div[1]/div[3]/div[1]/div/div[1]/div/div/div[38]/div[2]/div[1]/input[2]".
Definition step9_xpath : string :=
  "/html/body/div[1]/div[3]/div[1]/div/div[1]/div/div/div[40]/div[2]/div[1]/div[1]/input".

Definition scroll_to_top : string := "window.scrollTo(0, 0);".
Definition body_click : string := "document.body.click();".
Definition hide_mask : string :=
  "document.getElementById('mask').style.display = 'none';".

(** *** Input rows *)

Definition tab : ascii := "009"%char.
Definition newline : ascii := "010"%char.

(** The dictionary built by [parse_multi_input] from the stripped
    parts of a line; [None] when there are fewer than six. *)
Definition row_of_parts (parts : list string) : option input_row :=
  match parts with
  | p0 :: p1 :: p2 :: p3 :: p4 :: p5 :: _ =>
      Some {| row_eri_code := p0;
              row_location := p1;
              row_revenue := Py.remove "," p2;
              row_industry := p3;
              row_years_experience :=
                if String.eqb p4 "N/A" then None else Some p4;
              row_data_type := p5 |}
  | _ => None
  end.

(** [for line in lines] of [parse_multi_input], [rows] being the list
    built so far. *)
Fixpoint rows_of_lines (lines : list string) (rows : list input_row)
  : list input_row :=
  match lines with
  | [] => rows
  | line :: rest =>
      if Py.truthy (Py.strip line) then
        match row_of_parts (map Py.strip (Py.split tab line)) with
        | Some row => rows_of_lines rest (rows ++ [row])
        | None => rows_of_lines rest rows
        end
      else rows_of_lines rest rows
  end.

Definition parse_multi_input (input_data : string) : list input_row :=
  rows_of_lines (Py.split newline (Py.strip input_data)) [].

(** A row as [csv.DictReader] yields it: under a field name a string,
    or [None] when the line is too short to have the column. *)
Abbreviation csv_row := (gmap string (option string)).

(** [row[k].strip()]; [None] stands for the [KeyError] of a missing
    column and for the [AttributeError] of [None.strip()]. *)
Definition stripped (row : csv_row) (k : string) : option string :=
  match row !! k with
  | Some (Some v) => Some (Py.strip v)
  | _ => None
  end.

(** [data_row] of [read_csv_input]. *)
Definition data_row (row : csv_row) : option input_row :=
  match stripped row "ERI Code", stripped row "ERI Location",
        stripped row "Revenue", stripped row "Industry",
        stripped row "Years of Experience", stripped row "Requested Type"
  with
  | Some c, Some l, Some r, Some i, Some y, Some d =>
      Some {| row_eri_code := c; row_location := l; row_revenue := r;
              row_industry := i; row_years_experience := Some y;
              row_data_type := d |}
  | _, _, _, _, _, _ => None
  end.

(** [for row_num, row in enumerate(reader, 1)] of [read_csv_input],
    [rows] being the list built so far: a row that raises enters the
    handler, after which [rows] is returned as it stands. *)
Fixpoint read_rows (reader : list csv_row) (rows : list input_row)
  : list input_row :=
  match reader with
  | [] => rows
  | row :: rest =>
      match data_row row with
      | Some d => read_rows rest (rows ++ [d])
      | None => rows
      end
  end.

(** The two variants of a run, and the steps as the source numbers
    them. *)
Inductive variant := Full | Abbreviated.

Inductive step :=
| Step1 | Step2 | Step3 | Step4 | Step5 | Step6 | Step7 | Step8 | Step9.

(** [run_complete_automation] goes through steps 1 to 9. *)
Definition full_sequence : list step :=
  [Step1; Step2; Step3; Step4; Step5; Step6; Step7; Step8; Step9].

(** [run_subsequent_automation] starts from step 2. *)
Definition abbreviated_sequence : list step :=
  [Step2; Step3; Step4; Step5; Step6; Step7; Step8; Step9].

Section Automation.
Context {B : Browser}.

(** [wait_and_click]: the statements after the last handler are never
    reached. *)
Definition wait_and_click (xpath : string) : M bool :=
  try_except
    (call (WaitClickable (XPath xpath)) ;;
     try_except (call (Click (XPath xpath)) ;; ret true)
       any_exception
       (call (ScriptClick (XPath xpath)) ;; ret true))
    any_exception (ret false).

(** [wait_and_click_with_retry]: the variations are tried in order
    until one is found and clicked. *)
Fixpoint wait_and_click_with_retry (xpath_list : list string) : M bool :=
  match xpath_list with
  | [] => ret false
  | xpath :: rest =>
      clicked <- try_except
                   (call (WaitClickable (XPath xpath)) ;;
                    call (Click (XPath xpath)) ;;
                    ret true)
                   any_exception (ret false) ;;
      if clicked then ret true else wait_and_click_with_retry rest
  end.

(** [for i in range(n): active_element.send_keys(Keys.ARROW_DOWN)] *)
Fixpoint press_down (n : nat) : M unit :=
  match n with
  | O => pass
  | S k => call (SendKeys ActiveElement ARROW_DOWN) ;; press_down k
  end.

Definition dropdown_keyboard_selection : M bool :=
  try_except
    (call SwitchToActive ;;
     press_down 3 ;;
     call (SendKeys ActiveElement ENTER) ;;
     ret true)
    any_exception (ret false).

Fixpoint press_backspace (l : locator) (n : nat) : M unit :=
  match n with
  | O => pass
  | S k => call (SendKeys (Element l) BACKSPACE) ;; press_backspace l k
  end.

(** [for char in text: element.send_keys(char)] *)
Fixpoint type_chars (l : locator) (text : string) : M unit :=
  match text with
  | EmptyString => pass
  | String char rest =>
      call (SendKeys (Element l) (Chars (String char EmptyString))) ;;
      type_chars l rest
  end.

(** Iterating over or sending [None] raises [TypeError]. *)
Definition type_text (l : locator) (text : option string) : M unit :=
  match text with
  | None => raise OtherError
  | Some s => type_chars l s
  end.

Definition enhanced_text_clear_and_type (l : locator) (text : option string)
  : M bool :=
  try_except
    (call (SendKeys (Element l) CONTROL_a) ;;
     call (SendKeys (Element l) DELETE) ;;
     current_value <- ask_text (GetValue l) ;;
     (if Py.truthy current_value
      then press_backspace l (String.length current_value + 5)
      else pass) ;;
     type_text l text ;;
     ret true)
    any_exception (ret false).

Definition type_and_enter (xpath : string) (value : option string) : M bool :=
  try_except
    (try_except
       (shown <- ask_flag (IsDisplayed (ById "mask")) ;;
        if shown then call (ExecuteScript hide_mask) ;; pass else pass)
       any_exception pass ;;
     call (WaitClickable (XPath xpath)) ;;
     call (ScrollIntoView (XPath xpath)) ;;
     call (Click (XPath xpath)) ;;
     typed <- enhanced_text_clear_and_type (XPath xpath) value ;;
     if typed
     then call (SendKeys (Element (XPath xpath)) ENTER) ;; ret true
     else ret false)
    any_exception (ret false).

(** *** Extraction *)

Definition check_row (row_num : nat) (target : string)
    (data_type : option string) : M flow :=
  try_except
    (try_except
       (t <- ask_text (GetText (TableCell row_num 1)) ;;
        if String.eqb (Py.strip t) target then
          try_except
            (match data_column data_type with
             | None => raise OtherError         (* [data_xpath] unbound *)
             | Some td =>
                 v <- ask_text (GetText (TableCell row_num td)) ;;
                 ret (Stop (Some (Py.strip v)))
             end)
            any_exception (ret Next)
        else ret Next)
       is_no_such_element (ret (Stop None)))
    any_exception (ret Next).

Fixpoint scan_rows (row_nums : list nat) (target : string)
    (data_type : option string) (result_value : string) : M string :=
  match row_nums with
  | [] => ret result_value
  | row_num :: rest =>
      f <- check_row row_num target data_type ;;
      match f with
      | Next => scan_rows rest target data_type result_value
      | Stop None => ret result_value
      | Stop (Some v) => ret v
      end
  end.

Definition extract_years_experience_data : M (option result_row) :=
  try_except
    (a <- get_self ;;
     if is_str (data_type a) "All Incumbent Average" then
       v <- try_except
              (t <- ask_text (GetText (XPath all_incumbent_xpath)) ;;
               ret (Py.strip t))
              any_exception (ret "Not found") ;;
       ret (Some (result_of a (years_or_na (years_experience a)) v))
     else if is_str (data_type a) "Mean"
             || is_str (data_type a) "75th Percentile" then
       match years_experience a with
       | None => ret (Some (result_of a "N/A" "Not found"))
       | Some y =>
           match Py.int y with
           | None => raise OtherError           (* [ValueError] *)
           | Some target_years =>
               v <- scan_rows row_range (Py.str target_years)
                      (data_type a) "Not found" ;;
               ret (Some (result_of a (years_or_na (years_experience a)) v))
           end
       end
     else
       ret (Some (result_of a (years_or_na (years_experience a))
                    "Not found")))
    any_exception (ret None).

(** [save_to_csv(data_list)] *)
Definition save_to_csv (data_list : list result_row) : M unit :=
  match data_list with
  | [] => pass
  | _ =>
      try_except
        (file_exists <- ask_flag CsvFileExists ;;
         call (AppendCsv (negb file_exists) data_list) ;; pass)
        any_exception pass
  end.

(** *** The steps *)

(** Step 5, with its own handler. *)
Definition type_eri_code : M bool :=
  try_except
    (call (WaitClickable (XPath step5_xpath)) ;;
     call (Clear (XPath step5_xpath)) ;;
     a <- get_self ;;
     match eri_code a with
     | None => raise OtherError
     | Some code =>
         call (SendKeys (Element (XPath step5_xpath)) (Chars code)) ;;
         ret true
     end)
    any_exception (ret false).

(** Step 6: the full run handles [TimeoutException] only, the
    abbreviated run every exception. *)
Definition click_confirmation (v : variant) : M bool :=
  try_except
    (call (WaitClickable (XPath step6_xpath)) ;;
     try_except (call (Click (XPath step6_xpath)) ;; pass)
       any_exception
       (call (ScriptClick (XPath step6_xpath)) ;; pass) ;;
     ret true)
    (match v with Full => is_timeout | Abbreviated => any_exception end)
    (ret false).

Definition type_location : M bool :=
  a <- get_self ;; type_and_enter step7_xpath (location a).

Definition type_industry : M bool :=
  a <- get_self ;; type_and_enter step8_xpath (industry a).

(** Step 9: the full run types [f"{int(self.revenue):,}"], the
    abbreviated run [self.revenue]. *)
Definition type_revenue (v : variant) : M bool :=
  a <- get_self ;;
  match v with
  | Full =>
      match revenue a with
      | None => raise OtherError
      | Some r =>
          match Py.int r with
          | None => raise OtherError
          | Some n => type_and_enter step9_xpath (Some (Py.format_commas n))
          end
      end
  | Abbreviated => type_and_enter step9_xpath (revenue a)
  end.

(** [if data: self.all_data.append(data)] *)
Definition append_data (data : result_row) : M unit :=
  modify_self (fun a => set_all_data (all_data a ++ [data]) a).

Definition run_complete_automation : M bool :=
  try_except
    (ok <- wait_and_click step1_xpath ;;
     if negb ok then ret false else
     ok <- wait_and_click step2_xpath ;;
     if negb ok then ret false else
     ok <- wait_and_click step3_xpath ;;
     if negb ok then ret false else
     ok <- dropdown_keyboard_selection ;;
     if negb ok then ret false else
     ok <- type_eri_code ;;
     if negb ok then ret false else
     ok <- click_confirmation Full ;;
     if negb ok then ret false else
     ok <- type_location ;;
     if negb ok then ret false else
     ok <- type_industry ;;
     if negb ok then ret false else
     ok <- type_revenue Full ;;
     if negb ok then ret false else
     data <- extract_years_experience_data ;;
     match data with Some d => append_data d | None => pass end ;;
     call (ExecuteScript scroll_to_top) ;;
     ret true)
    any_exception (ret false).

Definition run_subsequent_automation (row_data : input_row) : M bool :=
  modify_self (load_row row_data) ;;
  try_except
    (call (ExecuteScript scroll_to_top) ;;
     try_except (call (ExecuteScript body_click) ;; pass) any_exception pass ;;
     ok <- wait_and_click step2_xpath ;;
     if negb ok then ret false else
     ok <- wait_and_click step3_xpath ;;
     if negb ok then ret false else
     ok <- dropdown_keyboard_selection ;;
     if negb ok then ret false else
     ok <- type_eri_code ;;
     if negb ok then ret false else
     ok <- click_confirmation Abbreviated ;;
     if negb ok then ret false else
     ok <- type_location ;;
     if negb ok then ret false else
     ok <- type_industry ;;
     if negb ok then ret false else
     ok <- type_revenue Abbreviated ;;
     if negb ok then ret false else
     data <- extract_years_experience_data ;;
     match data with
     | Some d =>
         append_data d ;;
         call (ExecuteScript scroll_to_top) ;;
         ret true
     | None => ret false
     end)
    any_exception (ret false).

(** [for i, row in enumerate(rows[1:], 2)]: the value returned for a
    row is printed and nothing else. *)
Fixpoint subsequent_rows (rows : list input_row) : M unit :=
  match rows with
  | [] => pass
  | row :: rest => run_subsequent_automation row ;; subsequent_rows rest
  end.

(** The body of [if driver:] in [run_multi_automation], for the
    non-empty list [rows]. *)
Definition run_rows (rows : list input_row) : M unit :=
  match rows with
  | [] => raise OtherError                      (* [rows[0]] *)
  | first_row :: rest =>
      modify_self (load_row first_row) ;;
      ok <- run_complete_automation ;;
      if ok then
        subsequent_rows rest ;;
        a <- get_self ;;
        match all_data a with
        | [] => pass                            (* "No data extracted" *)
        | _ => save_to_csv (all_data a)
        end
      else pass
  end.

Definition read_csv_input (csv_file_path : string) : M (list input_row) :=
  try_except
    (a <- call (ReadCsv csv_file_path) ;;
     ret (match a with Rows l => l | _ => [] end))
    any_exception (ret []).

Definition run_multi_automation (csv_file_path : string) : M unit :=
  rows <- read_csv_input csv_file_path ;;
  match rows with
  | [] => pass
  | _ =>
      try_except
        (Login.login_with_selenium "cookies.json" ;;
         modify_self (set_driver true) ;;
         run_rows rows)
        any_exception pass ;;
      call WaitForEnter ;;
      a <- get_self ;;
      if driver a then call Quit ;; pass else pass
  end.

(** [main]: a new object, and the batch of [input_data.csv]. *)
Definition main : M unit :=
  modify_self (fun _ => new_automation) ;;
  run_multi_automation "input_data.csv".

(** *** The step sequencer

    The same runs, read as a list of steps performed in order until one
    of them answers [False]. *)

Definition perform (v : variant) (s : step) : M bool :=
  match s with
  | Step1 => wait_and_click step1_xpath
  | Step2 => wait_and_click step2_xpath
  | Step3 => wait_and_click step3_xpath
  | Step4 => dropdown_keyboard_selection
  | Step5 => type_eri_code
  | Step6 => click_confirmation v
  | Step7 => type_location
  | Step8 => type_industry
  | Step9 => type_revenue v
  end.

Fixpoint run_steps (v : variant) (steps : list step) : M bool :=
  match steps with
  | [] => ret true
  | s :: rest =>
      ok <- perform v s ;;
      if ok then run_steps v rest else ret false
  end.

End Automation.

End V2.

(** ** Browsers to run the programs on

    A page showing a result table [lab_table] (rows of cell texts) and
    possibly the summary field, at address [lab_url]; no mask, no file,
    no credentials.  [lab_faults] lists the requests, numbered from 0,
    that the browser answers with an exception. *)

Record lab := {
  lab_table : list (list string);
  lab_summary : option string;
  lab_url : string;
  lab_faults : list (nat * exn)
}.

(** The text of [td] number [td] of row number [row_num], both counted
    from 1. *)
Definition cell (tbl : list (list string)) (row_num td : nat)
  : option string :=
  match row_num, td with
  | S r, S c =>
      match tbl !! r with
      | Some cells => cells !! c
      | None => None
      end
  | _, _ => None
  end.

Definition lab_reply (l : lab) (r : request) : reply :=
  match r with
  | GetText (TableCell row_num td) =>
      match cell (lab_table l) row_num td with
      | Some t => Text t
      | None => Raise NoSuchElementException
      end
  | GetText (XPath p) =>
      if String.eqb p all_incumbent_xpath then
        match lab_summary l with
        | Some t => Text t
        | None => Raise NoSuchElementException
        end
      else Raise NoSuchElementException
  | GetText _ => Raise NoSuchElementException
  | IsDisplayed _ => Raise NoSuchElementException
  | GetValue _ => Text EmptyString
  | CurrentUrl => Text (lab_url l)
  | AnyDisplayed _ | FirstDisplayedEnabled _ => Flag false
  | CookieFileExists _ | CsvFileExists => Flag false
  | ReadCookieFile _ => Raise OtherError
  | GetCookies => Cookies []
  | ReadCreds => Creds None
  | ReadCsv _ => Rows []
  | _ => Done
  end.

Definition fault_at (faults : list (nat * exn)) (n : nat) : option exn :=
  match find (fun p => (fst p =? n)%nat) faults with
  | Some p => Some (snd p)
  | None => None
  end.

(** The state of a [lab_browser] is the number of requests answered. *)
Definition lab_browser (l : lab) : Browser :=
  {| world := nat;
     respond r n :=
       (match fault_at (lab_faults l) n with
        | Some e => Raise e
        | None => lab_reply l r
        end, S n) |}.

(** A static page: the table, the summary field, no fault. *)
Definition table_lab (tbl : list (list string)) (summary : option string)
  : lab :=
  {| lab_table := tbl; lab_summary := summary;
     lab_url := Login.HOME_URL; lab_faults := [] |}.

Definition table_browser (tbl : list (list string))
    (summary : option string) : Browser :=
  {| world := unit;
     respond r w := (lab_reply (table_lab tbl summary) r, w) |}.

(** ** The input line

    The module docstring and [main] of [V0.py] write a record as
    [ERI Code=.., ERI Location=.., Revenue=.., Industry=.., Years of
    Experience=.., <statistic>]. *)

Definition input_line (code loc rev ind years statistic : string) : string :=
  "ERI Code=" +:+ code +:+ ", ERI Location=" +:+ loc +:+ ", Revenue="
  +:+ rev +:+ ", Industry=" +:+ ind +:+ ", Years of Experience="
  +:+ years +:+ ", " +:+ statistic.

(** The object after the six assignments of such a line. *)
Definition with_fields (code loc rev ind years statistic : string)
    (a : automation) : automation :=
  set_data_type (Some statistic)
    (set_years_experience (Some years)
       (set_industry (Some ind)
          (set_revenue (Some rev)
             (set_location (Some loc)
                (set_eri_code (Some code) a))))).

(** Modelled from the spec: the repository has no function that writes
    a record back as text; "re-serializing" is read as writing the six
    parsed values in the format of the input grammar (spec section 6),
    which is defined when all six are present. *)
Definition serialize_spec (a : automation) : option string :=
  match eri_code a, location a, revenue a, industry a,
        years_experience a, data_type a with
  | Some c, Some l, Some r, Some i, Some y, Some s =>
      Some (input_line c l r i y s)
  | _, _, _, _, _, _ => None
  end.

Fixpoint comma_free (s : string) : bool :=
  match s with
  | EmptyString => true
  | String c r => negb (Ascii.eqb c ",") && comma_free r
  end.

(** A value the character loop leaves alone: no comma, no surrounding
    whitespace, no occurrence of ["Dallas"]. *)
Definition plain (v : string) : Prop :=
  comma_free v = true /\ Py.lstrip v = v /\ Py.rstrip v = v /\
  Py.contains "Dallas" v = false.

(** No character of [t] is [x]. *)
Fixpoint char_free (x : ascii) (t : string) : bool :=
  match t with
  | EmptyString => true
  | String c r => negb (Ascii.eqb c x) && char_free x r
  end.

(** [t] is not empty and its last character is not whitespace. *)
Fixpoint ends_nonspace (t : string) : bool :=
  match t with
  | EmptyString => false
  | String c EmptyString => negb (Py.is_space c)
  | String _ r => ends_nonspace r
  end.

(** A two-part location of the kind the loop provides for. *)
Definition dallas_texas (city state : string) : Prop :=
  comma_free city = true /\ comma_free state = true /\
  Py.lstrip city = city /\ Py.rstrip state = state /\
  Py.contains "Dallas" city = true /\ Py.contains "Texas" city = false /\
  Py.contains "Texas" state = true.

(** A state that the comma splits off as a part of its own, and that
    assigns nothing: no comma, no ["="], no mention of Dallas, not
    blank. *)
Definition split_off (state : string) : Prop :=
  comma_free state = true /\ char_free "=" state = true
  /\ Py.contains "Dallas" state = false
  /\ Py.truthy (Py.strip state) = true.

Definition dallas_example : string :=
  "ERI Code=4006, ERI Location=Dallas, Texas, Revenue=565000000, Industry=All Industries - Diversified, Years of Experience=11, 75th Percentile".

(** ** Notions for the statements on the extractor *)

(** The machine [m] after the requests [rs], on a page that does not
    change. *)
Definition after {B : Browser} (m : machine) (rs : list request) : machine :=
  {| self := self m; page := page m; requests := requests m ++ rs |}.

(** Reading the first cells of the rows [1..i]. *)
Definition first_cells (i : nat) : list request :=
  map (fun j => GetText (TableCell j 1)) (seq 1 i).

(** Row [i] is the earliest row of [tbl] whose first cell, stripped, is
    [target], and every row before it has a first cell. *)
Definition earliest_match (tbl : list (list string)) (target : string)
    (i : nat) : Prop :=
  (exists t, cell tbl i 1 = Some t /\ Py.strip t = target)
  /\ forall j, 1 <= j < i ->
       exists u, cell tbl j 1 = Some u /\ Py.strip u <> target.

(** The text [V0.py] keeps for the summary field. *)
Definition summary_text (summary : option string) : string :=
  match summary with
  | Some t => Py.strip t
  | None => "Not found"
  end.

(** The machine around [a] on the static table, with the log [log]. *)
Definition on_table (tbl : list (list string)) (summary : option string)
    (a : automation) (log : list request)
  : machine (B := table_browser tbl summary) :=
  @Build_machine (table_browser tbl summary) a tt log.

(** The statistics read from the table and their [td], as observed on
    the two scripts. *)
Definition V2_columns : list (string * nat) :=
  [("Mean", 4); ("75th Percentile", 5)].

Definition V0_columns : list (string * nat) :=
  [("Mean", 4); ("75th Percentile", 5); ("25th Percentile", 5);
   ("Median", 4)].

(** The table of the example in the spec, and a record asking for
    [statistic] at 11 years. *)
Definition example_table : list (list string) :=
  [["5"; "100"; "200"; "300"; "400"]; ["11"; "150"; "260"; "310"; "420"]].

Definition asking (statistic : string) (years : option string) : automation :=
  set_data_type (Some statistic) (set_years_experience years new_automation).

(** Two tables with two rows for 11 years: in the first the earlier of
    them is complete, in the second it stops after two cells. *)
Definition two_matches_table : list (list string) :=
  [["5"; "100"; "200"; "300"; "400"]; ["11"; "150"; "260"; "310"; "420"];
   ["11"; "151"; "261"; "311"; "421"]].

Definition short_match_table : list (list string) :=
  [["11"; "150"]; ["11"; "151"; "261"; "311"; "421"]].

(** ** Notions for the statements on the runs *)

(** A program that leaves the automation object as it found it. *)
Definition keeps_self {B : Browser} {A : Type} (c : M A) : Prop :=
  forall m, self (snd (c m)) = self m.

(** A program that always returns: no exception leaves it. *)
Definition total {B : Browser} {A : Type} (c : M A) : Prop :=
  forall m, exists a m', c m = (Ok a, m').

(** What [run_subsequent_automation] does before its first step: the
    fields of the row are copied, the page is scrolled to the top and
    the body is clicked. *)
Definition page_reset {B : Browser} (row_data : input_row) : M unit :=
  modify_self (V2.load_row row_data) ;;
  call (ExecuteScript V2.scroll_to_top) ;;
  try_except (call (ExecuteScript V2.body_click) ;; pass) any_exception pass.

(** What both runs do after their last step. *)
Definition finish_run {B : Browser} (v : V2.variant) : M bool :=
  data <- V2.extract_years_experience_data ;;
  match v, data with
  | V2.Full, Some d =>
      V2.append_data d ;; call (ExecuteScript V2.scroll_to_top) ;; ret true
  | V2.Full, None => call (ExecuteScript V2.scroll_to_top) ;; ret true
  | V2.Abbreviated, Some d =>
      V2.append_data d ;; call (ExecuteScript V2.scroll_to_top) ;; ret true
  | V2.Abbreviated, None => ret false
  end.


(** The machine once the fields of [row] are copied into the object. *)
Definition loaded {B : Browser} (row : input_row) (m : machine) : machine :=
  {| self := V2.load_row row (self m); page := page m;
     requests := requests m |}.








(** ** Records and pages for the examples *)

Definition dallas_row : input_row :=
  {| row_eri_code := "4006"; row_location := "Dallas, Texas";
     row_revenue := "565000000";
     row_industry := "All Industries - Diversified";
     row_years_experience := Some "11";
     row_data_type := "75th Percentile" |}.

Definition austin_row : input_row :=
  {| row_eri_code := "4007"; row_location := "Austin";
     row_revenue := "1200000";
     row_industry := "All Industries - Diversified";
     row_years_experience := Some "5";
     row_data_type := "Mean" |}.

Definition houston_row : input_row :=
  {| row_eri_code := "4008"; row_location := "Houston";
     row_revenue := "980000";
     row_industry := "All Industries - Diversified";
     row_years_experience := Some "11";
     row_data_type := "Mean" |}.

(** The page of the example table, on which the requests numbered in
    [faults] time out. *)
Definition faulty_lab (faults : list nat) : lab :=
  {| lab_table := example_table; lab_summary := Some "$171,022";
     lab_url := Login.HOME_URL;
     lab_faults := map (fun n => (n, TimeoutException)) faults |}.

(** A fresh machine on such a page. *)
Definition on_lab (l : lab) (a : automation) : machine (B := lab_browser l) :=
  @Build_machine (lab_browser l) a 0 [].

(** A record whose years of experience have no row in the example
    table. *)
Definition waco_row : input_row :=
  {| row_eri_code := "4009"; row_location := "Waco";
     row_revenue := "450000";
     row_industry := "All Industries - Diversified";
     row_years_experience := Some "7";
     row_data_type := "Mean" |}.

(** The three records of the examples, in this order. *)
Definition three_rows : list input_row :=
  [dallas_row; austin_row; houston_row].



(** ** Notions for the statements on the session *)

(** The cookies of the snapshot that pass the test of
    [_add_cookies_for_host], sanitized, in file order. *)
Definition offered_to (netloc : string) (cookies : list cookie)
  : list cookie :=
  List.filter
    (fun c => match Login.cookie_domain c with
              | Some d => Login.domain_matches netloc d
              | None => false
              end)
    (map Login._sanitize_cookie cookies).

Definition admitted (host : string) (cookies : list cookie) : list cookie :=
  offered_to (Login.host_netloc host) cookies.

(** What [_sanitize_cookie] leaves under the key ["expiry"]. *)
Definition kept_expiry (v : option json) : option json :=
  match v with
  | None | Some JNull | Some (JStr _) => None
  | Some n => Some n
  end.

(** A cookie of the site whose expiry is not a number. *)
Definition stale_cookie : cookie :=
  <["name" := JStr "sid"]>
    (<["value" := JStr "x"]>
       (<["domain" := JStr ".erieri.com"]>
          (<["expiry" := JStr "never"]> ∅))).

(** A cookie of another site. *)
Definition foreign_cookie : cookie :=
  <["name" := JStr "sid"]>
    (<["value" := JStr "y"]>
       (<["domain" := JStr "example.org"]>
          (<["expiry" := JInt 1900000000]> ∅))).

(** The requests that [login_with_selenium] and its helpers issue
    outside every [try]. *)
Definition unguarded (r : request) : bool :=
  match r with
  | StartChrome | Get _ | CurrentUrl | ReadCreds | CookieFileExists _ => true
  | _ => false
  end.

(** A browser that raises on no unguarded request, and on a readiness
    wait with [TimeoutException] only. *)
Definition quiet (B : Browser) : Prop :=
  forall (r : request) (w : world) (e : exn),
    fst (respond r w) = Raise e ->
    unguarded r = false
    /\ forall t, r = WaitReady t -> is_timeout e = true.

(** A browser that stays on the login page: no profile session, no
    cookie file, no credentials; the requests numbered in [faults] time
    out. *)
Definition login_page_lab (faults : list nat) : lab :=
  {| lab_table := []; lab_summary := None; lab_url := Login.LOGIN_URL;
     lab_faults := map (fun n => (n, TimeoutException)) faults |}.

(** ** Notions for the statements on the input texts *)

(** A text of whitespace only. *)
Fixpoint spaces (s : string) : bool :=
  match s with
  | EmptyString => true
  | String c r => Py.is_space c && spaces r
  end.

(** A text of whitespace and commas only. *)
Fixpoint blank (s : string) : bool :=
  match s with
  | EmptyString => true
  | String c r => (Py.is_space c || Ascii.eqb c ",") && blank r
  end.

(** A text without whitespace. *)
Fixpoint no_space (s : string) : bool :=
  match s with
  | EmptyString => true
  | String c r => negb (Py.is_space c) && no_space r
  end.

(** A part as the character loop of [parse_user_input] appends it to
    [parts]: not empty, stripped, and with a comma only when it mentions
    Dallas. *)
Definition settled_part (part : string) : Prop :=
  part <> EmptyString /\ Py.strip part = part
  /\ (comma_free part = true \/ Py.contains "Dallas" part = true).

(** The part the loop is collecting. *)
Definition open_part (cur : string) : Prop :=
  comma_free cur = true \/ Py.contains "Dallas" cur = true.

(** The object [b] reached from the object [a] by assignments of
    [parse_user_input]. *)
Definition parsed_from (a b : automation) : Prop :=
  driver b = driver a /\ all_data b = all_data a
  /\ (eri_code b = None -> eri_code a = None)
  /\ (location b = None -> location a = None)
  /\ (revenue b = None -> revenue a = None)
  /\ (industry b = None -> industry a = None)
  /\ (years_experience b = None -> years_experience a = None)
  /\ (data_type b = data_type a
      \/ exists s, data_type b = Some s /\ In s Parser.statistics).

(** The years of a row, written [N/A] when there are none. *)
Definition years_text (row : input_row) : string :=
  match row_years_experience row with Some y => y | None => "N/A" end.

(** The text of a row, as [parse_multi_input] reads rows: six parts
    separated by tabs. *)
Definition tsv_line (row : input_row) : string :=
  row_eri_code row +:+ String V2.tab
    (row_location row +:+ String V2.tab
       (row_revenue row +:+ String V2.tab
          (row_industry row +:+ String V2.tab
             (years_text row +:+ String V2.tab (row_data_type row))))).

(** The lines of the rows, one after the other. *)
Fixpoint tsv_text (rows : list input_row) : string :=
  match rows with
  | [] => EmptyString
  | [row] => tsv_line row
  | row :: rest => tsv_line row +:+ String V2.newline (tsv_text rest)
  end.

(** A part that passes unchanged: no tab, no line break, no whitespace
    around it. *)
Definition tidy (p : string) : Prop :=
  char_free V2.tab p = true /\ char_free V2.newline p = true
  /\ Py.lstrip p = p /\ Py.rstrip p = p.

(** A row that [tsv_line] writes without loss. *)
Definition tidy_row (row : input_row) : Prop :=
  tidy (row_eri_code row) /\ row_eri_code row <> EmptyString
  /\ tidy (row_location row)
  /\ tidy (row_revenue row) /\ comma_free (row_revenue row) = true
  /\ tidy (row_industry row)
  /\ match row_years_experience row with
     | Some y => tidy y /\ y <> "N/A"
     | None => True
     end
  /\ tidy (row_data_type row) /\ row_data_type row <> EmptyString.

(** What holds of every row that [parse_multi_input] builds. *)
Definition row_invariant (row : input_row) : Prop :=
  Py.strip (row_eri_code row) = row_eri_code row
  /\ Py.strip (row_location row) = row_location row
  /\ comma_free (row_revenue row) = true
  /\ Py.strip (row_industry row) = row_industry row
  /\ (forall y, row_years_experience row = Some y ->
                y <> "N/A" /\ Py.strip y = y)
  /\ Py.strip (row_data_type row) = row_data_type row.

(** Two rows for the examples, the second without years. *)
Definition tsv_rows : list input_row :=
  [dallas_row;
   {| row_eri_code := "4007"; row_location := "Austin";
      row_revenue := "1200000";
      row_industry := "All Industries - Diversified";
      row_years_experience := None;
      row_data_type := "All Incumbent Average" |}].

(** A complete row of the input file, as [csv.DictReader] yields it. *)
Definition csv_of (c l r i y d : string) : V2.csv_row :=
  <["ERI Code" := Some c]>
    (<["ERI Location" := Some l]>
       (<["Revenue" := Some r]>
          (<["Industry" := Some i]>
             (<["Years of Experience" := Some y]>
                (<["Requested Type" := Some d]> ∅))))).

(** A table of twenty rows, for the years 1 to 20. *)
Definition twenty_rows : list (list string) :=
  map (fun j => [Py.str (Z.of_nat j); "100"; "200"; "300"; "400"]) (seq 1 20).

(** ** Notions for the statements on the requests *)

(** The exception a reply stands for, if any. *)
Definition raised (a : reply) : option exn :=
  match a with Raise e => Some e | _ => None end.

(** The answer a request gets on the machine [m], and the machine it
    leaves. *)
Definition answer {B : Browser} (r : request) (m : machine) : reply :=
  fst (respond r (page m)).

Definition answered {B : Browser} (r : request) (m : machine) : machine :=
  {| self := self m; page := snd (respond r (page m));
     requests := requests m ++ [r] |}.

(** The machine after the requests [rs], answered one after the
    other. *)
Definition answered_all {B : Browser} (rs : list request) (m : machine)
  : machine :=
  fold_left (fun m r => answered r m) rs m.

(** The keys sent to an element for a text, one character at a time. *)
Definition typed (l : locator) (text : string) : list request :=
  map (fun c => SendKeys (Element l) (Chars (String c EmptyString)))
    (list_ascii_of_string text).

(** The requests that clear a field, with [n] backspaces. *)
Definition clearing (l : locator) (n : nat) : list request :=
  [SendKeys (Element l) CONTROL_a; SendKeys (Element l) DELETE; GetValue l]
  ++ repeat (SendKeys (Element l) BACKSPACE) n.

(** The keys of [dropdown_keyboard_selection], in order. *)
Definition dropdown_keys : list request :=
  [SwitchToActive; SendKeys ActiveElement ARROW_DOWN;
   SendKeys ActiveElement ARROW_DOWN; SendKeys ActiveElement ARROW_DOWN;
   SendKeys ActiveElement ENTER].

(** What the extractor keeps of the reply to the reading of a text. *)
Definition kept_text (a : reply) : string :=
  match a with
  | Raise _ => "Not found"
  | Text t => Py.strip t
  | _ => EmptyString
  end.

(** The query [find_first_displayed] makes for a selector. *)
Definition probe_of (sel : string) : request :=
  FirstDisplayedEnabled (Login.selector_locator sel).

(** What the file of cookies holds, as [_load_cookies_safely] reads
    it. *)
Definition snapshot {B : Browser} (cookies_path : string) (m : machine)
  : list cookie :=
  match answer (ReadCookieFile cookies_path)
          (answered (CookieFileExists cookies_path) m) with
  | Cookies l => l
  | _ => []
  end.

(** A program that leaves the field [f] of the object as it found it. *)
Definition keeps {B : Browser} {A X : Type} (f : automation -> X) (c : M A)
  : Prop :=
  forall m, f (self (snd (c m))) = f (self m).

(** A program that issues requests of the kind [P] only. *)
Definition issues {B : Browser} {A : Type} (P : request -> Prop) (c : M A)
  : Prop :=
  forall m, exists rs,
    requests (snd (c m)) = requests m ++ rs /\ Forall P rs.

(** The readings of the result page: the summary span, and in the
    rows 1 to 19 of the table the first cell and the cells 4 and 5. *)
Definition reads_result (r : request) : bool :=
  match r with
  | GetText (XPath p) => String.eqb p all_incumbent_xpath
  | GetText (TableCell row_num td) =>
      (1 <=? row_num)%nat && (row_num <=? 19)%nat
      && ((td =? 1)%nat || (td =? 4)%nat || (td =? 5)%nat)
  | _ => false
  end.

(** The requests that look at the session and change nothing. *)
Definition looks (r : request) : bool :=
  match r with
  | CurrentUrl | AnyDisplayed _ => true
  | _ => false
  end.

(** The requests that act on the page in front of the driver: they
    neither navigate, nor touch the session, nor a file. *)
Definition on_page (r : request) : bool :=
  match r with
  | ExecuteScript _ | WaitClickable _ | Click _ | ScriptClick _
  | ScrollIntoView _ | Clear _ | SwitchToActive | SendKeys _ _
  | GetText _ | GetValue _ | IsDisplayed _ => true
  | _ => false
  end.

(** The requests of the acquisition of a session: it opens the three
    addresses of the site only, reads and writes the file of cookies it
    was given only, and neither ends the browser nor touches the
    results. *)
Definition acquires (cookies_file : string) (r : request) : bool :=
  match r with
  | Get url =>
      String.eqb url Login.HOME_URL || String.eqb url Login.LOGIN_URL
      || String.eqb url "https://erieri.com/"
  | CookieFileExists p | ReadCookieFile p | WriteCookieFile p _ =>
      String.eqb p cookies_file
  | StartChrome | ExecuteCdp | WaitReady _ | CurrentUrl | AnyDisplayed _
  | FirstDisplayedEnabled _ | DeleteAllCookies | AddCookie _ | GetCookies
  | ReadCreds | Clear _ | SendKeys (Element _) (Chars _) | Click _
  | ScriptClick _ | Submit _ => true
  | _ => false
  end.

(** The start of the acquisition: the browser, the home page, the
    wait. *)
Definition opening {B : Browser} : M unit :=
  Login._build_driver ;;
  call (Get Login.HOME_URL) ;;
  Login.wait_ready_or_pass 20.

(** The three strategies of [login_with_selenium], in its order: the
    session of the profile, the cookies of the file, the credentials. *)
Definition by_profile {B : Browser} : M bool := Login._is_logged_in.

Definition by_cookies {B : Browser} (cookies_file : string) : M bool :=
  loaded <- Login._load_cookies_safely cookies_file ;;
  if loaded then Login.wait_ready_or_pass 15 ;; Login._is_logged_in
  else ret false.

Definition by_credentials {B : Browser} : M bool :=
  Login._attempt_auto_login.

(** The machine after the cookies of the session are asked for and, when
    the browser gives them, written to the file. *)
Definition saved {B : Browser} (cookies_file : string) (m : machine)
  : machine :=
  match answer GetCookies m with
  | Raise _ => answered GetCookies m
  | a =>
      answered
        (WriteCookieFile cookies_file
           (match a with Cookies l => l | _ => [] end))
        (answered GetCookies m)
  end.

(** The machine after the navigation to the login page and the wait
    that follows it. *)
Definition at_login {B : Browser} (m : machine) : machine :=
  answered (WaitReady 20) (answered (Get Login.LOGIN_URL) m).

(** ** More browsers for the examples *)

(** A page of the lab on which the requests picked by [special] get the
    answer it gives. *)
Definition lab_with (l : lab) (special : request -> option reply) : Browser :=
  {| world := nat;
     respond r n :=
       (match fault_at (lab_faults l) n with
        | Some e => Raise e
        | None =>
            match special r with
            | Some a => a
            | None => lab_reply l r
            end
        end, S n) |}.

(** An input file with the rows [rows]. *)
Definition input_file (rows : list input_row) (r : request) : option reply :=
  match r with
  | ReadCsv _ => Some (Rows rows)
  | _ => None
  end.

(** A file of cookies holding [cookies]. *)
Definition cookie_file (cookies : list cookie) (r : request) : option reply :=
  match r with
  | CookieFileExists _ => Some (Flag true)
  | ReadCookieFile _ => Some (Cookies cookies)
  | _ => None
  end.

(** Credentials as [_read_creds] finds them. *)
Definition credentials (user pw : string) (r : request) : option reply :=
  match r with
  | ReadCreds => Some (Creds (Some (user, pw)))
  | _ => None
  end.

(** A fresh machine on such a page. *)
Definition on_lab_with (l : lab) (special : request -> option reply)
    (a : automation) : machine (B := lab_with l special) :=
  @Build_machine (lab_with l special) a 0 [].

(** * Properties *)

(** ** Strings *)

#[local] Arguments String.append !_ _ / : simpl nomatch.

Lemma append_assoc (a b c : string) : (a +:+ b) +:+ c = a +:+ (b +:+ c).
Proof.
  induction a as [|x a IH]; simpl; [reflexivity | now rewrite IH].
Qed.

Lemma append_empty_r (a : string) : a +:+ EmptyString = a.
Proof.
  induction a as [|x a IH]; simpl; [reflexivity | now rewrite IH].
Qed.

Lemma startswith_cons_ne (n0 : ascii) (ns : string) (c : ascii) (s : string) :
  c <> n0 -> Py.startswith (String c s) (String n0 ns) = false.
Proof.
  intros Hne. simpl. destruct (Ascii.eqb n0 c) eqn:E; [|reflexivity].
  apply Ascii.eqb_eq in E. now subst.
Qed.

Lemma contains_cons_ne (n0 : ascii) (ns : string) (c : ascii) (s : string) :
  c <> n0 ->
  Py.contains (String n0 ns) (String c s) = Py.contains (String n0 ns) s.
Proof.
  intros Hne. change (Py.contains (String n0 ns) (String c s))
    with (Py.startswith (String c s) (String n0 ns)
          || Py.contains (String n0 ns) s).
  now rewrite startswith_cons_ne.
Qed.

Lemma contains_app_r (n a b : string) :
  Py.contains n b = true -> Py.contains n (a +:+ b) = true.
Proof.
  intros Hb. induction a as [|x a IH]; simpl; [exact Hb|].
  rewrite IH. apply orb_true_r.
Qed.

Lemma rstrip_cons (c : ascii) (s : string) :
  Py.rstrip s = s -> s <> EmptyString -> Py.rstrip (String c s) = String c s.
Proof.
  intros Hs Hne. simpl. rewrite Hs. destruct s; [congruence | reflexivity].
Qed.

Lemma rstrip_app (a b : string) :
  Py.rstrip b = b -> b <> EmptyString -> Py.rstrip (a +:+ b) = a +:+ b.
Proof.
  intros Hb Hne. induction a as [|x a IH]; simpl; [exact Hb|].
  rewrite IH. destruct (a +:+ b) eqn:E; [|reflexivity].
  destruct a; simpl in E; congruence.
Qed.

Lemma lstrip_app (a b : string) :
  Py.lstrip a = a -> a <> EmptyString -> Py.lstrip (a +:+ b) = a +:+ b.
Proof.
  intros Ha Hne. destruct a as [|x a]; [congruence|].
  simpl in *. destruct (Py.is_space x) eqn:E; [|reflexivity].
  exfalso. clear Hne.
  assert (Hlen : forall s, String.length (Py.lstrip s) <= String.length s).
  { induction s as [|y s IHs]; simpl; [lia|].
    destruct (Py.is_space y); simpl; lia. }
  specialize (Hlen a). rewrite Ha in Hlen. simpl in Hlen. lia.
Qed.

Lemma contains_nonempty (n0 : ascii) (ns s : string) :
  Py.contains (String n0 ns) s = true -> s <> EmptyString.
Proof. intros Hc ->. discriminate Hc. Qed.

Lemma comma_free_app (a b : string) :
  comma_free (a +:+ b) = comma_free a && comma_free b.
Proof.
  induction a as [|x a IH]; simpl; [reflexivity|].
  rewrite IH. now rewrite andb_assoc.
Qed.

Lemma contains_char_free (n0 : ascii) (ns t v : string) :
  char_free n0 t = true ->
  Py.contains (String n0 ns) (t +:+ v) = Py.contains (String n0 ns) v.
Proof.
  induction t as [|c t IH]; intros Hf; [reflexivity|].
  simpl in Hf. apply andb_prop in Hf as [Hc Ht].
  change (String c t +:+ v) with (String c (t +:+ v)).
  rewrite contains_cons_ne; [now apply IH|].
  intros ->. now rewrite Ascii.eqb_refl in Hc.
Qed.

Lemma lstrip_prefix (t v : string) :
  Py.lstrip t <> EmptyString -> Py.lstrip (t +:+ v) = Py.lstrip t +:+ v.
Proof.
  induction t as [|c t IH]; intros Hne; [now simpl in Hne|].
  simpl in *. destruct (Py.is_space c); [now apply IH | reflexivity].
Qed.

Lemma ends_nonspace_nonempty (t : string) :
  ends_nonspace t = true -> t <> EmptyString.
Proof. now destruct t. Qed.

Lemma rstrip_ends_nonspace (t : string) :
  ends_nonspace t = true -> Py.rstrip t = t.
Proof.
  induction t as [|c t IH]; intros He; [discriminate|].
  destruct t as [|d t].
  - simpl in *. now destruct (Py.is_space c).
  - apply rstrip_cons; [now apply IH | discriminate].
Qed.

Lemma rstrip_prefix (t v : string) :
  ends_nonspace t = true -> Py.rstrip v = v -> Py.rstrip (t +:+ v) = t +:+ v.
Proof.
  intros Ht Hv. destruct v as [|d v].
  - rewrite append_empty_r. now apply rstrip_ends_nonspace.
  - apply rstrip_app; [exact Hv | discriminate].
Qed.

(** The strip of a part made of a literal lead and a value. *)
Lemma strip_part (t v : string) :
  ends_nonspace (Py.lstrip t) = true -> Py.rstrip v = v ->
  Py.strip (t +:+ v) = Py.lstrip t +:+ v.
Proof.
  intros Ht Hv. unfold Py.strip.
  rewrite lstrip_prefix by now apply ends_nonspace_nonempty.
  now apply rstrip_prefix.
Qed.

Lemma truthy_prefix (t v : string) :
  t <> EmptyString -> Py.truthy (t +:+ v) = true.
Proof. now destruct t. Qed.

Lemma startswith_app_l (s n b : string) :
  Py.startswith s n = true -> Py.startswith (s +:+ b) n = true.
Proof.
  revert s. induction n as [|a n IH]; intros s H; [reflexivity|].
  destruct s as [|c s]; [discriminate|]. simpl in *.
  apply andb_prop in H as [Ha H]. rewrite Ha. simpl. auto.
Qed.

Lemma contains_app_l (n a b : string) :
  Py.contains n a = true -> Py.contains n (a +:+ b) = true.
Proof.
  induction a as [|c a IH]; intros H.
  - simpl in H. rewrite orb_false_r in H.
    destruct n; [|discriminate]. destruct b; reflexivity.
  - change (String c a +:+ b) with (String c (a +:+ b)).
    cbn [Py.contains] in *. apply orb_prop in H as [H|H].
    + change (String c (a +:+ b)) with (String c a +:+ b).
      rewrite (startswith_app_l _ _ _ H). reflexivity.
    + rewrite (IH H). apply orb_true_r.
Qed.

Lemma char_free_lstrip (x : ascii) (s : string) :
  char_free x s = true -> char_free x (Py.lstrip s) = true.
Proof.
  induction s as [|c s IH]; [reflexivity|]. intros H. simpl.
  destruct (Py.is_space c); [|exact H].
  simpl in H. apply andb_prop in H as [_ H]. auto.
Qed.

Lemma char_free_rstrip (x : ascii) (s : string) :
  char_free x s = true -> char_free x (Py.rstrip s) = true.
Proof.
  induction s as [|c s IH]; [reflexivity|]. intros H.
  simpl in H. apply andb_prop in H as [Hc H]. specialize (IH H).
  simpl. destruct (Py.rstrip s) eqn:E.
  - destruct (Py.is_space c); [reflexivity|]. simpl. now rewrite Hc.
  - simpl. simpl in IH. now rewrite Hc, IH.
Qed.

Lemma char_free_no_occurrence (x : ascii) (s : string) :
  char_free x s = true -> Py.contains (String x EmptyString) s = false.
Proof.
  intros H. rewrite <- (append_empty_r s).
  now rewrite contains_char_free.
Qed.

Lemma contains_suffix_false (n a b : string) :
  Py.contains n (a +:+ b) = false -> Py.contains n b = false.
Proof.
  intros H. destruct (Py.contains n b) eqn:E; [|reflexivity].
  now rewrite (contains_app_r n a b E) in H.
Qed.

(** ** The character loop of [parse_user_input] *)

Lemma split_loop_part (s rest : string) (parts : list string) (cur : string) :
  comma_free s = true ->
  Parser.split_loop (s +:+ rest) (parts, cur)
  = Parser.split_loop rest (parts, cur +:+ s).
Proof.
  revert cur. induction s as [|c s IH]; intros cur Hs.
  - now rewrite append_empty_r.
  - simpl in Hs. apply andb_prop in Hs as [Hc Hs].
    change (String c s +:+ rest) with (String c (s +:+ rest)).
    cbn [Parser.split_loop]. unfold Parser.split_step.
    destruct (Ascii.eqb c ",") eqn:E; [discriminate|].
    cbn [andb]. rewrite IH by exact Hs.
    now rewrite append_assoc.
Qed.

Lemma split_loop_separator (rest : string) (parts : list string)
    (cur : string) :
  Py.contains "Dallas" cur && negb (Py.contains "Texas" cur) = false ->
  Py.truthy (Py.strip cur) = true ->
  Parser.split_loop (String "," rest) (parts, cur)
  = Parser.split_loop rest (parts ++ [Py.strip cur], EmptyString).
Proof.
  intros Hd Ht. cbn [Parser.split_loop]. unfold Parser.split_step.
  rewrite Ascii.eqb_refl. cbn [andb]. rewrite Hd, Ht. reflexivity.
Qed.

Lemma split_loop_kept (rest : string) (parts : list string) (cur : string) :
  Py.contains "Dallas" cur = true -> Py.contains "Texas" cur = false ->
  Parser.split_loop (String "," rest) (parts, cur)
  = Parser.split_loop rest (parts, cur +:+ ",").
Proof.
  intros Hd Ht. cbn [Parser.split_loop]. unfold Parser.split_step.
  rewrite Ascii.eqb_refl. cbn [andb]. rewrite Hd, Ht. reflexivity.
Qed.

(** A part [t ++ v] followed by a comma is closed by that comma when
    [v] is plain and the lead [t] is a literal without comma and
    without ['D']. *)
Lemma split_loop_plain_part (t v rest : string) (parts : list string) :
  comma_free t = true -> char_free "D" t = true ->
  ends_nonspace (Py.lstrip t) = true -> plain v ->
  Parser.split_loop (t +:+ v +:+ String "," rest) (parts, EmptyString)
  = Parser.split_loop rest (parts ++ [Py.lstrip t +:+ v], EmptyString).
Proof.
  intros Hc Hd He (Hvc & Hvl & Hvr & Hvd).
  rewrite <- append_assoc.
  rewrite split_loop_part by (rewrite comma_free_app, Hc, Hvc; reflexivity).
  change (EmptyString +:+ (t +:+ v)) with (t +:+ v).
  rewrite split_loop_separator.
  - now rewrite strip_part.
  - now rewrite contains_char_free, Hvd.
  - rewrite strip_part by assumption.
    apply truthy_prefix. now apply ends_nonspace_nonempty.
Qed.

(** The same for a location [city, state] of the provided kind: the
    inner comma stays in the part. *)
Lemma split_loop_dallas_part (t city state rest : string)
    (parts : list string) :
  comma_free t = true -> char_free "T" t = true ->
  ends_nonspace (Py.lstrip t) = true -> dallas_texas city state ->
  Parser.split_loop
    (t +:+ city +:+ String "," (String " " (state +:+ String "," rest)))
    (parts, EmptyString)
  = Parser.split_loop rest
      (parts ++ [Py.lstrip t +:+ city +:+ ", " +:+ state], EmptyString).
Proof.
  intros Hc Hd He (Hcc & Hsc & Hcl & Hsr & Hcd & Hct & Hst).
  rewrite <- append_assoc.
  rewrite split_loop_part by (rewrite comma_free_app, Hc, Hcc; reflexivity).
  change (EmptyString +:+ (t +:+ city)) with (t +:+ city).
  rewrite split_loop_kept;
    [| now apply contains_app_r | now rewrite contains_char_free, Hct].
  change (String " " (state +:+ String "," rest))
    with ((" " +:+ state) +:+ String "," rest).
  rewrite split_loop_part by exact Hsc.
  assert (Hcur : ((t +:+ city) +:+ ",") +:+ " " +:+ state
                 = t +:+ city +:+ ", " +:+ state).
  { now rewrite !append_assoc. }
  rewrite Hcur.
  assert (Hr : Py.rstrip (city +:+ ", " +:+ state) = city +:+ ", " +:+ state).
  { apply rstrip_app.
    - apply (rstrip_app ", " state Hsr). now apply contains_nonempty in Hst.
    - discriminate. }
  rewrite split_loop_separator.
  - now rewrite strip_part.
  - replace (Py.contains "Texas" (t +:+ city +:+ ", " +:+ state)) with true.
    + apply andb_false_r.
    + symmetry. apply contains_app_r, contains_app_r.
      now apply (contains_app_r "Texas" ", " state).
  - rewrite strip_part by assumption.
    apply truthy_prefix. now apply ends_nonspace_nonempty.
Qed.

(** Once the part mentions Dallas, and as long as Texas does not come,
    no comma separates: the rest of the text stays in the part. *)
Lemma split_loop_absorbs (rest : string) :
  forall (parts : list string) (cur : string),
    Py.contains "Dallas" cur = true ->
    Py.contains "Texas" (cur +:+ rest) = false ->
    Parser.split_loop rest (parts, cur) = (parts, cur +:+ rest).
Proof.
  induction rest as [|char rest IH]; intros parts cur Hd Ht.
  - now rewrite append_empty_r.
  - assert (Hc : Py.contains "Texas" cur = false).
    { destruct (Py.contains "Texas" cur) eqn:E; [|reflexivity].
      now rewrite (contains_app_l _ _ _ E) in Ht. }
    assert (Hnext : (cur +:+ String char EmptyString) +:+ rest
                    = cur +:+ String char rest).
    { now rewrite append_assoc. }
    cbn [Parser.split_loop]. unfold Parser.split_step.
    rewrite Hd, Hc. cbn [andb negb]. rewrite andb_true_r.
    destruct (Ascii.eqb char ","); cbn [andb];
      (rewrite IH; [now rewrite Hnext | now apply contains_app_l
                   | now rewrite Hnext]).
Qed.

(** A location [city, state] whose city does not mention Dallas is
    scanned as two parts. *)
Lemma split_loop_two_parts (city state rest : string) (parts : list string) :
  plain city -> split_off state ->
  Parser.split_loop
    (" ERI Location=" +:+ (city +:+ ", " +:+ state) +:+ String "," rest)
    (parts, EmptyString)
  = Parser.split_loop rest
      (parts ++ ["ERI Location=" +:+ city; Py.strip state], EmptyString).
Proof.
  intros Hcity (Hsc & _ & Hsd & Hst).
  assert (E : " ERI Location=" +:+ (city +:+ ", " +:+ state) +:+ String "," rest
              = " ERI Location=" +:+ city
                +:+ String "," ((" " +:+ state) +:+ String "," rest)).
  { now rewrite !append_assoc. }
  rewrite E.
  rewrite (split_loop_plain_part " ERI Location=")
    by (reflexivity || assumption).
  rewrite split_loop_part by exact Hsc.
  change (EmptyString +:+ (" " +:+ state)) with (String " " state).
  rewrite split_loop_separator.
  - rewrite <- app_assoc. reflexivity.
  - rewrite contains_cons_ne by discriminate. now rewrite Hsd.
  - exact Hst.
Qed.

(** ** The assignments of [parse_user_input] *)

Lemma assign_eri_code (a : automation) (v : string) :
  Parser.assign_part a ("ERI Code=" +:+ v) = set_eri_code (Some (Py.strip v)) a.
Proof. reflexivity. Qed.

Lemma assign_location (a : automation) (v : string) :
  Parser.assign_part a ("ERI Location=" +:+ v)
  = set_location (Some (Py.strip v)) a.
Proof. reflexivity. Qed.

Lemma assign_revenue (a : automation) (v : string) :
  Parser.assign_part a ("Revenue=" +:+ v) = set_revenue (Some (Py.strip v)) a.
Proof. reflexivity. Qed.

Lemma assign_industry (a : automation) (v : string) :
  Parser.assign_part a ("Industry=" +:+ v)
  = set_industry (Some (Py.strip v)) a.
Proof. reflexivity. Qed.

Lemma assign_years (a : automation) (v : string) :
  Parser.assign_part a ("Years of Experience=" +:+ v)
  = set_years_experience (Some (Py.strip v)) a.
Proof. reflexivity. Qed.

Lemma statistic_cases (s : string) :
  Parser.is_statistic s = true ->
  s = "Mean" \/ s = "Median" \/ s = "25th Percentile" \/ s = "75th Percentile".
Proof.
  unfold Parser.is_statistic, Parser.statistics. cbn [existsb].
  rewrite !orb_true_iff, !String.eqb_eq. intuition discriminate.
Qed.

Lemma assign_statistic (a : automation) (s : string) :
  Parser.is_statistic s = true ->
  Parser.assign_part a s = set_data_type (Some s) a.
Proof.
  intros Hs. destruct (statistic_cases s Hs) as [->|[->|[->| ->]]];
    reflexivity.
Qed.

Lemma split_loop_statistic (s : string) (parts : list string) :
  Parser.is_statistic s = true ->
  (let '(ps, cur) := Parser.split_loop (" " +:+ s) (parts, EmptyString) in
   if Py.truthy (Py.strip cur) then ps ++ [Py.strip cur] else ps)
  = parts ++ [s].
Proof.
  intros Hs. destruct (statistic_cases s Hs) as [->|[->|[->| ->]]];
    reflexivity.
Qed.

Lemma strip_plain (v : string) : plain v -> Py.strip v = v.
Proof. intros (_ & Hl & Hr & _). unfold Py.strip. now rewrite Hl. Qed.

Lemma strip_dallas_texas (city state : string) :
  dallas_texas city state ->
  Py.strip (city +:+ ", " +:+ state) = city +:+ ", " +:+ state.
Proof.
  intros (_ & _ & Hcl & Hsr & Hcd & _ & Hst). unfold Py.strip.
  rewrite lstrip_app; [| exact Hcl | now apply contains_nonempty in Hcd].
  apply rstrip_app; [| discriminate].
  apply (rstrip_app ", " state Hsr). now apply contains_nonempty in Hst.
Qed.

(** A part without ["="] that is not a statistic assigns nothing; one
    that is a statistic sets it. *)
Lemma assign_bare (a : automation) (part : string) :
  char_free "=" part = true ->
  Parser.assign_part a part
  = if Parser.is_statistic part then set_data_type (Some part) a else a.
Proof.
  intros H. unfold Parser.assign_part.
  now rewrite (char_free_no_occurrence "=" part H).
Qed.

(** The parts of a line, given the parts that the scan makes of its
    location. *)
Lemma split_parts_of_line (c l r i y s : string) (lparts : list string) :
  plain c -> plain r -> plain i -> plain y ->
  Parser.is_statistic s = true ->
  (forall rest parts,
      Parser.split_loop (" ERI Location=" +:+ l +:+ String "," rest)
        (parts, EmptyString)
      = Parser.split_loop rest (parts ++ lparts, EmptyString)) ->
  Parser.split_parts (input_line c l r i y s)
  = ["ERI Code=" +:+ c] ++ lparts
    ++ ["Revenue=" +:+ r; "Industry=" +:+ i;
        "Years of Experience=" +:+ y; s].
Proof.
  intros Hc Hr Hi Hy Hs Hl. unfold Parser.split_parts.
  change (input_line c l r i y s)
    with ("ERI Code=" +:+ c +:+ String ","
           (" ERI Location=" +:+ l +:+ String ","
             (" Revenue=" +:+ r +:+ String ","
               (" Industry=" +:+ i +:+ String ","
                 (" Years of Experience=" +:+ y +:+ String ","
                   (" " +:+ s)))))).
  rewrite (split_loop_plain_part "ERI Code=") by (reflexivity || assumption).
  rewrite Hl.
  rewrite (split_loop_plain_part " Revenue=") by (reflexivity || assumption).
  rewrite (split_loop_plain_part " Industry=") by (reflexivity || assumption).
  rewrite (split_loop_plain_part " Years of Experience=")
    by (reflexivity || assumption).
  rewrite split_loop_statistic by exact Hs.
  cbn [app]. now rewrite <- !app_assoc.
Qed.

(** The six parts of a line whose location is scanned as one part. *)
Lemma split_parts_line (c l r i y s : string) :
  plain c -> plain r -> plain i -> plain y ->
  Parser.is_statistic s = true ->
  (forall rest parts,
      Parser.split_loop (" ERI Location=" +:+ l +:+ String "," rest)
        (parts, EmptyString)
      = Parser.split_loop rest (parts ++ ["ERI Location=" +:+ l], EmptyString)) ->
  Parser.split_parts (input_line c l r i y s)
  = ["ERI Code=" +:+ c; "ERI Location=" +:+ l; "Revenue=" +:+ r;
     "Industry=" +:+ i; "Years of Experience=" +:+ y; s].
Proof.
  intros Hc Hr Hi Hy Hs Hl.
  now rewrite (split_parts_of_line c l r i y s ["ERI Location=" +:+ l]).
Qed.

Lemma parse_line (c l r i y s : string) (a : automation) :
  plain c -> plain r -> plain i -> plain y ->
  Parser.is_statistic s = true -> Py.strip l = l ->
  (forall rest parts,
      Parser.split_loop (" ERI Location=" +:+ l +:+ String "," rest)
        (parts, EmptyString)
      = Parser.split_loop rest (parts ++ ["ERI Location=" +:+ l], EmptyString)) ->
  Parser.parse_user_input (input_line c l r i y s) a
  = (true, with_fields c l r i y s a).
Proof.
  intros Hc Hr Hi Hy Hs Hls Hl. unfold Parser.parse_user_input.
  rewrite split_parts_line by assumption.
  cbn [fold_left].
  rewrite assign_eri_code, assign_location, assign_revenue, assign_industry,
    assign_years, assign_statistic by exact Hs.
  rewrite (strip_plain c), (strip_plain r), (strip_plain i), (strip_plain y)
    by assumption.
  rewrite Hls. reflexivity.
Qed.

(** ** Claims on [parse_user_input] *)

(** C5, as amended.  On a line of the documented format whose code,
    revenue, industry and years are plain and whose last token is a
    statistic, a two-part location [city, state] is parsed in one of two
    ways.  When the city mentions Dallas and the state Texas, the comma
    between them is kept: the location is the whole [city, state].
    When the city does not mention Dallas, the comma separates: the
    location is the city alone, and the state, a part of its own without
    ["="], is dropped.  In both cases the other five values are those
    of the line. *)
Theorem parse_dallas_texas_location :
  forall (c city state r i y s : string) (a : automation),
    plain c -> plain r -> plain i -> plain y ->
    Parser.is_statistic s = true ->
    (dallas_texas city state ->
     Parser.parse_user_input
       (input_line c (city +:+ ", " +:+ state) r i y s) a
     = (true, with_fields c (city +:+ ", " +:+ state) r i y s a))
    /\ (plain city -> split_off state ->
        Parser.parse_user_input
          (input_line c (city +:+ ", " +:+ state) r i y s) a
        = (true, with_fields c city r i y s a)).
Proof.
  intros c city state r i y s a Hc Hr Hi Hy Hs. split.
  - intros Hl. apply parse_line; try assumption.
    + now apply strip_dallas_texas.
    + intros rest parts. rewrite !append_assoc.
      now apply (split_loop_dallas_part " ERI Location=" city state rest
                   parts).
  - intros Hcity Hstate. unfold Parser.parse_user_input.
    rewrite (split_parts_of_line c (city +:+ ", " +:+ state) r i y s
               ["ERI Location=" +:+ city; Py.strip state])
      by (assumption || (intros; now apply split_loop_two_parts)).
    cbn [app fold_left].
    rewrite assign_eri_code, assign_location.
    rewrite (assign_bare _ (Py.strip state)).
    2:{ destruct Hstate as (_ & He & _). unfold Py.strip.
        now apply char_free_rstrip, char_free_lstrip. }
    rewrite (strip_plain c), (strip_plain city) by assumption.
    destruct (Parser.is_statistic (Py.strip state));
      rewrite assign_revenue, assign_industry, assign_years,
        assign_statistic by exact Hs;
      rewrite (strip_plain r), (strip_plain i), (strip_plain y)
        by assumption;
      reflexivity.
Qed.

(** C5, the example of the claim: the line of [main] in [V0.py]. *)
Lemma parse_dallas_example :
  Parser.parse_user_input dallas_example new_automation
  = (true,
     {| driver := false;
        eri_code := Some "4006";
        location := Some "Dallas, Texas";
        revenue := Some "565000000";
        industry := Some "All Industries - Diversified";
        years_experience := Some "11";
        data_type := Some "75th Percentile";
        all_data := [] |}).
Proof.
  apply (proj1 (parse_dallas_texas_location "4006" "Dallas" "Texas"
                  "565000000" "All Industries - Diversified" "11"
                  "75th Percentile" new_automation
                  ltac:(repeat split; reflexivity)
                  ltac:(repeat split; reflexivity)
                  ltac:(repeat split; reflexivity)
                  ltac:(repeat split; reflexivity) eq_refl)).
  repeat split; reflexivity.
Defined.

(** C5, as stated, fails: with another city the comma separates, so the
    location is cut at the comma and the state is dropped. *)
Lemma parse_austin_texas_location :
  location
    (snd (Parser.parse_user_input
            "ERI Code=4006, ERI Location=Austin, Texas, Revenue=565000000, Industry=All Industries - Diversified, Years of Experience=11, 75th Percentile"
            new_automation))
  = Some "Austin"
  /\ location
       (snd (Parser.parse_user_input
               "ERI Code=4006, ERI Location=Austin, Texas, Revenue=565000000, Industry=All Industries - Diversified, Years of Experience=11, 75th Percentile"
               new_automation))
     <> Some "Austin, Texas".
Proof. split; [reflexivity | discriminate]. Qed.

Lemma with_fields_idem (c l r i y s : string) (a : automation) :
  with_fields c l r i y s (with_fields c l r i y s a)
  = with_fields c l r i y s a.
Proof. reflexivity. Qed.

(** Where the round trip of the input grammar holds: on a line whose
    code, revenue, industry and years are plain, whose location is
    plain or a [city, state] of the Dallas and Texas kind, and whose
    last token is one of the four statistics, parsing sets exactly
    these six values; writing the parsed record again in that format
    gives the same line, and parsing it again leaves the record as it
    is. *)
Lemma parse_plain_roundtrip (c l r i y s : string) (a : automation) :
  plain c -> plain r -> plain i -> plain y ->
  Parser.is_statistic s = true ->
  plain l
  \/ (exists city state,
        l = city +:+ ", " +:+ state /\ dallas_texas city state) ->
  Parser.parse_user_input (input_line c l r i y s) a
  = (true, with_fields c l r i y s a)
  /\ serialize_spec (with_fields c l r i y s a)
     = Some (input_line c l r i y s)
  /\ Parser.parse_user_input (input_line c l r i y s)
       (with_fields c l r i y s a)
     = (true, with_fields c l r i y s a).
Proof.
  intros Hc Hr Hi Hy Hs Hl.
  assert (Hline : forall a0,
             Parser.parse_user_input (input_line c l r i y s) a0
             = (true, with_fields c l r i y s a0)).
  { intros a0. apply parse_line; try assumption.
    - destruct Hl as [Hl|(city & state & -> & Hl)];
        [now apply strip_plain | now apply strip_dallas_texas].
    - intros rest parts. destruct Hl as [Hl|(city & state & -> & Hl)].
      + now apply (split_loop_plain_part " ERI Location=").
      + rewrite !append_assoc.
        now apply (split_loop_dallas_part " ERI Location=" city state rest
                     parts). }
  split; [apply Hline|].
  split; [reflexivity|]. rewrite Hline. now rewrite with_fields_idem.
Qed.

(** The text that a location [l] absorbs when no later comma
    separates: the rest of the line. *)
Lemma rest_of_line_stripped (city tail s : string) :
  Py.lstrip city = city -> Py.contains "Dallas" city = true ->
  Parser.is_statistic s = true ->
  Py.strip (" ERI Location=" +:+ city +:+ tail +:+ s)
  = "ERI Location=" +:+ city +:+ tail +:+ s
  /\ Py.strip (city +:+ tail +:+ s) = city +:+ tail +:+ s.
Proof.
  intros Hl Hd Hs.
  assert (Hr : Py.rstrip (city +:+ tail +:+ s) = city +:+ tail +:+ s).
  { apply rstrip_app; [apply rstrip_app|].
    - destruct (statistic_cases s Hs) as [->|[->|[->| ->]]]; reflexivity.
    - intros ->. discriminate Hs.
    - destruct tail; [cbn; intros ->; discriminate Hs | discriminate]. }
  split.
  - now apply (strip_part " ERI Location=").
  - unfold Py.strip. rewrite lstrip_app; [exact Hr | exact Hl |].
    now apply contains_nonempty in Hd.
Qed.

(** C6, the failing inputs.  A line of the documented format whose
    location is [city, state], the city mentioning Dallas, and in which
    Texas never comes: after the code no comma separates any more, the
    line has two parts only.  Parsing answers [True]; the location is
    the rest of the line, and the revenue, the industry, the years and
    the statistic of the line are not produced: these fields are left as
    they were. *)
Theorem parse_dallas_without_texas :
  forall (c city state r i y s : string) (a : automation),
    plain c -> comma_free city = true -> Py.lstrip city = city ->
    Py.contains "Dallas" city = true ->
    Parser.is_statistic s = true ->
    Py.contains "Texas" (input_line c (city +:+ ", " +:+ state) r i y s)
    = false ->
    Parser.parse_user_input
      (input_line c (city +:+ ", " +:+ state) r i y s) a
    = (true,
       set_location
         (Some (city +:+ ", " +:+ state +:+ ", Revenue=" +:+ r
                +:+ ", Industry=" +:+ i +:+ ", Years of Experience=" +:+ y
                +:+ ", " +:+ s))
         (set_eri_code (Some c) a)).
Proof.
  intros c city state r i y s a Hc Hcc Hcl Hd Hs Ht.
  set (tail := ", " +:+ state +:+ ", Revenue=" +:+ r +:+ ", Industry=" +:+ i
               +:+ ", Years of Experience=" +:+ y +:+ ", ").
  set (rest := (" ERI Location=" +:+ city) +:+ tail +:+ s).
  assert (E : input_line c (city +:+ ", " +:+ state) r i y s
              = ("ERI Code=" +:+ c +:+ ",") +:+ rest).
  { unfold input_line, rest, tail. now rewrite !append_assoc. }
  assert (E' : ("ERI Code=" +:+ c +:+ ",") +:+ rest
               = "ERI Code=" +:+ c +:+ String "," rest).
  { now rewrite !append_assoc. }
  rewrite E in Ht. apply contains_suffix_false in Ht.
  rewrite E, E'. clear E E'.
  destruct (rest_of_line_stripped city tail s Hcl Hd Hs) as [Hp Hv].
  unfold Parser.parse_user_input, Parser.split_parts.
  rewrite (split_loop_plain_part "ERI Code=") by (reflexivity || assumption).
  unfold rest in *.
  rewrite split_loop_part
    by (rewrite comma_free_app; cbn; now rewrite Hcc).
  rewrite split_loop_absorbs.
  - change (("" +:+ " ERI Location=" +:+ city) +:+ tail +:+ s)
      with ((" ERI Location=" +:+ city) +:+ tail +:+ s).
    rewrite (append_assoc " ERI Location=" city), Hp.
    cbn [Py.truthy String.append app fold_left Py.lstrip Py.is_space].
    rewrite assign_eri_code, (strip_plain c Hc).
    change (String "E" (String "R" (String "I" (String " " ?x))))
      with ("ERI " +:+ x).
    change (Parser.assign_part ?b _)
      with (Parser.assign_part b ("ERI Location=" +:+ city +:+ tail +:+ s)).
    rewrite assign_location, Hv. unfold tail.
    now rewrite !append_assoc.
  - now apply (contains_app_r "Dallas" " ERI Location=").
  - exact Ht.
Qed.

(** C6, a failing input: this line follows the grammar, with a
    two-part location, yet after ["Dallas"] no comma separates any
    more, since ["Texas"] never comes; the statistic and three of the
    fields are not produced. *)
Lemma parse_dallas_georgia_loses_statistic :
  Parser.parse_user_input
    "ERI Code=1, ERI Location=Dallas, Georgia, Revenue=5, Industry=X, Years of Experience=3, Mean"
    new_automation
  = (true,
     {| driver := false;
        eri_code := Some "1";
        location :=
          Some "Dallas, Georgia, Revenue=5, Industry=X, Years of Experience=3, Mean";
        revenue := None;
        industry := None;
        years_experience := None;
        data_type := None;
        all_data := [] |}).
Proof.
  apply (parse_dallas_without_texas "1" "Dallas" "Georgia" "5" "X" "3" "Mean"
           new_automation);
    repeat split; reflexivity.
Defined.

(** ** The row scan on a static table *)

Lemma is_str_false (o : option string) (s : string) :
  o <> Some s -> is_str o s = false.
Proof.
  destruct o as [t|]; [|reflexivity]. intros Hne. simpl.
  apply String.eqb_neq. congruence.
Qed.

Lemma is_str_true (o : option string) (s : string) :
  is_str o s = true -> o = Some s.
Proof.
  destruct o as [t|]; [|discriminate]. simpl. intros Ht.
  apply String.eqb_eq in Ht. now subst.
Qed.

(** Unfold the operations of the monad and compute. *)
Ltac run_prog :=
  unfold ask_text, ask_flag, ask_cookies, pass;
  unfold try_except, bind, call, ret, raise, get_self, modify_self, after;
  simpl.

Section StaticTable.
Variable tbl : list (list string).
Variable summary : option string.
Abbreviation TB := (table_browser tbl summary).

Lemma V2_check_row_miss (j : nat) (u target : string) (dt : option string)
    (m : machine (B := TB)) :
  cell tbl j 1 = Some u -> Py.strip u <> target ->
  V2.check_row (B := TB) j target dt m
  = (Ok Next, after m [GetText (TableCell j 1)]).
Proof.
  intros Hc Hne. destruct m as [a [] log].
  unfold V2.check_row; run_prog.
  rewrite Hc. apply String.eqb_neq in Hne. rewrite Hne. reflexivity.
Qed.

Lemma V2_check_row_hit (i td : nat) (t v : string) (dt : option string)
    (m : machine (B := TB)) :
  cell tbl i 1 = Some t -> V2.data_column dt = Some td ->
  cell tbl i td = Some v ->
  V2.check_row (B := TB) i (Py.strip t) dt m
  = (Ok (Stop (Some (Py.strip v))),
     after m [GetText (TableCell i 1); GetText (TableCell i td)]).
Proof.
  intros Hc Hd Hv. destruct m as [a [] log].
  unfold V2.check_row; run_prog.
  rewrite Hc, String.eqb_refl, Hd. simpl. rewrite Hv.
  now rewrite <- app_assoc.
Qed.

Lemma V2_scan_from (len k i td : nat) (t v : string) (dt : option string)
    (m : machine (B := TB)) :
  k <= i < k + len ->
  cell tbl i 1 = Some t -> V2.data_column dt = Some td ->
  cell tbl i td = Some v ->
  (forall j, k <= j < i ->
     exists u, cell tbl j 1 = Some u /\ Py.strip u <> Py.strip t) ->
  V2.scan_rows (B := TB) (seq k len) (Py.strip t) dt "Not found" m
  = (Ok (Py.strip v),
     after m (map (fun j => GetText (TableCell j 1)) (seq k (S i - k))
              ++ [GetText (TableCell i td)])).
Proof.
  revert k m. induction len as [|len IH]; intros k m Hk Hc Hd Hv Hbefore;
    [lia|].
  cbn [seq V2.scan_rows]. unfold bind at 1.
  destruct (Nat.eq_dec k i) as [->|Hne].
  - rewrite (V2_check_row_hit i td t v) by assumption.
    replace (S i - i) with 1 by lia. destruct m; reflexivity.
  - destruct (Hbefore k) as (u & Hu & Hun); [lia|].
    rewrite (V2_check_row_miss k u) by assumption.
    rewrite IH; try assumption; [| lia | intros j Hj; apply Hbefore; lia].
    replace (S i - k) with (S (S i - S k)) by lia.
    cbn [seq map]. unfold after. cbn [self page requests].
    now rewrite <- !app_assoc.
Qed.
End StaticTable.

Lemma V2_data_column_cases (dt : option string) (td : nat) :
  V2.data_column dt = Some td ->
  (dt = Some "Mean" /\ td = 4) \/ (dt = Some "75th Percentile" /\ td = 5).
Proof.
  unfold V2.data_column. destruct (is_str dt "Mean") eqn:E1.
  - intros [= <-]. left. split; [now apply is_str_true | reflexivity].
  - destruct (is_str dt "75th Percentile") eqn:E2; [|discriminate].
    intros [= <-]. right. split; [now apply is_str_true | reflexivity].
Qed.

Lemma V0_data_column_of_V2 (dt : option string) (td : nat) :
  V2.data_column dt = Some td -> V0.data_column dt = Some td.
Proof.
  intros Hd. destruct (V2_data_column_cases dt td Hd) as [[-> ->]|[-> ->]];
    reflexivity.
Qed.

Section StaticTableExtraction.
Variable tbl : list (list string).
Variable summary : option string.
Abbreviation TB := (table_browser tbl summary).

Lemma V0_check_row_miss (j : nat) (u target : string) (dt : option string)
    (m : machine (B := TB)) :
  cell tbl j 1 = Some u -> Py.strip u <> target ->
  V0.check_row (B := TB) j target dt m
  = (Ok Next, after m [GetText (TableCell j 1)]).
Proof.
  intros Hc Hne. destruct m as [a [] log].
  unfold V0.check_row; run_prog.
  rewrite Hc. apply String.eqb_neq in Hne. rewrite Hne. reflexivity.
Qed.

Lemma V0_check_row_hit (i td : nat) (t v : string) (dt : option string)
    (m : machine (B := TB)) :
  cell tbl i 1 = Some t -> V0.data_column dt = Some td ->
  cell tbl i td = Some v ->
  V0.check_row (B := TB) i (Py.strip t) dt m
  = (Ok (Stop (Some (Py.strip v))),
     after m [GetText (TableCell i 1); GetText (TableCell i td)]).
Proof.
  intros Hc Hd Hv. destruct m as [a [] log].
  unfold V0.check_row; run_prog.
  rewrite Hc, String.eqb_refl, Hd. simpl. rewrite Hv.
  now rewrite <- app_assoc.
Qed.

Lemma V0_scan_from (len k i td : nat) (t v : string) (dt : option string)
    (m : machine (B := TB)) :
  k <= i < k + len ->
  cell tbl i 1 = Some t -> V0.data_column dt = Some td ->
  cell tbl i td = Some v ->
  (forall j, k <= j < i ->
     exists u, cell tbl j 1 = Some u /\ Py.strip u <> Py.strip t) ->
  V0.scan_rows (B := TB) (seq k len) (Py.strip t) dt "Not found" m
  = (Ok (Py.strip v),
     after m (map (fun j => GetText (TableCell j 1)) (seq k (S i - k))
              ++ [GetText (TableCell i td)])).
Proof.
  revert k m. induction len as [|len IH]; intros k m Hk Hc Hd Hv Hbefore;
    [lia|].
  cbn [seq V0.scan_rows]. unfold bind at 1.
  destruct (Nat.eq_dec k i) as [->|Hne].
  - rewrite (V0_check_row_hit i td t v) by assumption.
    replace (S i - i) with 1 by lia. destruct m; reflexivity.
  - destruct (Hbefore k) as (u & Hu & Hun); [lia|].
    rewrite (V0_check_row_miss k u) by assumption.
    rewrite IH; try assumption; [| lia | intros j Hj; apply Hbefore; lia].
    replace (S i - k) with (S (S i - S k)) by lia.
    cbn [seq map]. unfold after. cbn [self page requests].
    now rewrite <- !app_assoc.
Qed.

(** [V2.py]: with the statistic ["Mean"] or ["75th Percentile"] and an
    integer [years_experience], the value is the stripped text of the
    statistic's [td] in the earliest matching row, when that row is one
    of the rows 1 to 19; the requests stop at that row. *)
Lemma V2_extract_first_match (a : automation) (y : string) (n : Z)
    (td i : nat) (v : string) (log : list request) :
  years_experience a = Some y -> Py.int y = Some n ->
  V2.data_column (data_type a) = Some td ->
  1 <= i <= 19 -> earliest_match tbl (Py.str n) i ->
  cell tbl i td = Some v ->
  V2.extract_years_experience_data (B := TB)
    (on_table tbl summary a log)
  = (Ok (Some (V2.result_of a (V2.years_or_na (Some y)) (Py.strip v))),
     on_table tbl summary a
       (log ++ first_cells i ++ [GetText (TableCell i td)])).
Proof.
  intros Hy Hn Hd Hi [(t & Ht & Hts) Hbefore] Hv.
  pose proof (V2_scan_from tbl summary 19 1 i td t v (data_type a)
                (on_table tbl summary a log)) as Hscan.
  rewrite Hts in Hscan.
  specialize (Hscan ltac:(lia) Ht Hd Hv Hbefore).
  replace (S i - 1) with i in Hscan by lia.
  unfold V2.extract_years_experience_data, row_range, on_table in *.
  unfold try_except, bind at 1, get_self. cbn [self].
  destruct (V2_data_column_cases _ _ Hd) as [[Hdt ->]|[Hdt ->]];
    rewrite Hdt in *; cbn [is_str String.eqb Ascii.eqb Bool.eqb orb];
    rewrite Hy, Hn; unfold bind at 1; rewrite Hscan; reflexivity.
Qed.

(** [V0.py]: the same, after the read of the summary field, for every
    statistic the column test accepts. *)
Lemma V0_extract_first_match (a : automation) (y : string) (n : Z)
    (td i : nat) (v : string) (log : list request) :
  years_experience a = Some y -> Py.int y = Some n ->
  V0.data_column (data_type a) = Some td ->
  1 <= i <= 19 -> earliest_match tbl (Py.str n) i ->
  cell tbl i td = Some v ->
  V0.extract_years_experience_data (B := TB)
    (on_table tbl summary a log)
  = (Ok (Some {| V0.x_eri_code := eri_code a;
                 V0.x_location := location a;
                 V0.x_industry := industry a;
                 V0.x_revenue := revenue a;
                 V0.x_years_experience := Some y;
                 V0.x_data_type := data_type a;
                 V0.x_all_incumbent_average := summary_text summary;
                 V0.x_mean_value := Py.strip v |}),
     on_table tbl summary a
       (log ++ GetText (XPath all_incumbent_xpath)
            :: first_cells i ++ [GetText (TableCell i td)])).
Proof.
  intros Hy Hn Hd Hi [(t & Ht & Hts) Hbefore] Hv.
  pose proof (V0_scan_from 19 1 i td t v (data_type a)
                (on_table tbl summary a
                   (log ++ [GetText (XPath all_incumbent_xpath)])))
    as Hscan.
  rewrite Hts in Hscan.
  specialize (Hscan ltac:(lia) Ht Hd Hv Hbefore).
  replace (S i - 1) with i in Hscan by lia.
  unfold V0.extract_years_experience_data, row_range, on_table in *.
  unfold try_except at 1, bind at 1.
  assert (Hsum :
    try_except (B := TB)
      (t0 <- ask_text (GetText (XPath all_incumbent_xpath)) ;;
       ret (Py.strip t0)) any_exception (ret "Not found")
      (on_table tbl summary a log)
    = (Ok (summary_text summary),
       on_table tbl summary a
         (log ++ [GetText (XPath all_incumbent_xpath)]))).
  { unfold on_table. run_prog. destruct summary; reflexivity. }
  unfold on_table in Hsum. rewrite Hsum. unfold bind at 1, get_self. cbn [self].
  rewrite Hy, Hn. unfold bind at 1. rewrite Hscan.
  unfold ret, after. cbn [self page requests].
  rewrite <- app_assoc. reflexivity.
Qed.

End StaticTableExtraction.

(** ** Claims on the extractor *)

(** [V2.py]: a statistic outside the three names of the two branches
    reaches the final [return] at once. *)
Lemma V2_extract_other_statistic {B : Browser} (m : machine) :
  data_type (self m) <> Some "All Incumbent Average" ->
  data_type (self m) <> Some "Mean" ->
  data_type (self m) <> Some "75th Percentile" ->
  V2.extract_years_experience_data m
  = (Ok (Some (V2.result_of (self m)
                 (V2.years_or_na (years_experience (self m))) "Not found")),
     m).
Proof.
  intros H1 H2 H3. unfold V2.extract_years_experience_data.
  unfold try_except, bind, get_self, ret.
  rewrite (is_str_false _ _ H1), (is_str_false _ _ H2), (is_str_false _ _ H3).
  reflexivity.
Qed.

(** C10.  In [V2.py], for a statistic that is neither
    ["All Incumbent Average"], ["Mean"] nor ["75th Percentile"], the
    extractor issues no request at all, whatever the browser shows, and
    returns an outcome whose extracted value is ["Not found"]. *)
Theorem other_statistic_never_scans :
  forall (B : Browser) (m : machine),
    data_type (self m) <> Some "All Incumbent Average" ->
    data_type (self m) <> Some "Mean" ->
    data_type (self m) <> Some "75th Percentile" ->
    exists row,
      V2.extract_years_experience_data m = (Ok (Some row), m)
      /\ r_extracted_value row = "Not found"
      /\ requests (snd (V2.extract_years_experience_data m)) = requests m.
Proof.
  intros B m H1 H2 H3.
  rewrite (V2_extract_other_statistic m H1 H2 H3).
  eexists. split; [reflexivity|]. split; reflexivity.
Qed.

(** C10 on the table of the spec, asking for the median at 11 years. *)
Lemma other_statistic_never_scans_witness :
  exists row,
    V2.extract_years_experience_data
      (on_table example_table None (asking "Median" (Some "11")) [])
    = (Ok (Some row),
       on_table example_table None (asking "Median" (Some "11")) [])
    /\ r_extracted_value row = "Not found"
    /\ requests
         (snd (V2.extract_years_experience_data
                 (on_table example_table None
                    (asking "Median" (Some "11")) [])))
       = [].
Proof.
  apply (other_statistic_never_scans (table_browser example_table None)
           (on_table example_table None (asking "Median" (Some "11")) []));
    simpl; discriminate.
Defined.

(** C4, the failing input.  [read_csv_input] gives the string [""] for
    an empty ["Years of Experience"] cell; with the statistic ["Mean"]
    the guard [is None] does not hold, [int("")] raises inside the
    extractor, the outer handler returns [None]: no outcome with the
    ["Not found"] value is produced, on any browser. *)
Theorem empty_years_returns_none :
  forall (B : Browser) (w : world) (log : list request),
    V2.extract_years_experience_data
      {| self := asking "Mean" (Some ""); page := w; requests := log |}
    = (Ok None,
       {| self := asking "Mean" (Some ""); page := w; requests := log |}).
Proof. intros B w log. reflexivity. Qed.

(** [V2.py], the guarded case: with [years_experience] equal to [None]
    the outcome carries ["N/A"] and ["Not found"]. *)
Lemma none_years_returns_sentinel :
  forall (B : Browser) (w : world) (log : list request),
    V2.extract_years_experience_data
      {| self := asking "Mean" None; page := w; requests := log |}
    = (Ok (Some (V2.result_of (asking "Mean" None) "N/A" "Not found")),
       {| self := asking "Mean" None; page := w; requests := log |}).
Proof. intros B w log. reflexivity. Qed.

(** [V0.py] has no guard: [int(None)] raises and [None] is returned,
    after the read of the summary field. *)
Lemma V0_none_years_returns_none :
  fst (V0.extract_years_experience_data
         (on_table example_table None (asking "Mean" None) []))
  = Ok None.
Proof. reflexivity. Qed.

(** C3, as amended.  For a statistic read from the table (["Mean"] or
    ["75th Percentile"]): when the earliest row whose first cell,
    stripped, equals [str(int(years_experience))] is one of the rows 1
    to 19, every row before it has a first cell, and it has the [td] of
    the statistic, both scripts return the stripped text of that [td]
    of that row, and the requests they issue stop there: no later row
    is read, whether it matches or not. *)
Theorem earliest_matching_row_wins :
  forall (tbl : list (list string)) (summary : option string)
         (a : automation) (y : string) (n : Z) (td i : nat) (v : string)
         (log : list request),
    years_experience a = Some y -> Py.int y = Some n ->
    V2.data_column (data_type a) = Some td ->
    1 <= i <= 19 -> earliest_match tbl (Py.str n) i ->
    cell tbl i td = Some v ->
    V2.extract_years_experience_data (on_table tbl summary a log)
    = (Ok (Some (V2.result_of a (V2.years_or_na (Some y)) (Py.strip v))),
       on_table tbl summary a
         (log ++ first_cells i ++ [GetText (TableCell i td)]))
    /\ exists r,
         V0.extract_years_experience_data (on_table tbl summary a log)
         = (Ok (Some r),
            on_table tbl summary a
              (log ++ GetText (XPath all_incumbent_xpath)
                   :: first_cells i ++ [GetText (TableCell i td)]))
         /\ V0.x_mean_value r = Py.strip v.
Proof.
  intros tbl summary a y n td i v log Hy Hn Hd Hi Hm Hv. split.
  - apply (V2_extract_first_match tbl summary a y n td i v log); assumption.
  - eexists. split.
    + apply (V0_extract_first_match tbl summary a y n td i v log);
        try assumption.
      now apply V0_data_column_of_V2.
    + reflexivity.
Qed.

(** C3 on a table with two rows for 11 years: the value is the one of
    the earlier row and the later row is never read. *)
Lemma earliest_matching_row_wins_witness :
  V2.extract_years_experience_data
    (on_table two_matches_table None
       (asking "75th Percentile" (Some "11")) [])
  = (Ok (Some (V2.result_of (asking "75th Percentile" (Some "11")) "11" "420")),
     on_table two_matches_table None (asking "75th Percentile" (Some "11"))
       [GetText (TableCell 1 1); GetText (TableCell 2 1);
        GetText (TableCell 2 5)])
  /\ exists r,
       V0.extract_years_experience_data
         (on_table two_matches_table None
            (asking "75th Percentile" (Some "11")) [])
       = (Ok (Some r),
          on_table two_matches_table None
            (asking "75th Percentile" (Some "11"))
            [GetText (XPath all_incumbent_xpath); GetText (TableCell 1 1);
             GetText (TableCell 2 1); GetText (TableCell 2 5)])
       /\ V0.x_mean_value r = "420".
Proof.
  apply (earliest_matching_row_wins two_matches_table None
           (asking "75th Percentile" (Some "11")) "11" 11 5 2 "420" []);
    try reflexivity; [lia|].
  split.
  - exists "11". split; reflexivity.
  - intros j Hj. assert (j = 1) as -> by lia.
    exists "5". split; [reflexivity | discriminate].
Defined.

(** C3, as stated, fails: both rows of [short_match_table] have the
    key 11, the earlier one has no fifth cell, and the value returned
    is the one of the later row, which has been read.  It also fails
    in [V2.py] on complete rows for a statistic that is not read from
    the table: with two rows for 11 years the median is ["Not found"]. *)
Lemma later_matching_row_is_read :
  V2.extract_years_experience_data
    (on_table short_match_table None
       (asking "75th Percentile" (Some "11")) [])
  = (Ok (Some (V2.result_of (asking "75th Percentile" (Some "11")) "11" "421")),
     on_table short_match_table None (asking "75th Percentile" (Some "11"))
       [GetText (TableCell 1 1); GetText (TableCell 1 5);
        GetText (TableCell 2 1); GetText (TableCell 2 5)])
  /\ (exists r,
        fst (V0.extract_years_experience_data
               (on_table short_match_table None
                  (asking "75th Percentile" (Some "11")) []))
        = Ok (Some r)
        /\ V0.x_mean_value r = "421")
  /\ cell short_match_table 2 5 = Some "421"
  /\ fst (V2.extract_years_experience_data
            (on_table two_matches_table None
               (asking "Median" (Some "11")) []))
     = Ok (Some (V2.result_of (asking "Median" (Some "11")) "11"
                   "Not found")).
Proof.
  split; [reflexivity|]. split; [|split; reflexivity].
  eexists. split; reflexivity.
Qed.

Lemma V2_columns_data_column (d : string) (td : nat) :
  In (d, td) V2_columns -> V2.data_column (Some d) = Some td.
Proof.
  unfold V2_columns. cbn [In].
  intros [[= <- <-]|[[= <- <-]|[]]]; reflexivity.
Qed.

Lemma V0_columns_data_column (d : string) (td : nat) :
  In (d, td) V0_columns -> V0.data_column (Some d) = Some td.
Proof.
  unfold V0_columns. cbn [In].
  intros [[= <- <-]|[[= <- <-]|[[= <- <-]|[[= <- <-]|[]]]]]; reflexivity.
Qed.

(** C2, as amended.  In the earliest matching row (one of the rows 1 to
    19) [V2.py] reads [td[4]] for ["Mean"] and [td[5]] for
    ["75th Percentile"]; for every other statistic but
    ["All Incumbent Average"] it reads nothing and the value is
    ["Not found"].  [V0.py] reads [td[4]] for ["Mean"] and ["Median"]
    and [td[5]] for ["75th Percentile"] and ["25th Percentile"]. *)
Theorem statistic_columns :
  forall (tbl : list (list string)) (summary : option string)
         (a : automation) (y : string) (n : Z) (d : string) (i : nat)
         (log : list request),
    years_experience a = Some y -> Py.int y = Some n ->
    data_type a = Some d ->
    1 <= i <= 19 -> earliest_match tbl (Py.str n) i ->
    (forall td v,
        In (d, td) V2_columns -> cell tbl i td = Some v ->
        fst (V2.extract_years_experience_data (on_table tbl summary a log))
        = Ok (Some (V2.result_of a (V2.years_or_na (Some y)) (Py.strip v))))
    /\ (forall td v,
          In (d, td) V0_columns -> cell tbl i td = Some v ->
          exists r,
            fst (V0.extract_years_experience_data
                   (on_table tbl summary a log))
            = Ok (Some r)
            /\ V0.x_mean_value r = Py.strip v)
    /\ (d <> "All Incumbent Average" -> d <> "Mean" ->
        d <> "75th Percentile" ->
        V2.extract_years_experience_data (on_table tbl summary a log)
        = (Ok (Some (V2.result_of a (V2.years_or_na (Some y)) "Not found")),
           on_table tbl summary a log)).
Proof.
  intros tbl summary a y n d i log Hy Hn Hd Hi Hm. repeat split.
  - intros td v Hin Hv. apply V2_columns_data_column in Hin.
    rewrite <- Hd in Hin.
    now rewrite (V2_extract_first_match tbl summary a y n td i v log).
  - intros td v Hin Hv. apply V0_columns_data_column in Hin.
    rewrite <- Hd in Hin.
    rewrite (V0_extract_first_match tbl summary a y n td i v log)
      by assumption.
    eexists. split; reflexivity.
  - intros H1 H2 H3.
    rewrite V2_extract_other_statistic; cbn [self on_table];
      rewrite ?Hd, ?Hy; congruence.
Qed.

(** C2, the example of the claim: the table of the spec, the 75th
    percentile at 11 years, gives ["420"]. *)
Lemma statistic_columns_example :
  fst (V2.extract_years_experience_data
         (on_table example_table None
            (asking "75th Percentile" (Some "11")) []))
  = Ok (Some (V2.result_of (asking "75th Percentile" (Some "11")) "11" "420")).
Proof.
  assert (Hm : earliest_match example_table (Py.str 11) 2).
  { split.
    - exists "11". split; reflexivity.
    - intros j Hj. assert (j = 1) as -> by lia.
      exists "5". split; [reflexivity | discriminate]. }
  destruct (statistic_columns example_table None
              (asking "75th Percentile" (Some "11")) "11" 11
              "75th Percentile" 2 [] eq_refl eq_refl eq_refl
              ltac:(lia) Hm)
    as [H2 _].
  apply (H2 5 "420"); [right; left|]; reflexivity.
Defined.

(** C2, as stated, fails for the default case: on the table of the
    spec, for ["25th Percentile"] at 11 years, [V0.py] returns the
    fifth cell of the row, not the fourth, and [V2.py] returns
    ["Not found"]. *)
Lemma percentile25_not_column_4 :
  cell example_table 2 4 = Some "310"
  /\ (exists r,
        fst (V0.extract_years_experience_data
               (on_table example_table None
                  (asking "25th Percentile" (Some "11")) []))
        = Ok (Some r)
        /\ V0.x_mean_value r = "420" /\ V0.x_mean_value r <> "310")
  /\ (exists row,
        fst (V2.extract_years_experience_data
               (on_table example_table None
                  (asking "25th Percentile" (Some "11")) []))
        = Ok (Some row)
        /\ r_extracted_value row = "Not found"
        /\ r_extracted_value row <> "310").
Proof.
  split; [reflexivity|]. split; eexists; (split; [reflexivity|]);
    (split; [reflexivity | discriminate]).
Qed.

(** ** Programs that keep the object, programs that always return *)

Section Frames.
Context {B : Browser}.

Lemma keeps_ret {A} (a : A) : keeps_self (ret a).
Proof. intros m. reflexivity. Qed.

Lemma keeps_raise {A} (e : exn) : keeps_self (raise (A := A) e).
Proof. intros m. reflexivity. Qed.

Lemma keeps_get_self : keeps_self get_self.
Proof. intros m. reflexivity. Qed.

Lemma keeps_call (r : request) : keeps_self (call r).
Proof.
  intros m. unfold call. destruct (respond r (page m)) as [a w].
  destruct a; reflexivity.
Qed.

(** A request in closed form. *)
Lemma call_run (r : request) (m : machine) :
  call r m
  = (match raised (answer r m) with
     | Some e => Raised e
     | None => Ok (answer r m)
     end, answered r m).
Proof.
  unfold call, answer, answered.
  destruct (respond r (page m)) as [[] w]; reflexivity.
Qed.

Lemma keeps_bind {A C} (c : M A) (k : A -> M C) :
  keeps_self c -> (forall a, keeps_self (k a)) -> keeps_self (bind c k).
Proof.
  intros Hc Hk m. unfold bind. specialize (Hc m).
  destruct (c m) as [[a|e] m1]; simpl in *; [|exact Hc].
  now rewrite Hk.
Qed.

Lemma keeps_try {A} (c h : M A) (handles : exn -> bool) :
  keeps_self c -> keeps_self h -> keeps_self (try_except c handles h).
Proof.
  intros Hc Hh m. unfold try_except. specialize (Hc m).
  destruct (c m) as [[a|e] m1]; simpl in *; [exact Hc|].
  destruct (handles e); simpl; [now rewrite Hh | exact Hc].
Qed.

Lemma total_ret {A} (a : A) : total (ret a).
Proof. intros m. now exists a, m. Qed.

Lemma total_try_any {A} (c h : M A) :
  total h -> total (try_except c any_exception h).
Proof.
  intros Hh m. unfold try_except.
  destruct (c m) as [[a|e] m1]; [now exists a, m1 | apply Hh].
Qed.

Lemma total_bind {A C} (c : M A) (k : A -> M C) :
  total c -> (forall a, total (k a)) -> total (bind c k).
Proof.
  intros Hc Hk m. unfold bind. destruct (Hc m) as (a & m1 & ->). apply Hk.
Qed.

End Frames.

(** Decompose a goal [keeps_self c] along the structure of [c]. *)
Ltac frame :=
  repeat (intros;
          first [ assumption | solve [auto 1]
                | apply keeps_ret | apply keeps_raise | apply keeps_get_self
                | apply keeps_call | apply keeps_bind | apply keeps_try
                | match goal with
                  | |- keeps_self (match ?x with _ => _ end) => destruct x
                  end ]).

Section FramesOfTheSteps.
Context {B : Browser}.

Lemma keeps_ask_text (r : request) : keeps_self (ask_text r).
Proof. unfold ask_text. frame. Qed.

Lemma keeps_ask_flag (r : request) : keeps_self (ask_flag r).
Proof. unfold ask_flag. frame. Qed.

Lemma keeps_wait_and_click (xpath : string) :
  keeps_self (V2.wait_and_click xpath).
Proof. unfold V2.wait_and_click. frame. Qed.

Lemma keeps_press_down (n : nat) : keeps_self (V2.press_down n).
Proof. induction n; simpl; unfold pass; frame. Qed.

Lemma keeps_dropdown : keeps_self V2.dropdown_keyboard_selection.
Proof.
  unfold V2.dropdown_keyboard_selection. pose proof keeps_press_down. frame.
Qed.

Lemma keeps_press_backspace (l : locator) (n : nat) :
  keeps_self (V2.press_backspace l n).
Proof. induction n; simpl; unfold pass; frame. Qed.

Lemma keeps_type_chars (l : locator) (text : string) :
  keeps_self (V2.type_chars l text).
Proof. induction text; simpl; unfold pass; frame. Qed.

Lemma keeps_enhanced (l : locator) (text : option string) :
  keeps_self (V2.enhanced_text_clear_and_type l text).
Proof.
  unfold V2.enhanced_text_clear_and_type, V2.type_text, pass.
  pose proof keeps_press_backspace. pose proof keeps_type_chars.
  pose proof keeps_ask_text. frame.
Qed.

Lemma keeps_type_and_enter (xpath : string) (value : option string) :
  keeps_self (V2.type_and_enter xpath value).
Proof.
  unfold V2.type_and_enter, pass.
  pose proof keeps_enhanced. pose proof keeps_ask_flag. frame.
Qed.

Lemma keeps_type_eri_code : keeps_self V2.type_eri_code.
Proof. unfold V2.type_eri_code. frame. Qed.

Lemma keeps_click_confirmation (v : V2.variant) :
  keeps_self (V2.click_confirmation v).
Proof. unfold V2.click_confirmation, pass. frame. Qed.

Lemma keeps_perform (v : V2.variant) (s : V2.step) :
  keeps_self (V2.perform v s).
Proof.
  pose proof keeps_wait_and_click. pose proof keeps_dropdown.
  pose proof keeps_type_eri_code. pose proof keeps_click_confirmation.
  pose proof keeps_type_and_enter.
  destruct s; simpl; try (now auto);
    unfold V2.type_location, V2.type_industry, V2.type_revenue; frame.
Qed.

Lemma keeps_run_steps (v : V2.variant) (steps : list V2.step) :
  keeps_self (V2.run_steps v steps).
Proof.
  pose proof keeps_perform.
  induction steps as [|s steps IH]; simpl; frame.
Qed.

Lemma keeps_check_row (row_num : nat) (target : string)
    (dt : option string) : keeps_self (V2.check_row row_num target dt).
Proof. unfold V2.check_row. pose proof keeps_ask_text. frame. Qed.

Lemma keeps_scan_rows (row_nums : list nat) (target : string)
    (dt : option string) (v : string) :
  keeps_self (V2.scan_rows row_nums target dt v).
Proof.
  pose proof keeps_check_row.
  induction row_nums as [|r rs IH]; simpl; frame.
Qed.

Lemma keeps_extract : keeps_self V2.extract_years_experience_data.
Proof.
  unfold V2.extract_years_experience_data.
  pose proof keeps_scan_rows. pose proof keeps_ask_text. frame.
Qed.

End FramesOfTheSteps.

(** ** The runs as sequences of steps *)

(** Case analysis on the outcome of every program applied to the
    current machine, one after the other. *)
Ltac step_cases :=
  repeat (try reflexivity; cbn beta iota;
          first
            [ match goal with
              | |- context [if negb ?b then _ else _] =>
                  is_var b; destruct b; cbn [negb]
              | |- context [if ?b then _ else _] => is_var b; destruct b
              | |- context [match ?o with Some _ => _ | None => _ end] =>
                  is_var o; destruct o
              end
            | match goal with
              | |- context [match ?c ?m with _ => _ end] =>
                  match type of (c m) with
                  | (result _ * machine)%type => destruct (c m) as [[?|?] ?]
                  end
              end ]).

Section Sequencer.
Context {B : Browser}.

(** [run_complete_automation] is the full sequence, then the
    extraction, under the handler that answers [False]. *)
Lemma run_complete_as_steps (m : machine) :
  V2.run_complete_automation m
  = try_except
      (ok <- V2.run_steps V2.Full V2.full_sequence ;;
       if ok then finish_run V2.Full else ret false)
      any_exception (ret false) m.
Proof.
  unfold V2.run_complete_automation, finish_run, V2.full_sequence.
  cbn [V2.run_steps V2.perform].
  unfold try_except, bind, ret. step_cases.
Qed.

(** [run_subsequent_automation] is the page reset, the abbreviated
    sequence, then the extraction. *)
Lemma run_subsequent_as_steps (row : input_row) (m : machine) :
  V2.run_subsequent_automation row m
  = (modify_self (V2.load_row row) ;;
     try_except
       (call (ExecuteScript V2.scroll_to_top) ;;
        try_except (call (ExecuteScript V2.body_click) ;; pass)
          any_exception pass ;;
        ok <- V2.run_steps V2.Abbreviated V2.abbreviated_sequence ;;
        if ok then finish_run V2.Abbreviated else ret false)
       any_exception (ret false)) m.
Proof.
  unfold V2.run_subsequent_automation, finish_run, V2.abbreviated_sequence.
  cbn [V2.run_steps V2.perform].
  unfold pass. unfold try_except, bind, ret, modify_self, any_exception.
  step_cases.
Qed.

(** The sequencer stops at the first step that does not answer
    [True]: the machine is the one this step leaves. *)
Lemma run_steps_stops (v : V2.variant) (pre post : list V2.step)
    (s : V2.step) (m m1 m2 : machine) (r : result bool) :
  V2.run_steps v pre m = (Ok true, m1) ->
  V2.perform v s m1 = (r, m2) -> r <> Ok true ->
  V2.run_steps v (pre ++ s :: post) m
  = (match r with Ok _ => Ok false | Raised e => Raised e end, m2).
Proof.
  revert m. induction pre as [|p pre IH]; intros m Hpre Hs Hr.
  - cbn in Hpre. injection Hpre as <-. cbn [app V2.run_steps].
    unfold bind. rewrite Hs. destruct r as [[|]|e]; [congruence | |];
      reflexivity.
  - cbn [app V2.run_steps] in *. unfold bind in *.
    destruct (V2.perform v p m) as [[[|]|e] m'];
      [now apply IH | discriminate Hpre | discriminate Hpre].
Qed.

End Sequencer.

(** ** Claim on the step sequencer *)

(** C9, as amended.  A run stops at the first step that does not
    answer [True] (it answers [False] or raises): the run answers
    [False] and the machine is the one that step leaves, so that no
    request of a later step is issued.  The abbreviated sequence is the
    full sequence without its first step: 9 steps and 8 steps; outside
    steps 6 and 9 the two variants perform the same interaction. *)
Theorem sequencer_stops_at_first_failure :
  forall (B : Browser) (pre post : list V2.step) (s : V2.step)
         (row : input_row) (m m0 m1 m2 : machine) (r : result bool),
    r <> Ok true ->
    (V2.full_sequence = pre ++ s :: post ->
     V2.run_steps V2.Full pre m = (Ok true, m1) ->
     V2.perform V2.Full s m1 = (r, m2) ->
     V2.run_complete_automation m = (Ok false, m2))
    /\ (V2.abbreviated_sequence = pre ++ s :: post ->
        page_reset row m = (Ok tt, m0) ->
        V2.run_steps V2.Abbreviated pre m0 = (Ok true, m1) ->
        V2.perform V2.Abbreviated s m1 = (r, m2) ->
        V2.run_subsequent_automation row m = (Ok false, m2))
    /\ V2.abbreviated_sequence = tl V2.full_sequence
    /\ length V2.full_sequence = 9
    /\ length V2.abbreviated_sequence = 8
    /\ (forall s', s' <> V2.Step6 -> s' <> V2.Step9 ->
        V2.perform V2.Full s' = V2.perform V2.Abbreviated s').
Proof.
  intros B pre post s row m m0 m1 m2 r Hr.
  split; [|split; [|repeat split]].
  - intros Hseq Hpre Hs. rewrite run_complete_as_steps, Hseq.
    unfold try_except, bind at 1.
    rewrite (run_steps_stops V2.Full pre post s m m1 m2 r Hpre Hs Hr).
    destruct r as [[|]|e]; [congruence | reflexivity | reflexivity].
  - intros Hseq Hreset Hpre Hs. rewrite run_subsequent_as_steps, Hseq.
    pose proof (run_steps_stops V2.Abbreviated pre post s m0 m1 m2 r
                  Hpre Hs Hr) as Hstop.
    unfold page_reset in Hreset. unfold pass in *.
    unfold bind, modify_self, try_except, any_exception, ret in *.
    destruct (call (ExecuteScript V2.scroll_to_top) _) as [[a|e] ma];
      [|discriminate Hreset].
    destruct (call (ExecuteScript V2.body_click) ma) as [[a'|e'] mb];
      injection Hreset as <-; rewrite Hstop;
      destruct r as [[|]|e0]; congruence || reflexivity.
  - intros s' H6 H9. destruct s'; congruence || reflexivity.
Qed.

(** C9 on a page where the element of step 3 never becomes clickable
    (the fifth request): the run answers [False] and the requests are
    those of steps 1 to 3. *)
Lemma sequencer_stops_at_step3 :
  V2.run_complete_automation
    (on_lab (faulty_lab [4]) (V2.load_row dallas_row new_automation))
  = (Ok false,
     @Build_machine (lab_browser (faulty_lab [4]))
       (V2.load_row dallas_row new_automation) 5
       [WaitClickable (XPath V2.step1_xpath); Click (XPath V2.step1_xpath);
        WaitClickable (XPath V2.step2_xpath); Click (XPath V2.step2_xpath);
        WaitClickable (XPath V2.step3_xpath)]).
Proof.
  refine (proj1 (sequencer_stops_at_first_failure
                   (lab_browser (faulty_lab [4]))
                   [V2.Step1; V2.Step2]
                   [V2.Step4; V2.Step5; V2.Step6; V2.Step7; V2.Step8;
                    V2.Step9]
                   V2.Step3 dallas_row
                   (on_lab (faulty_lab [4])
                      (V2.load_row dallas_row new_automation))
                   (on_lab (faulty_lab [4])
                      (V2.load_row dallas_row new_automation))
                   (@Build_machine (lab_browser (faulty_lab [4]))
                      (V2.load_row dallas_row new_automation) 4
                      [WaitClickable (XPath V2.step1_xpath);
                       Click (XPath V2.step1_xpath);
                       WaitClickable (XPath V2.step2_xpath);
                       Click (XPath V2.step2_xpath)])
                   _ (Ok false) _) _ _ _);
    [discriminate | reflexivity | reflexivity | reflexivity].
Defined.

(** C9, as stated, fails on the count: the abbreviated sequence has
    eight steps, one less than the nine of the full sequence, not
    seven. *)
Lemma abbreviated_sequence_has_eight_steps :
  length V2.full_sequence = 9
  /\ length V2.abbreviated_sequence = 8
  /\ length V2.abbreviated_sequence <> 7.
Proof. split; [reflexivity|]. split; [reflexivity | discriminate]. Qed.

(** Step 9 is not the same interaction in the two variants: for the
    revenue ["565000000"] the full run types ["565,000,000"], two
    characters more than the abbreviated run. *)
Lemma step9_differs :
  length (requests (snd (V2.perform V2.Full V2.Step9
                           (on_lab (faulty_lab [])
                              (V2.load_row dallas_row new_automation)))))
  = 2 + length (requests (snd (V2.perform V2.Abbreviated V2.Step9
                                 (on_lab (faulty_lab [])
                                    (V2.load_row dallas_row
                                       new_automation))))).
Proof. reflexivity. Qed.

(** ** The batch *)

Section Batch.
Context {B : Browser}.












End Batch.

(** ** Claim on the batch *)




(** An extraction that returns nothing on the first record does not
    end the batch: with an empty [years_experience] and the statistic
    ["Mean"] on the first record, the two later records are logged. *)
Lemma first_record_extraction_failure_continues :
  map (fun d => (r_eri_code d, r_extracted_value d))
    (all_data
       (self (snd (V2.run_rows
                     [{| row_eri_code := "4005"; row_location := "Waco";
                         row_revenue := "1000"; row_industry := "All";
                         row_years_experience := Some "";
                         row_data_type := "Mean" |};
                      austin_row; houston_row]
                     (on_lab (faulty_lab []) new_automation)))))
  = [(Some "4007", "300"); (Some "4008", "310")].
Proof. vm_compute. reflexivity. Qed.

(** A record whose row is not found in the table is not left out of
    the log: it is logged with the value ["Not found"]. *)
Lemma missing_row_is_logged_with_sentinel :
  map (fun d => (r_eri_code d, r_extracted_value d))
    (all_data
       (self (snd (V2.run_rows [dallas_row; waco_row; houston_row]
                     (on_lab (faulty_lab []) new_automation)))))
  = [(Some "4006", "420"); (Some "4009", "Not found"); (Some "4008", "310")].
Proof. vm_compute. reflexivity. Qed.

(** ** Loading the cookie snapshot *)


Lemma sanitize_expiry (raw : cookie) :
  Login._sanitize_cookie raw !! "expiry" = kept_expiry (raw !! "expiry").
Proof.
  unfold Login._sanitize_cookie, kept_expiry.
  repeat match goal with
         | |- context [match ?x with _ => _ end] => destruct x eqn:?
         end;
    rewrite ?lookup_insert_ne, ?lookup_delete_ne by discriminate;
    rewrite ?lookup_delete_eq; congruence.
Qed.


Lemma offered_to_cons (netloc : string) (raw : cookie) (rest : list cookie) :
  offered_to netloc (raw :: rest)
  = match Login.cookie_domain (Login._sanitize_cookie raw) with
    | Some d =>
        if Login.domain_matches netloc d
        then Login._sanitize_cookie raw :: offered_to netloc rest
        else offered_to netloc rest
    | None => offered_to netloc rest
    end.
Proof.
  unfold offered_to. cbn [map List.filter].
  destruct (Login.cookie_domain (Login._sanitize_cookie raw)) as [d|];
    [destruct (Login.domain_matches netloc d)|]; reflexivity.
Qed.

Lemma bind_run {B : Browser} {A C : Type} (c : M A) (k : A -> M C)
    (m m1 : machine) (r : result A) :
  c m = (r, m1) ->
  bind c k m = match r with
               | Ok a => k a m1
               | Raised e => (Raised e, m1)
               end.
Proof. intros Hc. unfold bind. now rewrite Hc. Qed.

Lemma call_requests {B : Browser} (r : request) (m : machine) :
  requests (snd (call r m)) = requests m ++ [r].
Proof.
  unfold call. destruct (respond r (page m)) as [a w].
  destruct a; reflexivity.
Qed.

Section CookieLoad.
Context {B : Browser}.

(** [try: driver.add_cookie(c); added += 1  except WebDriverException:
    pass]: the request is issued; the count grows by one at most. *)
Lemma try_add_cookie (c : cookie) (added : nat) (m : machine) :
  exists r m1,
    try_except (call (AddCookie c) ;; ret (S added))
      is_webdriver_exception (ret added) m = (r, m1)
    /\ requests m1 = requests m ++ [AddCookie c]
    /\ forall n, r = Ok n -> n <= S added.
Proof.
  unfold try_except, bind, call, ret.
  destruct (respond (AddCookie c) (page m)) as [a w].
  destruct a as [| | | | | |e];
    try (eexists _, _; split; [reflexivity|]; split; [reflexivity|];
         intros n [= <-]; lia).
  destruct (is_webdriver_exception e);
    eexists _, _; (split; [reflexivity|]); (split; [reflexivity|]);
    intros n [=]; lia.
Qed.

Lemma add_cookies_loop_requests (cookies : list cookie) (netloc : string) :
  forall (added : nat) (m : machine),
    (exists k,
        requests (snd (Login.add_cookies_loop cookies netloc added m))
        = requests m ++ map AddCookie (take k (offered_to netloc cookies)))
    /\ (forall n,
           fst (Login.add_cookies_loop cookies netloc added m) = Ok n ->
           requests (snd (Login.add_cookies_loop cookies netloc added m))
           = requests m ++ map AddCookie (offered_to netloc cookies)
           /\ n <= added + length (offered_to netloc cookies)).
Proof.
  induction cookies as [|raw rest IH]; intros added m.
  - split; [exists 0 | intros n [= <-]; split; [|cbn; lia]];
      cbn; now rewrite app_nil_r.
  - rewrite offered_to_cons. cbn [Login.add_cookies_loop].
    destruct (Login.cookie_domain (Login._sanitize_cookie raw)) as [d|].
    + unfold Login.domain_matches.
      destruct (Py.truthy d); cbn [negb andb]; [|apply IH].
      destruct (String.eqb d netloc || Py.endswith netloc d); [|apply IH].
      destruct (try_add_cookie (Login._sanitize_cookie raw) added m)
        as (r & m1 & Htry & Hreq & Hcount).
      rewrite !(bind_run _ _ m m1 r Htry).
      destruct r as [added'|e]; cbn beta iota.
      * destruct (IH added' m1) as [[k Hk] Hall]. split.
        -- exists (S k). rewrite Hk, Hreq. cbn [take map].
           now rewrite <- app_assoc.
        -- intros n Hn. destruct (Hall n Hn) as [Hr Hc]. split.
           ++ rewrite Hr, Hreq. cbn [map]. now rewrite <- app_assoc.
           ++ specialize (Hcount added' eq_refl). cbn [length]. lia.
      * split; [|discriminate]. exists 1. exact Hreq.
    + split; [|discriminate]. exists 0. cbn. now rewrite app_nil_r.
Qed.

End CookieLoad.

(** ** Claim on the cookie snapshot *)



(** ** Session acquisition *)

Lemma bind_inv {B : Browser} {A C : Type} (c : M A) (k : A -> M C)
    (m m' : machine) (b : C) :
  bind c k m = (Ok b, m') ->
  exists a m1, c m = (Ok a, m1) /\ k a m1 = (Ok b, m').
Proof.
  unfold bind. destruct (c m) as [[a|e] m1]; [|discriminate].
  intros Hk. now exists a, m1.
Qed.

Tactic Notation "binv" hyp(H) "as" ident(a) ident(m) ident(Hc) :=
  apply bind_inv in H as (a & m & Hc & H).

Section Acquisition.
Context {B : Browser}.

Lemma save_fresh_cookies_total (cookies_file : string) :
  total (Login._save_fresh_cookies cookies_file).
Proof.
  unfold Login._save_fresh_cookies, pass. apply total_try_any, total_ret.
Qed.

Lemma wait_ready_or_pass_requests (t : nat) (m m' : machine) (u : unit) :
  Login.wait_ready_or_pass t m = (Ok u, m') ->
  requests m' = requests m ++ [WaitReady t].
Proof.
  unfold Login.wait_ready_or_pass, Login._wait_ready, pass, try_except.
  pose proof (call_requests (WaitReady t) m) as Hreq.
  unfold bind, ret. destruct (call (WaitReady t) m) as [[a|e] m1];
    cbn [snd] in Hreq.
  - now intros [= _ <-].
  - destruct (is_timeout e); [now intros [= _ <-] | discriminate].
Qed.

(** A run that answers [False] ends with the navigation to the login
    page and the wait that follows it. *)
Lemma login_false_positioned (cookies_file : string) (m m' : machine) :
  Login.login_with_selenium cookies_file m = (Ok false, m') ->
  exists pre, requests m' = pre ++ [Get Login.LOGIN_URL; WaitReady 20].
Proof.
  unfold Login.login_with_selenium. intros H.
  binv H as u1 m1 H1. binv H as u2 m2 H2. binv H as u3 m3 H3.
  binv H as fast m4 H4.
  destruct fast; [binv H as u5 m5 H5; discriminate H|].
  binv H as loaded m5 H5. binv H as by_cookies m6 H6.
  destruct by_cookies; [binv H as u7 m7 H7; discriminate H|].
  binv H as by_creds m7 H7.
  destruct by_creds; [binv H as u8 m8 H8; discriminate H|].
  binv H as u8 m8 H8. binv H as u9 m9 H9. injection H as <-.
  apply wait_ready_or_pass_requests in H9.
  pose proof (call_requests (Get Login.LOGIN_URL) m7) as Hreq.
  rewrite H8 in Hreq. cbn [snd] in Hreq.
  exists (requests m7). rewrite H9, Hreq. now rewrite <- app_assoc.
Qed.

(** A run that answers [True] ends with [_save_fresh_cookies]. *)
Lemma login_true_saved (cookies_file : string) (m m' : machine) :
  Login.login_with_selenium cookies_file m = (Ok true, m') ->
  exists m1, Login._save_fresh_cookies cookies_file m1 = (Ok tt, m').
Proof.
  unfold Login.login_with_selenium. intros H.
  binv H as u1 m1 H1. binv H as u2 m2 H2. binv H as u3 m3 H3.
  binv H as fast m4 H4.
  destruct fast.
  { binv H as u5 m5 H5. injection H as <-. destruct u5. now exists m4. }
  binv H as loaded m5 H5. binv H as by_cookies m6 H6.
  destruct by_cookies.
  { binv H as u7 m7 H7. injection H as <-. destruct u7. now exists m6. }
  binv H as by_creds m7 H7.
  destruct by_creds.
  { binv H as u8 m8 H8. injection H as <-. destruct u8. now exists m7. }
  binv H as u8 m8 H8. binv H as u9 m9 H9. discriminate H.
Qed.

End Acquisition.

(** Decompose a goal [total c] along the structure of [c]. *)
Ltac always_returns :=
  repeat (intros;
          first [ assumption | solve [auto 2]
                | apply total_ret | apply total_try_any | apply total_bind
                | match goal with
                  | |- total (match ?x with _ => _ end) => destruct x
                  end ]).

Section QuietBrowser.
Context {B : Browser}.

Lemma total_call_unguarded (r : request) :
  quiet B -> unguarded r = true -> total (call r).
Proof.
  intros Hq Hu m. unfold call.
  destruct (respond r (page m)) as [a w] eqn:E.
  destruct a; try (eexists _, _; reflexivity).
  destruct (Hq r (page m) e) as [Hg _]; [now rewrite E | congruence].
Qed.

Lemma total_wait_ready_or_pass (t : nat) :
  quiet B -> total (Login.wait_ready_or_pass t).
Proof.
  intros Hq m.
  unfold Login.wait_ready_or_pass, Login._wait_ready, pass, try_except,
    bind, ret, call.
  destruct (respond (WaitReady t) (page m)) as [a w] eqn:E.
  destruct a; try (eexists _, _; reflexivity).
  destruct (Hq (WaitReady t) (page m) e) as [_ Ht]; [now rewrite E|].
  rewrite (Ht t eq_refl). eexists _, _; reflexivity.
Qed.

Lemma total_is_on_login_page : quiet B -> total Login._is_on_login_page.
Proof.
  intros Hq. unfold Login._is_on_login_page, ask_text.
  pose proof (total_call_unguarded CurrentUrl Hq eq_refl).
  always_returns.
Qed.

Lemma total_is_logged_in : quiet B -> total Login._is_logged_in.
Proof.
  intros Hq. unfold Login._is_logged_in, ask_text.
  pose proof (total_is_on_login_page Hq).
  pose proof (total_call_unguarded CurrentUrl Hq eq_refl).
  always_returns.
Qed.

Lemma total_load_cookies_safely (cookies_path : string) :
  quiet B -> total (Login._load_cookies_safely cookies_path).
Proof.
  intros Hq. unfold Login._load_cookies_safely, ask_flag.
  pose proof (total_call_unguarded (CookieFileExists cookies_path) Hq eq_refl).
  always_returns.
Qed.

Lemma total_find_first_displayed (selectors : list string) :
  total (Login.find_first_displayed selectors).
Proof.
  induction selectors as [|sel rest IH]; cbn [Login.find_first_displayed];
    always_returns.
Qed.

Lemma total_poll_logged_in (n : nat) :
  quiet B -> total (Login.poll_logged_in n).
Proof.
  intros Hq. pose proof (total_is_logged_in Hq).
  induction n as [|n IH]; cbn [Login.poll_logged_in]; always_returns.
Qed.

Lemma total_attempt_auto_login : quiet B -> total Login._attempt_auto_login.
Proof.
  intros Hq. unfold Login._attempt_auto_login, Login._read_creds.
  pose proof (total_call_unguarded ReadCreds Hq eq_refl).
  pose proof (total_call_unguarded (Get Login.LOGIN_URL) Hq eq_refl).
  pose proof (total_wait_ready_or_pass 30 Hq).
  pose proof total_find_first_displayed.
  pose proof (total_poll_logged_in 60 Hq).
  always_returns.
Qed.

Lemma total_login_with_selenium (cookies_file : string) :
  quiet B -> total (Login.login_with_selenium cookies_file).
Proof.
  intros Hq. unfold Login.login_with_selenium, Login._build_driver, pass.
  pose proof (total_call_unguarded StartChrome Hq eq_refl).
  pose proof (total_call_unguarded (Get Login.HOME_URL) Hq eq_refl).
  pose proof (total_call_unguarded (Get Login.LOGIN_URL) Hq eq_refl).
  pose proof (fun t => total_wait_ready_or_pass t Hq).
  pose proof (total_is_logged_in Hq).
  pose proof (total_load_cookies_safely cookies_file Hq).
  pose proof (total_attempt_auto_login Hq).
  pose proof (save_fresh_cookies_total cookies_file).
  always_returns.
Qed.

End QuietBrowser.

Section Strategies.
Context {B : Browser}.

(** [_save_fresh_cookies] returns whatever the browser and the file
    system answer. *)
Lemma save_fresh_cookies_run (cookies_file : string) (m : machine) :
  Login._save_fresh_cookies cookies_file m = (Ok tt, saved cookies_file m).
Proof.
  unfold Login._save_fresh_cookies, saved, ask_cookies, try_except, pass.
  unfold bind, ret. rewrite call_run.
  destruct (answer GetCookies m) eqn:E; cbn [raised any_exception];
    try (rewrite call_run;
         match goal with
         | |- context [raised ?a] => destruct (raised a)
         end; reflexivity).
  reflexivity.
Qed.

(** The end of an acquisition that did not authenticate. *)
Lemma give_up_run (m : machine) :
  raised (answer (Get Login.LOGIN_URL) m) = None ->
  (forall e,
      raised (answer (WaitReady 20) (answered (Get Login.LOGIN_URL) m))
      = Some e -> is_timeout e = true) ->
  (call (Get Login.LOGIN_URL) ;; Login.wait_ready_or_pass 20 ;; ret false) m
  = (Ok false, at_login m).
Proof.
  intros Hg Hw. unfold Login.wait_ready_or_pass, Login._wait_ready, pass.
  unfold try_except, bind, ret. rewrite call_run, Hg. rewrite call_run.
  fold (at_login m).
  destruct (raised (answer (WaitReady 20) (answered (Get Login.LOGIN_URL) m)))
    as [e|]; [|reflexivity].
  now rewrite (Hw e eq_refl).
Qed.

(** [login_with_selenium] is the opening, then the strategies in turn
    up to the first that answers [True]. *)
Lemma login_as_strategies (cookies_file : string) (m : machine) :
  Login.login_with_selenium cookies_file m
  = (opening ;;
     p <- by_profile ;;
     if p then Login._save_fresh_cookies cookies_file ;; ret true
     else
       c <- by_cookies cookies_file ;;
       if c then Login._save_fresh_cookies cookies_file ;; ret true
       else
         k <- by_credentials ;;
         if k then Login._save_fresh_cookies cookies_file ;; ret true
         else
           call (Get Login.LOGIN_URL) ;;
           Login.wait_ready_or_pass 20 ;;
           ret false) m.
Proof.
  unfold Login.login_with_selenium, opening, by_profile, by_cookies,
    by_credentials.
  unfold bind. step_cases.
Qed.

End Strategies.

(** ** Claim on the session *)

(** C8, as amended.  After the opening, the three strategies are tried
    in turn, each on the machine left by the one before.  The first
    that answers [True] ends the acquisition: the cookies of the session
    are asked for and written to the file, and the answer is [True]
    whatever happens while saving.  When all three answer [False], the
    login page is opened and waited for, and the answer is [False] on
    the machine this leaves, provided the navigation does not raise and
    the wait raises a [TimeoutException] at most.  [_save_fresh_cookies]
    returns on every machine.  On a browser that raises on none of the
    unguarded requests, and on a readiness wait with [TimeoutException]
    only, the acquisition answers [True] or [False]. *)
Theorem login_outcomes :
  forall (B : Browser) (cookies_file : string) (m m0 m1 : machine) (p : bool),
    opening m = (Ok tt, m0) ->
    by_profile m0 = (Ok p, m1) ->
    (p = true ->
     Login.login_with_selenium cookies_file m
     = (Ok true, saved cookies_file m1))
    /\ (p = false ->
        forall (c : bool) (m2 : machine),
          by_cookies cookies_file m1 = (Ok c, m2) ->
          (c = true ->
           Login.login_with_selenium cookies_file m
           = (Ok true, saved cookies_file m2))
          /\ (c = false ->
              forall (k : bool) (m3 : machine),
                by_credentials m2 = (Ok k, m3) ->
                (k = true ->
                 Login.login_with_selenium cookies_file m
                 = (Ok true, saved cookies_file m3))
                /\ (k = false ->
                    raised (answer (Get Login.LOGIN_URL) m3) = None ->
                    (forall e,
                        raised (answer (WaitReady 20)
                                  (answered (Get Login.LOGIN_URL) m3))
                        = Some e ->
                        is_timeout e = true) ->
                    Login.login_with_selenium cookies_file m
                    = (Ok false, at_login m3))))
    /\ (forall m' : machine,
           Login._save_fresh_cookies cookies_file m'
           = (Ok tt, saved cookies_file m'))
    /\ (quiet B ->
        exists ok m',
          Login.login_with_selenium cookies_file m = (Ok ok, m')).
Proof.
  intros B cookies_file m m0 m1 p Hopen Hp.
  assert (Hsave : forall mx,
             (Login._save_fresh_cookies cookies_file ;; ret true) mx
             = (Ok true, saved cookies_file mx)).
  { intros mx. unfold bind. now rewrite save_fresh_cookies_run. }
  assert (Hlogin := login_as_strategies cookies_file m).
  unfold bind at 1 in Hlogin. rewrite Hopen in Hlogin.
  unfold bind at 1 in Hlogin. rewrite Hp in Hlogin.
  split; [|split; [|split]].
  - intros ->. now rewrite Hlogin, Hsave.
  - intros -> c m2 Hc.
    unfold bind at 1 in Hlogin. rewrite Hc in Hlogin. split.
    + intros ->. now rewrite Hlogin, Hsave.
    + intros -> k m3 Hk.
      unfold bind at 1 in Hlogin. rewrite Hk in Hlogin. split.
      * intros ->. now rewrite Hlogin, Hsave.
      * intros -> Hg Hw. rewrite Hlogin. now apply give_up_run.
  - apply save_fresh_cookies_run.
  - intros Hq. now apply total_login_with_selenium.
Qed.

Lemma lab_browser_quiet (l : lab) : lab_faults l = [] -> quiet (lab_browser l).
Proof.
  intros Hf r w e. cbn. rewrite Hf. cbn.
  destruct r; cbn; try discriminate;
    repeat match goal with
           | |- context [match ?x with _ => _ end] => destruct x
           end;
    try discriminate; intros _; (split; [reflexivity | discriminate]).
Qed.

(** C8 on a browser that stays on the login page: without a session in
    the profile, without a file of cookies and without credentials the
    three strategies fail, and acquisition answers [False] after opening
    the login page. *)
Lemma login_outcomes_on_login_page :
  Login.login_with_selenium "cookies.json"
    (on_lab (login_page_lab []) new_automation)
  = (Ok false,
     @Build_machine (lab_browser (login_page_lab [])) new_automation 9
       [StartChrome; ExecuteCdp; Get Login.HOME_URL; WaitReady 20;
        CurrentUrl; CookieFileExists "cookies.json"; ReadCreds;
        Get Login.LOGIN_URL; WaitReady 20])
  /\ exists ok m',
       Login.login_with_selenium "cookies.json"
         (on_lab (login_page_lab []) new_automation) = (Ok ok, m').
Proof.
  set (m := on_lab (login_page_lab []) new_automation).
  destruct (login_outcomes (lab_browser (login_page_lab [])) "cookies.json"
              m (snd (opening m)) (snd (by_profile (snd (opening m)))) false
              eq_refl eq_refl) as (_ & Hcookies & _ & Htotal).
  destruct (Hcookies eq_refl false
              (snd (by_cookies "cookies.json"
                      (snd (by_profile (snd (opening m))))))
              eq_refl) as (_ & Hcreds).
  destruct (Hcreds eq_refl false
              (snd (by_credentials
                      (snd (by_cookies "cookies.json"
                              (snd (by_profile (snd (opening m))))))))
              eq_refl) as (_ & Hnone).
  split.
  - rewrite (Hnone eq_refl eq_refl ltac:(discriminate)). reflexivity.
  - apply Htotal. now apply lab_browser_quiet.
Defined.

(** C8, as stated, fails on "never raises": on the same browser, when
    the last navigation, to the login page (request 7), times out, the
    exception leaves [login_with_selenium] and no pair is returned. *)
Lemma login_raises_on_navigation_timeout :
  fst (Login.login_with_selenium "cookies.json"
         (on_lab (login_page_lab [7]) new_automation))
  = Raised TimeoutException
  /\ requests (snd (Login.login_with_selenium "cookies.json"
                      (on_lab (login_page_lab [7]) new_automation)))
     = [StartChrome; ExecuteCdp; Get Login.HOME_URL; WaitReady 20;
        CurrentUrl; CookieFileExists "cookies.json"; ReadCreds;
        Get Login.LOGIN_URL].
Proof. split; reflexivity. Qed.

(** ** More on strings *)

Lemma rstrip_idem (s : string) : Py.rstrip (Py.rstrip s) = Py.rstrip s.
Proof.
  induction s as [|c s IH]; [reflexivity|].
  simpl. destruct (Py.rstrip s) as [|d r] eqn:E.
  - destruct (Py.is_space c) eqn:Ec; [reflexivity|]. simpl. now rewrite Ec.
  - simpl. simpl in IH. rewrite IH. reflexivity.
Qed.

Lemma lstrip_head (s : string) :
  Py.lstrip s = EmptyString
  \/ exists c r, Py.lstrip s = String c r /\ Py.is_space c = false.
Proof.
  induction s as [|c s IH]; [now left|].
  simpl. destruct (Py.is_space c) eqn:Ec; [exact IH|]. right. eauto.
Qed.

Lemma rstrip_head (c : ascii) (r : string) :
  Py.is_space c = false -> exists r', Py.rstrip (String c r) = String c r'.
Proof.
  intros Hc. simpl. destruct (Py.rstrip r); [rewrite Hc|]; eauto.
Qed.

Lemma strip_idem (s : string) : Py.strip (Py.strip s) = Py.strip s.
Proof.
  unfold Py.strip. destruct (lstrip_head s) as [E | (c & r & E & Hc)].
  - rewrite E. reflexivity.
  - rewrite E. destruct (rstrip_head c r Hc) as [r' E'].
    rewrite E'. cbn [Py.lstrip]. rewrite Hc. rewrite <- E'. apply rstrip_idem.
Qed.

Lemma truthy_nonempty (s : string) : Py.truthy s = true -> s <> EmptyString.
Proof. now destruct s. Qed.

Lemma comma_free_lstrip (s : string) :
  comma_free s = true -> comma_free (Py.lstrip s) = true.
Proof.
  induction s as [|c s IH]; [reflexivity|]. intros H. simpl.
  destruct (Py.is_space c); [|exact H].
  simpl in H. apply andb_prop in H as [_ H]. auto.
Qed.

Lemma comma_free_rstrip (s : string) :
  comma_free s = true -> comma_free (Py.rstrip s) = true.
Proof.
  induction s as [|c s IH]; [reflexivity|]. intros H.
  simpl in H. apply andb_prop in H as [Hc H]. specialize (IH H).
  simpl. destruct (Py.rstrip s) eqn:E.
  - destruct (Py.is_space c); [reflexivity|]. simpl. now rewrite Hc.
  - simpl. simpl in IH. now rewrite Hc, IH.
Qed.

Lemma comma_free_strip (s : string) :
  comma_free s = true -> comma_free (Py.strip s) = true.
Proof. intros H. now apply comma_free_rstrip, comma_free_lstrip. Qed.

Lemma contains_lstrip (n0 : ascii) (ns s : string) :
  Py.is_space n0 = false ->
  Py.contains (String n0 ns) s = true ->
  Py.contains (String n0 ns) (Py.lstrip s) = true.
Proof.
  intros Hn. induction s as [|c s IH]; intros H; [exact H|].
  simpl. destruct (Py.is_space c) eqn:Ec; [|exact H].
  apply IH. rewrite contains_cons_ne in H; [exact H|].
  intros ->. congruence.
Qed.

Lemma startswith_rstrip (n s : string) :
  ends_nonspace n = true -> Py.startswith s n = true ->
  Py.startswith (Py.rstrip s) n = true.
Proof.
  revert s. induction n as [|a n IH]; intros s Hn H; [discriminate|].
  destruct s as [|c s]; [discriminate|].
  cbn [Py.startswith] in H. apply andb_prop in H as [Ha H].
  apply Ascii.eqb_eq in Ha. subst c.
  destruct n as [|b n].
  - simpl in Hn. apply negb_true_iff in Hn.
    destruct (rstrip_head a s Hn) as [r' E]. rewrite E.
    simpl. now rewrite Ascii.eqb_refl.
  - assert (Hn' : ends_nonspace (String b n) = true) by exact Hn.
    specialize (IH s Hn' H).
    cbn [Py.rstrip]. destruct (Py.rstrip s) as [|d r] eqn:E; [discriminate|].
    cbn [Py.startswith]. rewrite Ascii.eqb_refl. exact IH.
Qed.

Lemma contains_rstrip (n0 : ascii) (ns s : string) :
  ends_nonspace (String n0 ns) = true ->
  Py.contains (String n0 ns) s = true ->
  Py.contains (String n0 ns) (Py.rstrip s) = true.
Proof.
  intros Hn. induction s as [|c s IH]; intros H; [exact H|].
  cbn [Py.contains] in H. apply orb_prop in H as [H|H].
  - pose proof (startswith_rstrip _ _ Hn H) as H'.
    destruct (Py.rstrip (String c s)); cbn [Py.contains]; rewrite H'; reflexivity.
  - specialize (IH H). cbn [Py.rstrip].
    destruct (Py.rstrip s) as [|d r] eqn:E; [discriminate|].
    cbn [Py.contains]. cbn [Py.contains] in IH. rewrite IH. apply orb_true_r.
Qed.

Lemma contains_dallas_strip (s : string) :
  Py.contains "Dallas" s = true -> Py.contains "Dallas" (Py.strip s) = true.
Proof.
  intros H. unfold Py.strip.
  apply contains_rstrip; [reflexivity|].
  apply contains_lstrip; [reflexivity | exact H].
Qed.

(** ** What [parse_user_input] does to any text *)

Lemma settled_strip (cur : string) :
  open_part cur -> Py.truthy (Py.strip cur) = true ->
  settled_part (Py.strip cur).
Proof.
  intros Hq Ht. split; [now apply truthy_nonempty|].
  split; [apply strip_idem|].
  destruct Hq as [H|H]; [left; now apply comma_free_strip
                        | right; now apply contains_dallas_strip].
Qed.

Lemma open_part_snoc (cur : string) (char : ascii) :
  open_part cur ->
  Ascii.eqb char "," = false \/ Py.contains "Dallas" cur = true ->
  open_part (cur +:+ String char EmptyString).
Proof.
  intros Hq [Hc|Hd].
  - destruct Hq as [H|H].
    + left. rewrite comma_free_app, H. simpl. now rewrite Hc.
    + right. now apply contains_app_l.
  - right. now apply contains_app_l.
Qed.

Lemma split_step_invariant (parts : list string) (cur : string) (char : ascii) :
  Forall settled_part parts -> open_part cur ->
  Forall settled_part (fst (Parser.split_step (parts, cur) char))
  /\ open_part (snd (Parser.split_step (parts, cur) char)).
Proof.
  intros Hp Hq. unfold Parser.split_step, Parser.in_location.
  destruct (Ascii.eqb char ",") eqn:Ec; cbn [andb negb].
  - destruct (Py.contains "Dallas" cur) eqn:Ed; cbn [andb].
    + destruct (Py.contains "Texas" cur); cbn [negb fst snd].
      * destruct (Py.truthy (Py.strip cur)) eqn:Et; cbn [fst snd].
        -- split; [|now left]. apply Forall_app. split; [exact Hp|].
           constructor; [|constructor]. now apply settled_strip.
        -- now split.
      * split; [exact Hp|]. apply open_part_snoc; [exact Hq | now right].
    + destruct (Py.truthy (Py.strip cur)) eqn:Et; cbn [fst snd].
      * split; [|now left]. apply Forall_app. split; [exact Hp|].
        constructor; [|constructor]. now apply settled_strip.
      * now split.
  - cbn [fst snd]. split; [exact Hp|]. apply open_part_snoc; [exact Hq | now left].
Qed.

Lemma split_loop_invariant (user_input : string) :
  forall (parts : list string) (cur : string),
    Forall settled_part parts -> open_part cur ->
    Forall settled_part (fst (Parser.split_loop user_input (parts, cur)))
    /\ open_part (snd (Parser.split_loop user_input (parts, cur))).
Proof.
  induction user_input as [|char rest IH]; intros parts cur Hp Hq.
  - now split.
  - cbn [Parser.split_loop].
    destruct (split_step_invariant parts cur char Hp Hq) as [Hp' Hq'].
    destruct (Parser.split_step (parts, cur) char) as [parts' cur'].
    now apply IH.
Qed.

(** X1.  Whatever the text, every part that the character loop of
    [parse_user_input] hands to the assignments is not empty, is
    stripped, and holds a comma only if it mentions Dallas: the Dallas
    case is the only way a comma reaches a value. *)
Theorem split_parts_settled (user_input : string) :
  Forall (fun part =>
            part <> EmptyString /\ Py.strip part = part
            /\ (comma_free part = true \/ Py.contains "Dallas" part = true))
    (Parser.split_parts user_input).
Proof.
  unfold Parser.split_parts.
  destruct (split_loop_invariant user_input [] EmptyString) as [Hp Hq];
    [constructor | now left |].
  destruct (Parser.split_loop user_input ([], EmptyString)) as [parts cur].
  cbn [fst snd] in *.
  destruct (Py.truthy (Py.strip cur)) eqn:Et; [|exact Hp].
  apply Forall_app. split; [exact Hp|].
  constructor; [|constructor]. now apply settled_strip.
Qed.


Lemma parsed_from_refl (a : automation) : parsed_from a a.
Proof. unfold parsed_from. intuition. Qed.

Lemma is_statistic_In (s : string) :
  Parser.is_statistic s = true -> In s Parser.statistics.
Proof.
  unfold Parser.is_statistic. intros H. apply existsb_exists in H as (x & Hx & E).
  apply String.eqb_eq in E. now subst.
Qed.

Lemma parsed_from_assign (a b : automation) (part : string) :
  parsed_from a b -> parsed_from a (Parser.assign_part b part).
Proof.
  intros (Hd & Ha & H1 & H2 & H3 & H4 & H5 & H6).
  unfold Parser.assign_part.
  destruct (Py.contains "=" part).
  - destruct (Py.split_once "=" part) as [k v].
    repeat match goal with
           | |- context [if ?c then _ else _] => destruct c
           end;
      unfold parsed_from; cbn; intuition discriminate.
  - destruct (Parser.is_statistic part) eqn:Es.
    + unfold parsed_from; cbn. apply is_statistic_In in Es.
      repeat split; try assumption. right. eauto.
    + unfold parsed_from. intuition.
Qed.

Lemma parsed_from_fold (parts : list string) :
  forall a b, parsed_from a b -> parsed_from a (fold_left Parser.assign_part parts b).
Proof.
  induction parts as [|p parts IH]; intros a b H; [exact H|].
  cbn [fold_left]. apply IH. now apply parsed_from_assign.
Qed.

(** X2.  Parsing never takes anything back: the driver and the rows
    extracted so far are untouched, a field that had a value still has
    one (a field the text does not mention keeps the value of an earlier
    parse), and the statistic is the one the object had or one of the
    four names of the list. *)
Theorem parse_keeps_and_never_unsets (user_input : string) (a : automation) :
  let b := snd (Parser.parse_user_input user_input a) in
  driver b = driver a /\ all_data b = all_data a
  /\ (eri_code b = None -> eri_code a = None)
  /\ (location b = None -> location a = None)
  /\ (revenue b = None -> revenue a = None)
  /\ (industry b = None -> industry a = None)
  /\ (years_experience b = None -> years_experience a = None)
  /\ (data_type b = data_type a
      \/ exists s, data_type b = Some s /\ In s Parser.statistics).
Proof.
  cbn [Parser.parse_user_input snd].
  apply (parsed_from_fold _ a a), parsed_from_refl.
Qed.

Lemma spaces_lstrip (s : string) : spaces s = true -> Py.lstrip s = EmptyString.
Proof.
  induction s as [|c s IH]; [reflexivity|]. simpl. intros H.
  apply andb_prop in H as [Hc H]. rewrite Hc. auto.
Qed.

Lemma spaces_strip (s : string) : spaces s = true -> Py.strip s = EmptyString.
Proof. intros H. unfold Py.strip. now rewrite spaces_lstrip. Qed.

Lemma spaces_no_dallas (s : string) :
  spaces s = true -> Py.contains "Dallas" s = false.
Proof.
  induction s as [|c s IH]; [reflexivity|]. simpl spaces. intros H.
  apply andb_prop in H as [Hc H]. rewrite contains_cons_ne; [auto|].
  intros ->. discriminate Hc.
Qed.

Lemma spaces_snoc (s : string) (c : ascii) :
  spaces s = true -> Py.is_space c = true ->
  spaces (s +:+ String c EmptyString) = true.
Proof.
  intros Hs Hc. induction s as [|d s IH]; simpl; [now rewrite Hc|].
  simpl in Hs. apply andb_prop in Hs as [Hd Hs]. rewrite Hd. auto.
Qed.

Lemma split_loop_blank (user_input : string) :
  forall cur, blank user_input = true -> spaces cur = true ->
    exists cur', Parser.split_loop user_input ([], cur) = ([], cur')
                 /\ spaces cur' = true.
Proof.
  induction user_input as [|char rest IH]; intros cur Hb Hs; [eauto|].
  simpl in Hb. apply andb_prop in Hb as [Hc Hb].
  cbn [Parser.split_loop]. unfold Parser.split_step, Parser.in_location.
  rewrite (spaces_no_dallas cur Hs), (spaces_strip cur Hs).
  rewrite andb_false_r. cbn [andb negb Py.truthy].
  destruct (Ascii.eqb char ",") eqn:Ec; cbn [andb].
  - now apply IH.
  - rewrite orb_false_r in Hc. apply IH; [exact Hb|]. now apply spaces_snoc.
Qed.

(** X3.  A text of commas and whitespace only (the empty text among
    them) has no part: parsing answers [True] and leaves the object as
    it is. *)
Theorem parse_blank_input (user_input : string) (a : automation) :
  blank user_input = true ->
  Parser.split_parts user_input = []
  /\ Parser.parse_user_input user_input a = (true, a).
Proof.
  intros Hb.
  assert (Hp : Parser.split_parts user_input = []).
  { unfold Parser.split_parts.
    destruct (split_loop_blank user_input EmptyString Hb eq_refl) as (cur & E & Hs).
    rewrite E, (spaces_strip cur Hs). reflexivity. }
  split; [exact Hp|]. unfold Parser.parse_user_input. now rewrite Hp.
Qed.

Lemma parse_blank_input_witness :
  Parser.parse_user_input " , ,,  " (asking "Mean" (Some "5"))
  = (true, asking "Mean" (Some "5")).
Proof. apply (parse_blank_input " , ,,  "). reflexivity. Defined.

(** ** [parse_multi_input] *)

Lemma remove_free (x : ascii) (s : string) : char_free x (Py.remove x s) = true.
Proof.
  induction s as [|c s IH]; [reflexivity|]. simpl.
  destruct (Ascii.eqb c x) eqn:E; [exact IH|]. simpl. now rewrite E.
Qed.

Lemma comma_free_char_free (s : string) : comma_free s = char_free "," s.
Proof. induction s as [|c s IH]; [reflexivity|]. simpl. now rewrite IH. Qed.


Lemma row_of_parts_invariant (parts : list string) (row : input_row) :
  V2.row_of_parts (map Py.strip parts) = Some row -> row_invariant row.
Proof.
  destruct parts as [|p0 [|p1 [|p2 [|p3 [|p4 [|p5 ps]]]]]]; try discriminate.
  cbn [map V2.row_of_parts]. intros [= <-]. unfold row_invariant. cbn.
  split; [apply strip_idem|]. split; [apply strip_idem|].
  split; [rewrite comma_free_char_free; apply remove_free|].
  split; [apply strip_idem|]. split; [|apply strip_idem].
  intros y Hy.
  destruct (String.eqb (Py.strip p4) "N/A") eqn:E; [discriminate|].
  injection Hy as <-. split; [|apply strip_idem].
  intros Hn. rewrite Hn in E. discriminate E.
Qed.

Lemma rows_of_lines_invariant (lines : list string) :
  forall rows, Forall row_invariant rows ->
    Forall row_invariant (V2.rows_of_lines lines rows).
Proof.
  induction lines as [|line rest IH]; intros rows H; [exact H|].
  cbn [V2.rows_of_lines].
  destruct (Py.truthy (Py.strip line)); [|now apply IH].
  destruct (V2.row_of_parts (map Py.strip (Py.split V2.tab line))) as [row|] eqn:E;
    [|now apply IH].
  apply IH, Forall_app. split; [exact H|].
  constructor; [|constructor]. now apply (row_of_parts_invariant _ _ E).
Qed.

(** X4.  In every row built by [parse_multi_input] the code, the
    location, the industry and the statistic are stripped, the revenue
    has no comma, and the years are either absent or a stripped text
    other than [N/A]. *)
Theorem parse_multi_input_rows (input_data : string) :
  Forall (fun row =>
            Py.strip (row_eri_code row) = row_eri_code row
            /\ Py.strip (row_location row) = row_location row
            /\ comma_free (row_revenue row) = true
            /\ Py.strip (row_industry row) = row_industry row
            /\ (forall y, row_years_experience row = Some y ->
                          y <> "N/A" /\ Py.strip y = y)
            /\ Py.strip (row_data_type row) = row_data_type row)
    (V2.parse_multi_input input_data).
Proof. apply rows_of_lines_invariant. constructor. Qed.

Lemma rows_of_lines_length (lines : list string) :
  forall rows,
    length (V2.rows_of_lines lines rows) <= length rows + length lines.
Proof.
  induction lines as [|line rest IH]; intros rows; cbn [V2.rows_of_lines length];
    [lia|].
  destruct (Py.truthy (Py.strip line)).
  - destruct (V2.row_of_parts _).
    + specialize (IH (rows ++ [i])). rewrite length_app in IH. simpl in IH. lia.
    + specialize (IH rows). lia.
  - specialize (IH rows). lia.
Qed.

(** X5.  [parse_multi_input] builds one row a line at most, and none
    from a text of whitespace only. *)
Theorem parse_multi_input_blank (input_data : string) :
  length (V2.parse_multi_input input_data)
  <= length (Py.split V2.newline (Py.strip input_data))
  /\ (spaces input_data = true -> V2.parse_multi_input input_data = []).
Proof.
  split.
  - unfold V2.parse_multi_input.
    pose proof (rows_of_lines_length
                  (Py.split V2.newline (Py.strip input_data)) []) as H.
    exact H.
  - intros Hs. unfold V2.parse_multi_input. now rewrite (spaces_strip _ Hs).
Qed.

Lemma char_free_app (x : ascii) (a b : string) :
  char_free x (a +:+ b) = char_free x a && char_free x b.
Proof.
  induction a as [|c a IH]; simpl; [reflexivity|].
  rewrite IH. now rewrite andb_assoc.
Qed.

Lemma split_free (sep : ascii) (a : string) :
  char_free sep a = true -> Py.split sep a = [a].
Proof.
  induction a as [|c a IH]; intros H; [reflexivity|].
  simpl in H. apply andb_prop in H as [Hc H]. apply negb_true_iff in Hc.
  cbn [Py.split]. rewrite Hc, (IH H). reflexivity.
Qed.

Lemma split_app (sep : ascii) (a b : string) :
  char_free sep a = true ->
  Py.split sep (a +:+ String sep b) = a :: Py.split sep b.
Proof.
  induction a as [|c a IH]; intros H.
  - cbn. now rewrite Ascii.eqb_refl.
  - simpl in H. apply andb_prop in H as [Hc H]. apply negb_true_iff in Hc.
    change (String c a +:+ String sep b) with (String c (a +:+ String sep b)).
    cbn [Py.split]. rewrite Hc, (IH H). reflexivity.
Qed.

Lemma remove_char_free (x : ascii) (s : string) :
  char_free x s = true -> Py.remove x s = s.
Proof.
  induction s as [|c s IH]; intros H; [reflexivity|].
  simpl in H. apply andb_prop in H as [Hc H]. apply negb_true_iff in Hc.
  simpl. now rewrite Hc, (IH H).
Qed.

Lemma rstrip_app_sep (a : string) (x : ascii) (b : string) :
  Py.rstrip b = b -> b <> EmptyString ->
  Py.rstrip (a +:+ String x b) = a +:+ String x b.
Proof.
  intros Hb Hne.
  replace (a +:+ String x b) with ((a +:+ String x EmptyString) +:+ b)
    by (rewrite append_assoc; reflexivity).
  now apply rstrip_app.
Qed.

Lemma append_nonempty_r (a : string) (x : ascii) (b : string) :
  a +:+ String x b <> EmptyString.
Proof. destruct a; discriminate. Qed.


Lemma tidy_years_text (row : input_row) :
  tidy_row row -> tidy (years_text row).
Proof.
  intros (_ & _ & _ & _ & _ & _ & Hy & _). unfold years_text.
  destruct (row_years_experience row); [tauto|].
  repeat split; reflexivity.
Qed.

Lemma strip_tidy (p : string) : tidy p -> Py.strip p = p.
Proof. intros (_ & _ & Hl & Hr). unfold Py.strip. now rewrite Hl, Hr. Qed.

Section TsvLine.
Variable row : input_row.
Hypothesis Hrow : tidy_row row.

Lemma tsv_line_split :
  Py.split V2.tab (tsv_line row)
  = [row_eri_code row; row_location row; row_revenue row; row_industry row;
     years_text row; row_data_type row].
Proof.
  pose proof (tidy_years_text row Hrow) as Hy.
  destruct Hrow as (Hc & _ & Hl & Hr & _ & Hi & _ & Hd & _).
  unfold tsv_line.
  rewrite !split_app; try (apply Hc || apply Hl || apply Hr || apply Hi || apply Hy).
  rewrite split_free; [reflexivity | apply Hd].
Qed.

Lemma tsv_line_no_newline : char_free V2.newline (tsv_line row) = true.
Proof.
  pose proof (tidy_years_text row Hrow) as Hy.
  destruct Hrow as (Hc & _ & Hl & Hr & _ & Hi & _ & Hd & _).
  unfold tsv_line.
  destruct Hc as (_ & Hc & _), Hl as (_ & Hl & _), Hr as (_ & Hr & _),
    Hi as (_ & Hi & _), Hy as (_ & Hy & _), Hd as (_ & Hd & _).
  repeat (rewrite char_free_app; cbn [char_free]).
  rewrite Hc, Hl, Hr, Hi, Hy, Hd. reflexivity.
Qed.

Lemma tsv_line_lstrip : Py.lstrip (tsv_line row) = tsv_line row.
Proof.
  destruct Hrow as (Hc & Hne & _). unfold tsv_line.
  apply lstrip_app; [apply Hc | exact Hne].
Qed.

Lemma tsv_line_rstrip : Py.rstrip (tsv_line row) = tsv_line row.
Proof.
  destruct Hrow as (_ & _ & _ & _ & _ & _ & _ & Hd & Hne). unfold tsv_line.
  repeat (apply rstrip_app_sep; [|apply append_nonempty_r]).
  apply rstrip_app_sep; [apply Hd | exact Hne].
Qed.

Lemma tsv_line_nonempty : tsv_line row <> EmptyString.
Proof. unfold tsv_line. apply append_nonempty_r. Qed.

Lemma tsv_line_row :
  V2.row_of_parts (map Py.strip (Py.split V2.tab (tsv_line row))) = Some row.
Proof.
  rewrite tsv_line_split. cbn [map].
  pose proof (tidy_years_text row Hrow) as Hy.
  destruct Hrow as (Hc & _ & Hl & Hr & Hcf & Hi & Hyy & Hd & _).
  rewrite !strip_tidy by assumption.
  cbn [V2.row_of_parts]. rewrite remove_char_free
    by (rewrite <- comma_free_char_free; exact Hcf).
  unfold years_text. destruct row as [c l r i y d]. cbn in *.
  destruct y as [y|]; [|reflexivity].
  destruct (String.eqb y "N/A") eqn:E; [|reflexivity].
  apply String.eqb_eq in E. tauto.
Qed.

End TsvLine.

Lemma tsv_text_lines (rows : list input_row) :
  Forall tidy_row rows -> rows <> [] ->
  Py.split V2.newline (tsv_text rows) = map tsv_line rows
  /\ Py.lstrip (tsv_text rows) = tsv_text rows
  /\ Py.rstrip (tsv_text rows) = tsv_text rows
  /\ tsv_text rows <> EmptyString.
Proof.
  induction rows as [|row rest IH]; intros H Hne; [congruence|].
  apply Forall_cons in H as [Hrow Hrest].
  destruct rest as [|row' rest].
  - cbn [tsv_text map]. split; [|split; [|split]].
    + apply split_free, tsv_line_no_newline, Hrow.
    + now apply tsv_line_lstrip.
    + now apply tsv_line_rstrip.
    + now apply tsv_line_nonempty.
  - destruct (IH Hrest ltac:(discriminate)) as (Is & Il & Ir & In').
    change (tsv_text (row :: row' :: rest))
      with (tsv_line row +:+ String V2.newline (tsv_text (row' :: rest))).
    split; [|split; [|split]].
    + rewrite split_app by now apply tsv_line_no_newline.
      rewrite Is. reflexivity.
    + apply lstrip_app; [now apply tsv_line_lstrip | now apply tsv_line_nonempty].
    + now apply rstrip_app_sep.
    + apply append_nonempty_r.
Qed.

Lemma rows_of_tsv_lines (rows : list input_row) :
  forall acc, Forall tidy_row rows ->
    V2.rows_of_lines (map tsv_line rows) acc = acc ++ rows.
Proof.
  induction rows as [|row rest IH]; intros acc H.
  - cbn. now rewrite app_nil_r.
  - apply Forall_cons in H as [Hrow Hrest].
    cbn [map V2.rows_of_lines].
    unfold Py.strip at 1. rewrite tsv_line_lstrip, tsv_line_rstrip by assumption.
    destruct (tsv_line row) eqn:E; [now apply tsv_line_nonempty in E|].
    cbn [Py.truthy]. rewrite <- E. rewrite tsv_line_row by assumption.
    rewrite IH by assumption. now rewrite <- app_assoc.
Qed.

(** X6.  Rows written one a line, their six parts separated by tabs,
    are read back by [parse_multi_input] as they were, in order,
    provided the parts have no tab, line break or surrounding
    whitespace, the revenue no comma, and the first and the last part
    of a row are not empty. *)
Theorem parse_multi_input_roundtrip (rows : list input_row) :
  Forall tidy_row rows -> V2.parse_multi_input (tsv_text rows) = rows.
Proof.
  intros H. destruct rows as [|row rest]; [reflexivity|].
  destruct (tsv_text_lines (row :: rest) H ltac:(discriminate))
    as (Hs & Hl & Hr & _).
  unfold V2.parse_multi_input, Py.strip. rewrite Hl, Hr, Hs.
  now rewrite rows_of_tsv_lines.
Qed.


Lemma parse_multi_input_roundtrip_witness :
  V2.parse_multi_input (tsv_text tsv_rows) = tsv_rows.
Proof.
  apply parse_multi_input_roundtrip.
  repeat constructor; try discriminate.
Defined.

(** ** The rows of [read_csv_input] *)

Lemma read_rows_acc (reader : list V2.csv_row) :
  forall rows, V2.read_rows reader rows = rows ++ V2.read_rows reader [].
Proof.
  induction reader as [|row rest IH]; intros rows; cbn [V2.read_rows].
  - now rewrite app_nil_r.
  - destruct (V2.data_row row) as [d|]; [|now rewrite app_nil_r].
    rewrite (IH (rows ++ [d])), (IH ([] ++ [d])). now rewrite <- app_assoc.
Qed.

Lemma omap_cons_some {A C : Type} (f : A -> option C) (x : A) (y : C)
    (l : list A) :
  f x = Some y -> omap f (x :: l) = y :: omap f l.
Proof. intros H. cbn. now rewrite H. Qed.

Lemma read_rows_complete (reader : list V2.csv_row) (tail : list V2.csv_row) :
  Forall (fun row => V2.data_row row <> None) reader ->
  V2.read_rows (reader ++ tail) []
  = omap V2.data_row reader ++ V2.read_rows tail [].
Proof.
  induction reader as [|row rest IH]; intros H; [reflexivity|].
  apply Forall_cons in H as [Hrow Hrest].
  destruct (V2.data_row row) as [d|] eqn:Ed; [|congruence].
  rewrite (omap_cons_some _ _ _ _ Ed).
  cbn [app V2.read_rows]. rewrite Ed.
  rewrite read_rows_acc, (IH Hrest). reflexivity.
Qed.

Lemma data_row_years (row : V2.csv_row) (d : input_row) :
  V2.data_row row = Some d -> row_years_experience d <> None.
Proof.
  unfold V2.data_row.
  repeat match goal with
         | |- context [match ?o with Some _ => _ | None => _ end] =>
             destruct o; try discriminate
         end.
  now intros [= <-].
Qed.

(** X7.  The reading of the input file stops at the first row that
    lacks one of the six columns: the rows before it are returned,
    stripped, and the rows after it are dropped, complete or not.  A row
    read from the file always has a text for the years, never [None]. *)
Theorem read_rows_stops_at_bad_row
    (before after : list V2.csv_row) (bad : V2.csv_row) :
  Forall (fun row => V2.data_row row <> None) before ->
  V2.data_row bad = None ->
  V2.read_rows (before ++ bad :: after) [] = omap V2.data_row before
  /\ length (V2.read_rows (before ++ bad :: after) []) = length before
  /\ Forall (fun d => row_years_experience d <> None)
       (V2.read_rows (before ++ bad :: after) []).
Proof.
  intros Hb Hbad.
  assert (E : V2.read_rows (before ++ bad :: after) [] = omap V2.data_row before).
  { rewrite (read_rows_complete before (bad :: after) Hb).
    cbn [V2.read_rows]. rewrite Hbad. now rewrite app_nil_r. }
  rewrite E. split; [reflexivity|]. split.
  - clear E. induction Hb as [|row rest Hrow Hrest IH]; [reflexivity|].
    destruct (V2.data_row row) as [d|] eqn:Ed; [|congruence].
    rewrite (omap_cons_some _ _ _ _ Ed). cbn [length]. now rewrite IH.
  - clear E. induction Hb as [|row rest Hrow Hrest IH]; [constructor|].
    destruct (V2.data_row row) as [d|] eqn:Ed; [|congruence].
    rewrite (omap_cons_some _ _ _ _ Ed).
    constructor; [now apply (data_row_years row)|exact IH].
Qed.

Lemma read_rows_stops_at_bad_row_witness :
  V2.read_rows
    ([csv_of "4006" " Dallas, Texas" "565000000" "All" "N/A" "Mean"]
     ++ <["Requested Type" := None]> (csv_of "4007" "Austin" "1" "All" "5" "Mean")
     :: [csv_of "4008" "Houston" "2" "All" "11" "Mean"]) []
  = [{| row_eri_code := "4006"; row_location := "Dallas, Texas";
        row_revenue := "565000000"; row_industry := "All";
        row_years_experience := Some "N/A"; row_data_type := "Mean" |}].
Proof.
  refine (proj1 (read_rows_stops_at_bad_row _ _ _ _ _)).
  - constructor; [|constructor]. vm_compute. discriminate.
  - vm_compute. reflexivity.
Defined.

(** ** Integers and their texts *)

Ltac digit_step IH :=
  match goal with
  | |- context [Py.is_digit ?c] =>
      change (Py.is_digit c) with true; cbn iota;
      let v := eval vm_compute in (Py.digit_value c) in
      change (Py.digit_value c) with v
  end;
  cbn [Pos.of_uint_acc Pos.of_uint];
  etransitivity; [|apply IH]; f_equal; lia.

Lemma int_digits_acc (d : Decimal.uint) :
  forall acc : positive,
    Py.int_digits (NilEmpty.string_of_uint d) (Z.pos acc) true
    = Some (Z.pos (Pos.of_uint_acc d acc)).
Proof.
  induction d; intros acc; cbn [NilEmpty.string_of_uint Py.int_digits];
    [reflexivity | digit_step IHd ..].
Qed.

Lemma int_digits_zero (d : Decimal.uint) :
  Py.int_digits (NilEmpty.string_of_uint d) 0 true
  = Some (Z.of_N (Pos.of_uint d)).
Proof.
  induction d; cbn [NilEmpty.string_of_uint Py.int_digits];
    [reflexivity | ..];
    match goal with
    | |- context [Py.is_digit ?c] =>
        change (Py.is_digit c) with true; cbn iota;
        let v := eval vm_compute in (Py.digit_value c) in
        change (Py.digit_value c) with v
    end;
    cbn [Pos.of_uint Z.of_N Z.mul Z.add];
    [exact IHd | apply int_digits_acc ..].
Qed.

Lemma int_digits_start (d : Decimal.uint) :
  d <> Decimal.Nil ->
  Py.int_digits (NilEmpty.string_of_uint d) 0 false
  = Some (Z.of_N (Pos.of_uint d)).
Proof.
  intros Hd. rewrite <- int_digits_zero.
  destruct d; [congruence | reflexivity ..].
Qed.

Lemma literal_space_is_space (c : ascii) :
  Py.is_literal_space c = true -> Py.is_space c = true.
Proof.
  destruct c as [[] [] [] [] [] [] [] []]; intros H;
    solve [reflexivity | discriminate H].
Qed.

Lemma no_space_skip (s : string) : no_space s = true -> Py.skip_spaces s = s.
Proof.
  destruct s as [|c s]; [reflexivity|]. simpl. intros H.
  apply andb_prop in H as [Hc _]. apply negb_true_iff in Hc.
  destruct (Py.is_literal_space c) eqn:E; [|reflexivity].
  apply literal_space_is_space in E. congruence.
Qed.

Lemma no_space_drop (s : string) : no_space s = true -> Py.drop_spaces s = s.
Proof.
  induction s as [|c s IH]; [reflexivity|]. simpl. intros H.
  apply andb_prop in H as [Hc H]. apply negb_true_iff in Hc.
  rewrite (IH H). destruct s; [|reflexivity].
  destruct (Py.is_literal_space c) eqn:E; [|reflexivity].
  apply literal_space_is_space in E. congruence.
Qed.

Lemma digits_no_space (d : Decimal.uint) :
  no_space (NilEmpty.string_of_uint d) = true.
Proof. induction d; simpl; auto. Qed.

Lemma string_of_uint_nonnil (d : Decimal.uint) :
  d <> Decimal.Nil -> NilZero.string_of_uint d = NilEmpty.string_of_uint d.
Proof. destruct d; [congruence | reflexivity ..]. Qed.

Lemma str_no_space (n : Z) : no_space (Py.str n) = true.
Proof.
  unfold Py.str. destruct n as [|p|p]; [reflexivity | |];
    cbn [Z.to_int NilZero.string_of_int];
    rewrite string_of_uint_nonnil by apply DecimalPos.Unsigned.to_uint_nonnil;
    [|cbn [no_space]]; apply digits_no_space.
Qed.

(** The text of an integer that has no more digits than a conversion
    allows reads back as that integer. *)
Lemma int_str (n : Z) :
  (Py.count_digits (Py.str n) <= Py.max_str_digits)%N ->
  Py.int (Py.str n) = Some n.
Proof.
  intros Hn. apply N.leb_le in Hn. unfold Py.int.
  rewrite no_space_skip, no_space_drop by apply str_no_space.
  cbv zeta. rewrite Hn. clear Hn.
  unfold Py.str. destruct n as [|p|p]; [reflexivity | |].
  - cbn [Z.to_int NilZero.string_of_int].
    rewrite string_of_uint_nonnil by apply DecimalPos.Unsigned.to_uint_nonnil.
    transitivity (Py.int_digits (NilEmpty.string_of_uint (Pos.to_uint p))
                    0 false).
    + destruct (Pos.to_uint p); reflexivity.
    + rewrite int_digits_start by apply DecimalPos.Unsigned.to_uint_nonnil.
      now rewrite DecimalPos.Unsigned.of_to.
  - cbn [Z.to_int NilZero.string_of_int].
    rewrite string_of_uint_nonnil by apply DecimalPos.Unsigned.to_uint_nonnil.
    rewrite int_digits_start by apply DecimalPos.Unsigned.to_uint_nonnil.
    now rewrite DecimalPos.Unsigned.of_to.
Qed.

Lemma remove_group3 (digits : string) :
  Py.remove "," (Py.group3 digits) = Py.remove "," digits.
Proof.
  induction digits as [|c r IH]; [reflexivity|].
  cbn [Py.group3].
  destruct ((0 <? String.length r)%nat && (String.length r mod 3 =? 0)%nat);
    cbn [Py.remove]; destruct (Ascii.eqb c ","); cbn [Ascii.eqb Bool.eqb];
    rewrite ?IH; try reflexivity.
Qed.

Lemma digits_comma_free (d : Decimal.uint) :
  char_free "," (NilEmpty.string_of_uint d) = true.
Proof. induction d; simpl; auto. Qed.

Lemma string_of_uint_comma_free (d : Decimal.uint) :
  char_free "," (NilZero.string_of_uint d) = true.
Proof. destruct d; try reflexivity; apply digits_comma_free. Qed.

Lemma str_comma_free (n : Z) : char_free "," (Py.str n) = true.
Proof.
  unfold Py.str. destruct (Z.to_int n) as [d|d]; simpl;
    apply string_of_uint_comma_free.
Qed.

Lemma str_negative (n : Z) :
  (n < 0)%Z -> Py.str n = String "-" (Py.str (Z.abs n)).
Proof. destruct n as [|p|p]; intros H; try lia. reflexivity. Qed.

Lemma remove_format_commas (n : Z) :
  Py.remove "," (Py.format_commas n) = Py.str n.
Proof.
  unfold Py.format_commas. destruct (n <? 0)%Z eqn:En.
  - apply Z.ltb_lt in En. cbn [Py.remove Ascii.eqb Bool.eqb].
    rewrite remove_group3, remove_char_free by apply str_comma_free.
    symmetry. now apply str_negative.
  - rewrite remove_group3. apply remove_char_free, str_comma_free.
Qed.

(** X8.  The revenue survives the trip through the input and step 9.
    For an integer [n] of at most 4300 digits: of a line whose third
    part is [n] written with thousands separators, [parse_multi_input]
    keeps the revenue [str(n)]; [int] reads that text back as [n]; and
    step 9 of the full run, on an object with that revenue, types [n]
    with its thousands separators again. *)
Theorem format_commas_roundtrip :
  forall (B : Browser) (n : Z) (c l i y d : string) (m : machine),
    (Py.count_digits (Py.str n) <= Py.max_str_digits)%N ->
    option_map row_revenue
      (V2.row_of_parts [c; l; Py.format_commas n; i; y; d])
    = Some (Py.str n)
    /\ Py.int (Py.str n) = Some n
    /\ (revenue (self m) = Some (Py.str n) ->
        V2.type_revenue V2.Full m
        = V2.type_and_enter V2.step9_xpath (Some (Py.format_commas n)) m).
Proof.
  intros B n c l i y d m Hn.
  split; [cbn; now rewrite remove_format_commas|].
  split; [now apply int_str|].
  intros Hr. unfold V2.type_revenue, bind, get_self.
  now rewrite Hr, int_str.
Qed.

Lemma format_commas_roundtrip_witness :
  V2.type_revenue V2.Full
    (on_lab (faulty_lab []) (V2.load_row dallas_row new_automation))
  = V2.type_and_enter V2.step9_xpath (Some "565,000,000")
      (on_lab (faulty_lab []) (V2.load_row dallas_row new_automation)).
Proof.
  apply (proj2 (proj2 (format_commas_roundtrip
                         (lab_browser (faulty_lab [])) 565000000
                         "4006" "Dallas, Texas" "All" "11" "Mean"
                         (on_lab (faulty_lab [])
                            (V2.load_row dallas_row new_automation))
                         ltac:(vm_compute; discriminate)))).
  reflexivity.
Defined.

(** ** Replies and logs *)

Section Inversion.
Context {B : Browser}.

Lemma call_any (r : request) (m m' : machine) (res : result reply) :
  call r m = (res, m') ->
  self m' = self m /\ requests m' = requests m ++ [r].
Proof. rewrite call_run. intros [= _ <-]. now split. Qed.

Lemma call_ok (r : request) (m m' : machine) (a : reply) :
  call r m = (Ok a, m') ->
  self m' = self m /\ requests m' = requests m ++ [r].
Proof. apply call_any. Qed.

Lemma try_inv {A : Type} (body handler : M A) (handles : exn -> bool)
    (m m' : machine) (b : A) :
  try_except body handles handler m = (Ok b, m') ->
  body m = (Ok b, m')
  \/ exists e m1, body m = (Raised e, m1) /\ handles e = true
                  /\ handler m1 = (Ok b, m').
Proof.
  unfold try_except. destruct (body m) as [[a|e] m1]; intros H.
  - now left.
  - destruct (handles e) eqn:E; [|discriminate]. right. eauto.
Qed.

Lemma try_true (body : M bool) (handles : exn -> bool) (m m' : machine) :
  try_except body handles (ret false) m = (Ok true, m') ->
  body m = (Ok true, m').
Proof.
  intros H. apply try_inv in H as [H|(e & m1 & _ & _ & H)]; [exact H|].
  discriminate H.
Qed.

Lemma ask_text_ok (r : request) (m m' : machine) (t : string) :
  ask_text r m = (Ok t, m') ->
  self m' = self m /\ requests m' = requests m ++ [r].
Proof.
  unfold ask_text. intros H. binv H as a m1 Hc. injection H as _ <-.
  now apply call_ok in Hc.
Qed.

Lemma ask_flag_ok (r : request) (m m' : machine) (b : bool) :
  ask_flag r m = (Ok b, m') ->
  self m' = self m /\ requests m' = requests m ++ [r].
Proof.
  unfold ask_flag. intros H. binv H as a m1 Hc. injection H as _ <-.
  now apply call_ok in Hc.
Qed.

Lemma press_backspace_ok (l : locator) (n : nat) :
  forall (m m' : machine) (u : unit),
    V2.press_backspace l n m = (Ok u, m') ->
    requests m' = requests m ++ repeat (SendKeys (Element l) BACKSPACE) n.
Proof.
  induction n as [|n IH]; intros m m' u H.
  - injection H as _ <-. now rewrite app_nil_r.
  - cbn [V2.press_backspace] in H. binv H as a m1 Hc.
    apply call_ok in Hc as [_ Hc]. rewrite (IH _ _ _ H), Hc.
    cbn [repeat]. now rewrite <- app_assoc.
Qed.

Lemma type_chars_ok (l : locator) (text : string) :
  forall (m m' : machine) (u : unit),
    V2.type_chars l text m = (Ok u, m') ->
    requests m' = requests m ++ typed l text.
Proof.
  induction text as [|c text IH]; intros m m' u H.
  - injection H as _ <-. now rewrite app_nil_r.
  - cbn [V2.type_chars] in H. binv H as a m1 Hc.
    apply call_ok in Hc as [_ Hc]. rewrite (IH _ _ _ H), Hc.
    unfold typed. cbn [list_ascii_of_string map]. now rewrite <- app_assoc.
Qed.

Lemma press_down_ok (n : nat) :
  forall (m m' : machine) (u : unit),
    V2.press_down n m = (Ok u, m') ->
    requests m' = requests m ++ repeat (SendKeys ActiveElement ARROW_DOWN) n.
Proof.
  induction n as [|n IH]; intros m m' u H.
  - injection H as _ <-. now rewrite app_nil_r.
  - cbn [V2.press_down] in H. binv H as a m1 Hc.
    apply call_ok in Hc as [_ Hc]. rewrite (IH _ _ _ H), Hc.
    cbn [repeat]. now rewrite <- app_assoc.
Qed.

Lemma try_false_total (body : M bool) (m : machine) :
  exists b m', try_except body any_exception (ret false) m = (Ok b, m').
Proof.
  unfold try_except. destruct (body m) as [[b|e] m1]; cbn; eauto.
Qed.

End Inversion.

(** ** More on the extraction *)

(** X9.  For the statistic [All Incumbent Average] the extraction of
    [V2.py] reads the summary span and nothing else: it returns the
    stripped text of the span, or [Not found] when the reading raises,
    with the years of the object or [N/A]; the table is not read. *)
Theorem summary_statistic_reads_the_span :
  forall (B : Browser) (m : machine),
    data_type (self m) = Some "All Incumbent Average" ->
    V2.extract_years_experience_data m
    = (Ok (Some (V2.result_of (self m)
                   (V2.years_or_na (years_experience (self m)))
                   (kept_text
                      (fst (respond (GetText (XPath all_incumbent_xpath))
                              (page m)))))),
       {| self := self m;
          page := snd (respond (GetText (XPath all_incumbent_xpath)) (page m));
          requests := requests m ++ [GetText (XPath all_incumbent_xpath)] |}).
Proof.
  intros B m Hd. unfold V2.extract_years_experience_data.
  unfold try_except at 1, bind at 1, get_self. rewrite Hd.
  cbn [is_str String.eqb Ascii.eqb Bool.eqb andb].
  run_prog.
  destruct (respond (GetText (XPath all_incumbent_xpath)) (page m)) as [[] w];
    reflexivity.
Qed.

Lemma summary_statistic_reads_the_span_witness :
  V2.extract_years_experience_data
    (on_table example_table (Some " $171,022 ")
       (asking "All Incumbent Average" None) [])
  = (Ok (Some (V2.result_of (asking "All Incumbent Average" None)
                 "N/A" "$171,022")),
     on_table example_table (Some " $171,022 ")
       (asking "All Incumbent Average" None)
       [GetText (XPath all_incumbent_xpath)]).
Proof.
  exact (summary_statistic_reads_the_span
           (table_browser example_table (Some " $171,022 "))
           (on_table example_table (Some " $171,022 ")
              (asking "All Incumbent Average" None) [])
           eq_refl).
Defined.

Section StaticTableEnd.
Variable tbl : list (list string).
Variable summary : option string.
Abbreviation TB' := (table_browser tbl summary).

Lemma V2_check_row_absent (j : nat) (target : string) (dt : option string)
    (m : machine (B := TB')) :
  cell tbl j 1 = None ->
  V2.check_row (B := TB') j target dt m
  = (Ok (Stop None), after m [GetText (TableCell j 1)]).
Proof.
  intros Hc. destruct m as [a [] log].
  unfold V2.check_row; run_prog. rewrite Hc. reflexivity.
Qed.

Lemma V2_scan_no_match (len k : nat) (target : string) (dt : option string)
    (m : machine (B := TB')) :
  (forall j, k <= j < k + len ->
     exists u, cell tbl j 1 = Some u /\ Py.strip u <> target) ->
  V2.scan_rows (B := TB') (seq k len) target dt "Not found" m
  = (Ok "Not found",
     after m (map (fun j => GetText (TableCell j 1)) (seq k len))).
Proof.
  revert k m. induction len as [|len IH]; intros k m H.
  - cbn. unfold ret, after. rewrite app_nil_r. now destruct m.
  - cbn [seq V2.scan_rows map]. unfold bind at 1.
    destruct (H k) as (u & Hu & Hun); [lia|].
    rewrite (V2_check_row_miss tbl summary k u) by assumption.
    rewrite IH by (intros j Hj; apply H; lia).
    unfold after. cbn [self page requests]. now rewrite <- !app_assoc.
Qed.

Lemma V2_scan_to_end (len k e : nat) (target : string) (dt : option string)
    (m : machine (B := TB')) :
  k <= e < k + len ->
  (forall j, k <= j < e ->
     exists u, cell tbl j 1 = Some u /\ Py.strip u <> target) ->
  cell tbl e 1 = None ->
  V2.scan_rows (B := TB') (seq k len) target dt "Not found" m
  = (Ok "Not found",
     after m (map (fun j => GetText (TableCell j 1)) (seq k (S e - k)))).
Proof.
  revert k m. induction len as [|len IH]; intros k m He H Hend; [lia|].
  cbn [seq V2.scan_rows]. unfold bind at 1.
  destruct (Nat.eq_dec k e) as [->|Hne].
  - rewrite V2_check_row_absent by assumption.
    replace (S e - e) with 1 by lia. reflexivity.
  - destruct (H k) as (u & Hu & Hun); [lia|].
    rewrite (V2_check_row_miss tbl summary k u) by assumption.
    rewrite IH; [| lia | intros j Hj; apply H; lia | assumption].
    replace (S e - k) with (S (S e - S k)) by lia.
    cbn [seq map]. unfold after. cbn [self page requests].
    now rewrite <- !app_assoc.
Qed.

End StaticTableEnd.

(** X10.  The scan of [V2.py] reads the first cell of the rows in
    order and stops without a value at the first row the table does not
    have, or after row 19: with no row for the years among the rows it
    reads the answer is [Not found], also when a later row of the table
    has them. *)
Theorem scan_is_bounded_and_ends_with_table :
  forall (tbl : list (list string)) (summary : option string)
         (a : automation) (y : string) (n : Z) (td k : nat)
         (log : list request),
    years_experience a = Some y -> Py.int y = Some n ->
    V2.data_column (data_type a) = Some td ->
    k <= 19 ->
    (forall j, 1 <= j <= k ->
       exists u, cell tbl j 1 = Some u /\ Py.strip u <> Py.str n) ->
    k = 19 \/ cell tbl (S k) 1 = None ->
    V2.extract_years_experience_data (on_table tbl summary a log)
    = (Ok (Some (V2.result_of a (V2.years_or_na (Some y)) "Not found")),
       on_table tbl summary a (log ++ first_cells (Nat.min (S k) 19))).
Proof.
  intros tbl summary a y n td k log Hy Hn Hd Hk Hrows Hend.
  assert (Hscan :
    V2.scan_rows (B := table_browser tbl summary) (seq 1 19) (Py.str n)
      (data_type a) "Not found" (on_table tbl summary a log)
    = (Ok "Not found",
       after (on_table tbl summary a log) (first_cells (Nat.min (S k) 19)))).
  { destruct Hend as [->|Hend].
    - rewrite V2_scan_no_match by (intros j Hj; apply Hrows; lia).
      reflexivity.
    - destruct (Nat.eq_dec k 19) as [->|Hne].
      + rewrite V2_scan_no_match by (intros j Hj; apply Hrows; lia).
        reflexivity.
      + rewrite (V2_scan_to_end tbl summary 19 1 (S k));
          [| lia | intros j Hj; apply Hrows; lia | assumption].
        replace (Nat.min (S k) 19) with (S k) by lia.
        replace (S (S k) - 1) with (S k) by lia. reflexivity. }
  unfold V2.extract_years_experience_data, row_range, on_table in *.
  unfold try_except, bind at 1, get_self. cbn [self].
  destruct (V2_data_column_cases _ _ Hd) as [[Hdt ->]|[Hdt ->]];
    rewrite Hdt in *; cbn [is_str String.eqb Ascii.eqb Bool.eqb orb];
    rewrite Hy, Hn; unfold bind at 1; rewrite Hscan; reflexivity.
Qed.


Lemma scan_is_bounded_witness :
  cell twenty_rows 20 1 = Some "20"
  /\ V2.extract_years_experience_data
       (on_table twenty_rows None (asking "Mean" (Some "20")) [])
     = (Ok (Some (V2.result_of (asking "Mean" (Some "20")) "20" "Not found")),
        on_table twenty_rows None (asking "Mean" (Some "20")) (first_cells 19)).
Proof.
  split; [reflexivity|].
  refine (scan_is_bounded_and_ends_with_table twenty_rows None
            (asking "Mean" (Some "20")) "20" 20 4 19 [] eq_refl eq_refl eq_refl
            (le_n 19) _ (or_introl eq_refl)).
  intros j Hj.
  assert (Hc : In j (seq 1 19)) by (apply in_seq; lia).
  cbn in Hc.
  repeat (destruct Hc as [<-|Hc];
          [eexists; split; [reflexivity | vm_compute; discriminate]|]).
  destruct Hc.
Defined.

(** ** The kind of requests a program issues *)

Section Issues.
Context {B : Browser} (P : request -> Prop).

Lemma issues_ret {A} (a : A) : issues P (ret a).
Proof. intros m. exists []. cbn. now rewrite app_nil_r. Qed.

Lemma issues_raise {A} (e : exn) : issues P (raise (A := A) e).
Proof. intros m. exists []. cbn. now rewrite app_nil_r. Qed.

Lemma issues_get_self : issues P get_self.
Proof. intros m. exists []. cbn. now rewrite app_nil_r. Qed.

Lemma issues_modify (g : automation -> automation) : issues P (modify_self g).
Proof. intros m. exists []. cbn. now rewrite app_nil_r. Qed.

Lemma issues_call (r : request) : P r -> issues P (call r).
Proof.
  intros Hr m. exists [r]. rewrite call_requests. split; [reflexivity|].
  now constructor.
Qed.

Lemma issues_bind {A C} (c : M A) (k : A -> M C) :
  issues P c -> (forall a, issues P (k a)) -> issues P (bind c k).
Proof.
  intros Hc Hk m. unfold bind. destruct (Hc m) as (rs & Hr & HP).
  destruct (c m) as [[a|e] m1]; cbn [snd] in *; [|now exists rs].
  destruct (Hk a m1) as (rs' & Hr' & HP').
  exists (rs ++ rs'). rewrite Hr', Hr, app_assoc. split; [reflexivity|].
  now apply Forall_app.
Qed.

Lemma issues_try {A} (c h : M A) (handles : exn -> bool) :
  issues P c -> issues P h -> issues P (try_except c handles h).
Proof.
  intros Hc Hh m. unfold try_except. destruct (Hc m) as (rs & Hr & HP).
  destruct (c m) as [[a|e] m1]; cbn [snd] in *; [now exists rs|].
  destruct (handles e); [|now exists rs].
  destruct (Hh m1) as (rs' & Hr' & HP').
  exists (rs ++ rs'). rewrite Hr', Hr, app_assoc. split; [reflexivity|].
  now apply Forall_app.
Qed.

Lemma issues_ask_text (r : request) : P r -> issues P (ask_text r).
Proof.
  intros Hr. unfold ask_text. apply issues_bind; [now apply issues_call|].
  intros a. apply issues_ret.
Qed.

Lemma issues_ask_flag (r : request) : P r -> issues P (ask_flag r).
Proof.
  intros Hr. unfold ask_flag. apply issues_bind; [now apply issues_call|].
  intros a. apply issues_ret.
Qed.

End Issues.

(** Decompose a goal [issues P c] along the structure of [c]; the
    requests themselves are left to [P]. *)
Ltac only_issues :=
  repeat (intros;
          first [ assumption | solve [auto 1]
                | apply issues_ret | apply issues_raise
                | apply issues_get_self | apply issues_modify
                | apply issues_bind | apply issues_try
                | apply issues_ask_text | apply issues_ask_flag
                | apply issues_call
                | match goal with
                  | |- issues _ (match ?x with _ => _ end) => destruct x eqn:?
                  | |- issues _ (if ?x then _ else _) => destruct x eqn:?
                  end ]).

Section ReadOnly.
Context {B : Browser}.

Lemma reads_cell (row_num td : nat) :
  1 <= row_num <= 19 -> td = 1 \/ td = 4 \/ td = 5 ->
  reads_result (GetText (TableCell row_num td)) = true.
Proof.
  intros [H1 H2] Htd. unfold reads_result.
  apply Nat.leb_le in H1, H2. rewrite H1, H2.
  destruct Htd as [-> | [-> | ->]]; reflexivity.
Qed.

Lemma issues_check_row (row_num : nat) (target : string)
    (dt : option string) :
  1 <= row_num <= 19 ->
  issues (fun r => reads_result r = true)
    (V2.check_row row_num target dt).
Proof.
  intros Hn. unfold V2.check_row.
  pose proof (reads_cell row_num 1 Hn (or_introl eq_refl)) as H1.
  only_issues.
  match goal with H : V2.data_column dt = Some ?td |- _ =>
    destruct (V2_data_column_cases _ _ H) as [[_ ->]|[_ ->]] end;
    apply reads_cell; auto.
Qed.

Lemma issues_scan_rows (row_nums : list nat) (target : string)
    (dt : option string) (v : string) :
  Forall (fun j => 1 <= j <= 19) row_nums ->
  issues (fun r => reads_result r = true)
    (V2.scan_rows row_nums target dt v).
Proof.
  induction row_nums as [|j rest IH]; intros H; cbn [V2.scan_rows].
  - apply issues_ret.
  - apply Forall_cons in H as [Hj Hrest]. specialize (IH Hrest).
    pose proof (issues_check_row j target dt Hj). only_issues.
Qed.

End ReadOnly.

Section ReadCount.
Context {B : Browser}.

Lemma check_row_count (row_num : nat) (target : string) (dt : option string)
    (m : machine) :
  length (requests (snd (V2.check_row row_num target dt m)))
  <= length (requests m) + 2.
Proof.
  unfold V2.check_row, try_except, ask_text, bind, ret, raise.
  rewrite call_run.
  destruct (raised (answer (GetText (TableCell row_num 1)) m)) as [e|].
  - destruct (is_no_such_element e); cbn; rewrite length_app; cbn; lia.
  - destruct (String.eqb _ target).
    + destruct (V2.data_column dt) as [td|].
      * rewrite call_run.
        destruct (raised (answer (GetText (TableCell row_num td)) _));
          cbn; rewrite !length_app; cbn; lia.
      * cbn. rewrite length_app. cbn. lia.
    + cbn. rewrite length_app. cbn. lia.
Qed.

Lemma scan_rows_count (row_nums : list nat) (target : string)
    (dt : option string) (v : string) :
  forall m,
    length (requests (snd (V2.scan_rows row_nums target dt v m)))
    <= length (requests m) + 2 * length row_nums.
Proof.
  induction row_nums as [|j rest IH]; intros m; cbn [V2.scan_rows].
  - cbn. lia.
  - unfold bind. pose proof (check_row_count j target dt m) as Hc.
    destruct (V2.check_row j target dt m) as [[[|[]]|e] m1]; cbn [snd] in *.
    + specialize (IH m1). cbn [length]. lia.
    + unfold ret. cbn [snd length]. lia.
    + unfold ret. cbn [snd length]. lia.
    + cbn [length]. lia.
Qed.

Lemma extract_count (m : machine) :
  length (requests (snd (V2.extract_years_experience_data m)))
  <= length (requests m) + 38.
Proof.
  unfold V2.extract_years_experience_data.
  unfold try_except at 1, bind at 1, get_self.
  destruct (is_str (data_type (self m)) "All Incumbent Average").
  - unfold bind, try_except, ask_text, bind, ret. rewrite call_run.
    destruct (raised _); cbn; rewrite length_app; cbn; lia.
  - destruct (is_str (data_type (self m)) "Mean"
              || is_str (data_type (self m)) "75th Percentile").
    + destruct (years_experience (self m)) as [y|]; [|cbn; lia].
      destruct (Py.int y) as [n|]; [|cbn; lia].
      unfold bind.
      pose proof (scan_rows_count row_range (Py.str n)
                    (data_type (self m)) "Not found" m) as Hs.
      change (length row_range) with 19 in Hs.
      destruct (V2.scan_rows row_range _ _ _ m) as [[v|e] m1];
        cbn [snd] in *; cbn; lia.
    + cbn. lia.
Qed.

End ReadCount.

(** X11.  Whatever the browser answers, the extraction of [V2.py]
    does nothing but read: it issues 38 requests at most, each of them
    for the text of the summary span or of a cell 1, 4 or 5 of one of
    the rows 1 to 19.  It returns without an exception and leaves the
    object as it is. *)
Theorem extraction_only_reads :
  forall (B : Browser) (m : machine),
    exists (d : option result_row) (m' : machine) (rs : list request),
      V2.extract_years_experience_data m = (Ok d, m')
      /\ self m' = self m
      /\ requests m' = requests m ++ rs
      /\ Forall (fun r => reads_result r = true) rs
      /\ length rs <= 38.
Proof.
  intros B m.
  assert (Hi : issues (fun r => reads_result r = true)
                 V2.extract_years_experience_data).
  { unfold V2.extract_years_experience_data.
    assert (Hrange : Forall (fun j => 1 <= j <= 19) row_range).
    { apply Forall_forall. intros j Hj. unfold row_range in Hj.
      apply elem_of_seq in Hj. lia. }
    pose proof (fun t dt v => issues_scan_rows row_range t dt v Hrange).
    only_issues. }
  destruct (Hi m) as (rs & Hr & HP).
  pose proof (keeps_extract m) as Hk.
  pose proof (extract_count m) as Hc.
  assert (Ht : exists d m', V2.extract_years_experience_data m = (Ok d, m')).
  { unfold V2.extract_years_experience_data, try_except.
    match goal with |- context [match ?x with _ => _ end] =>
      destruct x as [[d|e] m1] end; cbn; eauto. }
  destruct Ht as (d & m' & E). rewrite E in Hr, Hk, Hc. cbn [snd] in *.
  exists d, m', rs. split; [exact E|]. split; [exact Hk|].
  split; [exact Hr|]. split; [exact HP|].
  rewrite Hr, length_app in Hc. lia.
Qed.

Section V0Reads.
Context {B : Browser}.

Lemma V0_data_column_cases (dt : option string) (td : nat) :
  V0.data_column dt = Some td -> td = 4 \/ td = 5.
Proof.
  unfold V0.data_column. destruct dt as [d|]; [|discriminate].
  destruct (String.eqb (Py.lower d) "mean"); [intros [= <-]; now left|].
  destruct (_ || _); intros [= <-]; auto.
Qed.

Lemma V0_issues_check_row (row_num : nat) (target : string)
    (dt : option string) :
  1 <= row_num <= 19 ->
  issues (fun r => reads_result r = true)
    (V0.check_row row_num target dt).
Proof.
  intros Hn. unfold V0.check_row.
  pose proof (reads_cell row_num 1 Hn (or_introl eq_refl)) as H1.
  only_issues.
  match goal with H : V0.data_column dt = Some ?td |- _ =>
    apply V0_data_column_cases in H end.
  apply reads_cell; tauto.
Qed.

Lemma V0_issues_scan_rows (row_nums : list nat) (target : string)
    (dt : option string) (v : string) :
  Forall (fun j => 1 <= j <= 19) row_nums ->
  issues (fun r => reads_result r = true)
    (V0.scan_rows row_nums target dt v).
Proof.
  induction row_nums as [|j rest IH]; intros H; cbn [V0.scan_rows].
  - apply issues_ret.
  - apply Forall_cons in H as [Hj Hrest]. specialize (IH Hrest).
    pose proof (V0_issues_check_row j target dt Hj). only_issues.
Qed.

Lemma V0_check_row_count (row_num : nat) (target : string)
    (dt : option string) (m : machine) :
  length (requests (snd (V0.check_row row_num target dt m)))
  <= length (requests m) + 2.
Proof.
  unfold V0.check_row, try_except, ask_text, bind, ret, raise.
  rewrite call_run.
  destruct (raised (answer (GetText (TableCell row_num 1)) m)) as [e|].
  - destruct (is_no_such_element e); cbn; rewrite length_app; cbn; lia.
  - destruct (String.eqb _ target).
    + destruct (V0.data_column dt) as [td|].
      * rewrite call_run.
        destruct (raised (answer (GetText (TableCell row_num td)) _));
          cbn; rewrite !length_app; cbn; lia.
      * cbn. rewrite length_app. cbn. lia.
    + cbn. rewrite length_app. cbn. lia.
Qed.

Lemma V0_scan_rows_count (row_nums : list nat) (target : string)
    (dt : option string) (v : string) :
  forall m,
    length (requests (snd (V0.scan_rows row_nums target dt v m)))
    <= length (requests m) + 2 * length row_nums.
Proof.
  induction row_nums as [|j rest IH]; intros m; cbn [V0.scan_rows].
  - cbn. lia.
  - unfold bind. pose proof (V0_check_row_count j target dt m) as Hc.
    destruct (V0.check_row j target dt m) as [[[|[]]|e] m1]; cbn [snd] in *.
    + specialize (IH m1). cbn [length]. lia.
    + unfold ret. cbn [snd length]. lia.
    + unfold ret. cbn [snd length]. lia.
    + cbn [length]. lia.
Qed.

End V0Reads.

(** X12.  The extraction of [V0.py] reads the summary span first,
    whatever the statistic, and then cells 1, 4 and 5 of the rows 1 to
    19 only, with 38 readings at most; it returns without an
    exception. *)
Theorem V0_extraction_reads_summary_first :
  forall (B : Browser) (m : machine),
    exists (d : option V0.extracted) (m' : machine) (rs : list request),
      V0.extract_years_experience_data m = (Ok d, m')
      /\ requests m'
         = requests m ++ GetText (XPath all_incumbent_xpath) :: rs
      /\ Forall (fun r => reads_result r = true) rs
      /\ length rs <= 38.
Proof.
  intros B m. unfold V0.extract_years_experience_data.
  unfold try_except at 1, bind at 1.
  assert (Hsum : exists aia,
             try_except
               (t <- ask_text (GetText (XPath all_incumbent_xpath)) ;;
                ret (Py.strip t))
               any_exception (ret "Not found") m
             = (Ok aia, answered (GetText (XPath all_incumbent_xpath)) m)).
  { unfold try_except, ask_text, bind, ret. rewrite call_run.
    destruct (raised _); eauto. }
  destruct Hsum as [aia ->].
  set (m1 := answered (GetText (XPath all_incumbent_xpath)) m).
  unfold bind at 1, get_self.
  destruct (years_experience (self m1)) as [y|];
    [|exists None, m1, []; repeat split; [constructor | cbn; lia]].
  destruct (Py.int y) as [n|];
    [|exists None, m1, []; repeat split; [constructor | cbn; lia]].
  unfold bind.
  assert (Hrange : Forall (fun j => 1 <= j <= 19) row_range).
  { apply Forall_forall. intros j Hj. unfold row_range in Hj.
    apply elem_of_seq in Hj. lia. }
  destruct (V0_issues_scan_rows row_range (Py.str n) (data_type (self m1))
              "Not found" Hrange m1) as (rs & Hr & HP).
  pose proof (V0_scan_rows_count row_range (Py.str n) (data_type (self m1))
                "Not found" m1) as Hc.
  change (length row_range) with 19 in Hc.
  destruct (V0.scan_rows row_range _ _ _ m1) as [[v|e] m2]; cbn [snd] in *.
  - eexists _, m2, rs. split; [reflexivity|].
    rewrite Hr. cbn [m1 answered requests]. rewrite <- app_assoc.
    split; [reflexivity|]. split; [exact HP|].
    rewrite Hr, length_app in Hc. lia.
  - exists None, m2, rs. cbn [any_exception ret]. split; [reflexivity|].
    rewrite Hr. cbn [m1 answered requests]. rewrite <- app_assoc.
    split; [reflexivity|]. split; [exact HP|].
    rewrite Hr, length_app in Hc. lia.
Qed.

(** ** The revenue in the full run *)

Section Revenue.
Context {B : Browser}.

Lemma run_steps_app (v : V2.variant) (pre post : list V2.step) (m : machine) :
  V2.run_steps v (pre ++ post) m
  = (ok <- V2.run_steps v pre ;;
     if ok then V2.run_steps v post else ret false) m.
Proof.
  revert m. induction pre as [|s pre IH]; intros m; [reflexivity|].
  cbn [app V2.run_steps]. unfold bind in *.
  destruct (V2.perform v s m) as [[[]|e] m1]; [apply IH | reflexivity ..].
Qed.

Lemma type_revenue_full_raises (m : machine) :
  match revenue (self m) with Some r => Py.int r = None | None => True end ->
  V2.type_revenue V2.Full m = (Raised OtherError, m).
Proof.
  intros H. unfold V2.type_revenue, bind, get_self, raise.
  destruct (revenue (self m)) as [r|]; [now rewrite H | reflexivity].
Qed.

Lemma full_steps_fail (m : machine) :
  match revenue (self m) with Some r => Py.int r = None | None => True end ->
  exists r m', V2.run_steps V2.Full V2.full_sequence m = (r, m')
               /\ r <> Ok true /\ self m' = self m.
Proof.
  intros H.
  change V2.full_sequence
    with ([V2.Step1; V2.Step2; V2.Step3; V2.Step4; V2.Step5; V2.Step6;
           V2.Step7; V2.Step8] ++ [V2.Step9]).
  rewrite run_steps_app. unfold bind at 1.
  pose proof (keeps_run_steps V2.Full
                [V2.Step1; V2.Step2; V2.Step3; V2.Step4; V2.Step5; V2.Step6;
                 V2.Step7; V2.Step8] m) as Hk.
  destruct (V2.run_steps V2.Full _ m) as [[[]|e] m1]; cbn [snd] in Hk.
  - cbn [V2.run_steps V2.perform]. unfold bind at 1.
    rewrite type_revenue_full_raises by now rewrite Hk.
    eexists _, _. split; [reflexivity|]. split; [discriminate | exact Hk].
  - eexists _, _. split; [reflexivity|]. split; [discriminate | exact Hk].
  - eexists _, _. split; [reflexivity|]. split; [discriminate | exact Hk].
Qed.

Lemma run_complete_fails (m : machine) :
  match revenue (self m) with Some r => Py.int r = None | None => True end ->
  exists m', V2.run_complete_automation m = (Ok false, m')
             /\ self m' = self m.
Proof.
  intros H. rewrite run_complete_as_steps.
  destruct (full_steps_fail m H) as (r & m' & E & Hr & Hs).
  exists m'. unfold try_except, bind at 1. rewrite E.
  destruct r as [[]|e]; [congruence | now split ..].
Qed.

End Revenue.

(** X13.  The full run needs a revenue that [int] reads: with a
    revenue that is missing or is not an integer literal (one written
    with thousands separators, say) [run_complete_automation] answers
    [False], whatever the browser does, and leaves the object, hence
    the rows extracted, as they are. *)
Theorem full_run_needs_integer_revenue :
  forall (B : Browser) (m : machine),
    match revenue (self m) with Some r => Py.int r = None | None => True end ->
    exists m', V2.run_complete_automation m = (Ok false, m')
               /\ self m' = self m.
Proof. intros B m H. now apply run_complete_fails. Qed.

Lemma full_run_needs_integer_revenue_witness :
  Py.int "565,000,000" = None
  /\ exists m',
       V2.run_complete_automation
         (on_lab (faulty_lab [])
            (set_revenue (Some "565,000,000")
               (V2.load_row dallas_row new_automation)))
       = (Ok false, m')
       /\ all_data (self m') = [].
Proof.
  split; [reflexivity|].
  destruct (full_run_needs_integer_revenue (lab_browser (faulty_lab []))
              (on_lab (faulty_lab [])
                 (set_revenue (Some "565,000,000")
                    (V2.load_row dallas_row new_automation)))
              eq_refl) as (m' & E & Hs).
  exists m'. split; [exact E | now rewrite Hs].
Defined.

(** ** The interactions *)

Section Clicks.
Context {B : Browser}.

Lemma wait_and_click_run (xpath : string) (m : machine) :
  let W := WaitClickable (XPath xpath) in
  let C := Click (XPath xpath) in
  let S := ScriptClick (XPath xpath) in
  V2.wait_and_click xpath m
  = match raised (answer W m) with
    | Some _ => (Ok false, answered W m)
    | None =>
        match raised (answer C (answered W m)) with
        | None => (Ok true, answered C (answered W m))
        | Some _ =>
            (Ok match raised (answer S (answered C (answered W m))) with
                | Some _ => false
                | None => true
                end,
             answered S (answered C (answered W m)))
        end
    end.
Proof.
  intros W C S. unfold V2.wait_and_click.
  unfold try_except, bind, ret. rewrite call_run. fold W.
  destruct (raised (answer W m)); [reflexivity|].
  rewrite call_run. fold C.
  destruct (raised (answer C (answered W m))); [|reflexivity].
  cbn [any_exception]. rewrite call_run. fold S.
  destruct (raised (answer S (answered C (answered W m)))); reflexivity.
Qed.

Lemma V0_wait_and_click_run (xpath : string) (m : machine) :
  let W := WaitClickable (XPath xpath) in
  let V := ScrollIntoView (XPath xpath) in
  let C := Click (XPath xpath) in
  let S := ScriptClick (XPath xpath) in
  V0.wait_and_click xpath m
  = match raised (answer W m) with
    | Some _ => (Ok false, answered W m)
    | None =>
        match raised (answer V (answered W m)) with
        | Some _ => (Ok false, answered V (answered W m))
        | None =>
            match raised (answer C (answered V (answered W m))) with
            | None => (Ok true, answered C (answered V (answered W m)))
            | Some e =>
                if is_element_not_interactable e
                then (Ok match raised (answer S (answered C (answered V (answered W m)))) with
                         | Some _ => false
                         | None => true
                         end,
                      answered S (answered C (answered V (answered W m))))
                else (Ok false, answered C (answered V (answered W m)))
            end
        end
    end.
Proof.
  intros W V C S. unfold V0.wait_and_click.
  unfold try_except, bind, ret. rewrite call_run. fold W.
  destruct (raised (answer W m)); [reflexivity|].
  rewrite call_run. fold V.
  destruct (raised (answer V (answered W m))); [reflexivity|].
  rewrite call_run. fold C.
  destruct (raised (answer C (answered V (answered W m)))) as [e|];
    [|reflexivity].
  destruct (is_element_not_interactable e); [|reflexivity].
  rewrite call_run. fold S.
  destruct (raised (answer S (answered C (answered V (answered W m)))));
    reflexivity.
Qed.

End Clicks.

(** X14.  [V2.py]: [wait_and_click] never raises and leaves the object
    as it is; it answers [True] exactly when the wait went through and then
    the click or, failing it, the JavaScript click did; the JavaScript
    click is tried after a failed click, whatever the exception. *)
Theorem wait_and_click_answer :
  forall (B : Browser) (xpath : string) (m : machine),
    let W := WaitClickable (XPath xpath) in
    let C := Click (XPath xpath) in
    let S := ScriptClick (XPath xpath) in
    exists (b : bool) (m' : machine),
      V2.wait_and_click xpath m = (Ok b, m')
      /\ self m' = self m
      /\ (b = true <->
          raised (answer W m) = None
          /\ (raised (answer C (answered W m)) = None
              \/ raised (answer S (answered C (answered W m))) = None))
      /\ requests m'
         = requests m
           ++ W :: match raised (answer W m) with
                   | Some _ => []
                   | None =>
                       C :: match raised (answer C (answered W m)) with
                            | Some _ => [S]
                            | None => []
                            end
                   end.
Proof.
  intros B xpath m W C S. rewrite wait_and_click_run. fold W C S.
  destruct (raised (answer W m)) as [e|].
  - eexists _, _. split; [reflexivity|]. split; [reflexivity|].
    split; [|reflexivity]. split; [discriminate | intros [? _]; discriminate].
  - destruct (raised (answer C (answered W m))) as [e|].
    + eexists _, _. split; [reflexivity|]. split; [reflexivity|].
      cbn [answered requests]. rewrite <- !app_assoc. split; [|reflexivity].
      destruct (raised (answer S (answered C (answered W m)))).
      * split; [discriminate | intros [_ [?|?]]; discriminate].
      * split; [auto | reflexivity].
    + eexists _, _. split; [reflexivity|]. split; [reflexivity|].
      cbn [answered requests]. rewrite <- !app_assoc. split; [|reflexivity].
      split; auto.
Qed.

(** X15.  [wait_and_click] of [V0.py] never raises either; there the
    element is scrolled into view before the click, and the JavaScript
    click is tried after an
    [ElementNotInteractableException] only: after any other exception of
    the click the answer is [False]. *)
Theorem V0_wait_and_click_answer :
  forall (B : Browser) (xpath : string) (m : machine),
    let W := WaitClickable (XPath xpath) in
    let V := ScrollIntoView (XPath xpath) in
    let C := Click (XPath xpath) in
    let S := ScriptClick (XPath xpath) in
    let m2 := answered V (answered W m) in
    exists (b : bool) (m' : machine),
      V0.wait_and_click xpath m = (Ok b, m')
      /\ self m' = self m
      /\ (b = true <->
          raised (answer W m) = None
          /\ raised (answer V (answered W m)) = None
          /\ (raised (answer C m2) = None
              \/ raised (answer C m2) = Some ElementNotInteractableException
                 /\ raised (answer S (answered C m2)) = None))
      /\ (In S (requests m') ->
          In S (requests m)
          \/ raised (answer C m2) = Some ElementNotInteractableException).
Proof.
  intros B xpath m W V C S m2. rewrite V0_wait_and_click_run.
  fold W V C S. fold m2.
  assert (HS : forall l, In S (l ++ [W]) -> In S l).
  { intros l H. apply in_app_or in H as [H|[H|[]]]; [exact H|discriminate]. }
  assert (HV : forall l, In S (l ++ [V]) -> In S l).
  { intros l H. apply in_app_or in H as [H|[H|[]]]; [exact H|discriminate]. }
  assert (HC : forall l, In S (l ++ [C]) -> In S l).
  { intros l H. apply in_app_or in H as [H|[H|[]]]; [exact H|discriminate]. }
  destruct (raised (answer W m)) as [e|].
  { eexists _, _. split; [reflexivity|]. split; [reflexivity|]. split.
    - split; [discriminate | intros [? _]; discriminate].
    - cbn [answered requests]. intros H. left. auto. }
  destruct (raised (answer V (answered W m))) as [e|].
  { eexists _, _. split; [reflexivity|]. split; [reflexivity|]. split.
    - split; [discriminate | intros (_ & ? & _); discriminate].
    - cbn [answered requests]. intros H. left. auto. }
  destruct (raised (answer C m2)) as [e|].
  - destruct e; cbn [is_element_not_interactable];
      try (eexists _, _; split; [reflexivity|]; split; [reflexivity|]; split;
           [ split; [discriminate
                    | intros (_ & _ & [?|[? _]]); discriminate]
           | unfold m2; cbn [answered requests]; intros H; left; auto ]).
    eexists _, _. split; [reflexivity|]. split; [reflexivity|]. split.
    + destruct (raised (answer S (answered C m2))).
      * split; [discriminate | intros (_ & _ & [?|[_ ?]]); discriminate].
      * split; auto.
    + intros _. now right.
  - eexists _, _. split; [reflexivity|]. split; [reflexivity|]. split.
    + split; auto.
    + unfold m2; cbn [answered requests]. intros H. left. auto.
Qed.

(** X16.  [wait_and_click_with_retry] never raises and leaves the object as
    it is.  It only ever waits for and clicks on the listed variations;
    when it answers [True], its last two requests are the wait for and
    the click on one of them; when it answers [False], every variation
    has been waited for. *)
Theorem retry_tries_the_variations_in_order :
  forall (B : Browser) (xpath_list : list string) (m : machine),
    exists (b : bool) (m' : machine) (rs : list request),
      V2.wait_and_click_with_retry xpath_list m = (Ok b, m')
      /\ self m' = self m
      /\ requests m' = requests m ++ rs
      /\ (forall r, In r rs ->
            exists x, In x xpath_list
                      /\ (r = WaitClickable (XPath x) \/ r = Click (XPath x)))
      /\ (b = true ->
          exists pre x, In x xpath_list
                        /\ rs = pre ++ [WaitClickable (XPath x);
                                        Click (XPath x)])
      /\ (b = false ->
          forall x, In x xpath_list -> In (WaitClickable (XPath x)) rs).
Proof.
  intros B xpath_list. induction xpath_list as [|x rest IH]; intros m.
  - exists false, m, []. cbn. rewrite app_nil_r.
    repeat split; try reflexivity; try discriminate; intros; contradiction.
  - cbn [V2.wait_and_click_with_retry].
    unfold bind at 1, try_except, bind at 1. rewrite call_run.
    destruct (raised (answer (WaitClickable (XPath x)) m)) as [e|].
    + cbn [any_exception ret].
      destruct (IH (answered (WaitClickable (XPath x)) m))
        as (b & m' & rs & E & Hs & Hr & Hin & Ht & Hf).
      exists b, m', (WaitClickable (XPath x) :: rs).
      split; [exact E|]. split; [exact Hs|].
      split; [rewrite Hr; cbn [answered requests]; now rewrite <- app_assoc|].
      split; [|split].
      * intros r [<-|Hr']; [exists x; split; [now left | now left]|].
        destruct (Hin r Hr') as (y & Hy & Hc). exists y. split; [now right|exact Hc].
      * intros Hb. destruct (Ht Hb) as (pre & y & Hy & ->).
        exists (WaitClickable (XPath x) :: pre), y. split; [now right|reflexivity].
      * intros Hb y [<-|Hy]; [now left | right; now apply Hf].
    + unfold bind at 1. rewrite call_run.
      destruct (raised (answer (Click (XPath x))
                          (answered (WaitClickable (XPath x)) m))) as [e|].
      * cbn [any_exception ret].
        destruct (IH (answered (Click (XPath x))
                        (answered (WaitClickable (XPath x)) m)))
          as (b & m' & rs & E & Hs & Hr & Hin & Ht & Hf).
        exists b, m', (WaitClickable (XPath x) :: Click (XPath x) :: rs).
        split; [exact E|]. split; [exact Hs|].
        split; [rewrite Hr; cbn [answered requests]; now rewrite <- !app_assoc|].
        split; [|split].
        -- intros r [<-|[<-|Hr']];
             [exists x; split; [now left | now left]
             |exists x; split; [now left | now right]|].
           destruct (Hin r Hr') as (y & Hy & Hc). exists y.
           split; [now right|exact Hc].
        -- intros Hb. destruct (Ht Hb) as (pre & y & Hy & ->).
           exists (WaitClickable (XPath x) :: Click (XPath x) :: pre), y.
           split; [now right|reflexivity].
        -- intros Hb y [<-|Hy]; [now left | right; right; now apply Hf].
      * cbn [ret].
        exists true, (answered (Click (XPath x))
                        (answered (WaitClickable (XPath x)) m)),
          [WaitClickable (XPath x); Click (XPath x)].
        split; [reflexivity|]. split; [reflexivity|].
        split; [cbn [answered requests]; now rewrite <- app_assoc|].
        split; [|split].
        -- intros r [<-|[<-|[]]]; exists x; split; auto; now left.
        -- intros _. exists [], x. split; [now left | reflexivity].
        -- discriminate.
Qed.

(** Settle what is asked of the [j]-th of the requests issued, [j]
    running through the five positions. *)
Ltac each_issued :=
  let j := fresh "j" in
  let r := fresh "r" in
  let Hr := fresh "Hr" in
  let Hj := fresh "Hj" in
  intros j r Hr Hj;
  do 5 (destruct j as [|j];
        [ cbn in Hr; injection Hr as <-;
          cbn [take dropdown_keys answered_all fold_left];
          repeat match goal with
                 | H : raised ?x = _ |- context [raised ?x] => rewrite H
                 end;
          split;
          [ intros Hn;
            first [ now destruct Hn | split; [reflexivity | lia] ]
          | intros [Hb Hk]; first [ discriminate | lia ] ]
        | ]);
  cbn in Hr; first [ discriminate Hr | lia ].

(** X17.  [dropdown_keyboard_selection] never raises and leaves the object
    as it is.  It issues, in order, the first [k] of: the active
    element, three times [ARROW_DOWN], [ENTER]; each of them but the
    last issued was answered without an exception, and the last issued
    raised exactly when the answer is [False]: it answers [True] when
    all five went through, and after a request that raised nothing more
    is pressed, [ENTER] in particular. *)
Theorem dropdown_presses_three_down_then_enter :
  forall (B : Browser) (m : machine),
    exists (b : bool) (m' : machine) (k : nat),
      V2.dropdown_keyboard_selection m = (Ok b, m')
      /\ m' = answered_all (take k dropdown_keys) m
      /\ self m' = self m
      /\ 1 <= k <= 5
      /\ requests m' = requests m ++ take k dropdown_keys
      /\ (b = true -> k = 5)
      /\ forall (j : nat) (r : request),
           dropdown_keys !! j = Some r -> j < k ->
           (raised (answer r (answered_all (take j dropdown_keys) m)) <> None
            <-> b = false /\ S j = k).
Proof.
  intros B m. unfold V2.dropdown_keyboard_selection.
  cbn [V2.press_down]. unfold try_except, bind, pass, ret.
  do 5 (rewrite call_run;
        match goal with
        | |- context [raised (answer ?r ?x)] =>
            destruct (raised (answer r x)) eqn:?
        end;
        [ let close k :=
            solve [ eexists false, _, k; split; [reflexivity|];
                    split; [reflexivity|];
                    split; [reflexivity|]; split; [lia|];
                    split; [cbn; rewrite <- ?app_assoc; reflexivity|];
                    split; [discriminate|]; each_issued ] in
          first [close 1 | close 2 | close 3 | close 4 | close 5]
        | ]).
  eexists true, _, 5. split; [reflexivity|]. split; [reflexivity|].
  split; [reflexivity|]. split; [lia|].
  split; [cbn; rewrite <- ?app_assoc; reflexivity|]. split; [reflexivity|].
  each_issued.
Qed.

Section Typing.
Context {B : Browser}.

(** The probe of the mask at the start of [type_and_enter]. *)
Lemma mask_probe_run (m : machine) :
  exists m1 probe,
    try_except
      (shown <- ask_flag (IsDisplayed (ById "mask")) ;;
       if shown then call (ExecuteScript V2.hide_mask) ;; pass else pass)
      any_exception pass m = (Ok tt, m1)
    /\ self m1 = self m
    /\ requests m1 = requests m ++ probe
    /\ (probe = [IsDisplayed (ById "mask")]
        \/ probe = [IsDisplayed (ById "mask"); ExecuteScript V2.hide_mask]).
Proof.
  unfold try_except, ask_flag, bind, pass, ret. rewrite call_run.
  destruct (raised (answer (IsDisplayed (ById "mask")) m)).
  - eexists _, _. split; [reflexivity|]. split; [reflexivity|].
    split; [reflexivity | now left].
  - destruct (answer (IsDisplayed (ById "mask")) m) as [| |[]| | | |];
      try (eexists _, _; split; [reflexivity|]; split; [reflexivity|];
           split; [reflexivity | now left]).
    rewrite call_run.
    destruct (raised (answer (ExecuteScript V2.hide_mask) _));
      (eexists _, _; split; [reflexivity|]; split; [reflexivity|];
       split; [cbn [answered requests]; rewrite <- app_assoc; reflexivity
              | now right]).
Qed.

Lemma enhanced_true (l : locator) (text : option string) (m m' : machine) :
  V2.enhanced_text_clear_and_type l text m = (Ok true, m') ->
  exists s n, text = Some s /\ (n = 0 \/ 6 <= n)
              /\ requests m' = requests m ++ clearing l n ++ typed l s.
Proof.
  intros H. unfold V2.enhanced_text_clear_and_type in H.
  apply try_true in H.
  binv H as a1 m1 H1. apply call_ok in H1 as [_ H1].
  binv H as a2 m2 H2. apply call_ok in H2 as [_ H2].
  binv H as cv m3 H3. apply ask_text_ok in H3 as [_ H3].
  binv H as u m4 H4. binv H as u' m5 H5. injection H as <-.
  destruct text as [s|]; [|discriminate H5].
  cbn [V2.type_text] in H5. apply type_chars_ok in H5.
  destruct (Py.truthy cv) eqn:Ecv.
  - apply press_backspace_ok in H4.
    exists s, (String.length cv + 5). split; [reflexivity|].
    split; [right; destruct cv; [discriminate | simpl; lia]|].
    rewrite H5, H4, H3, H2, H1. unfold clearing.
    now rewrite <- !app_assoc.
  - unfold pass, ret in H4. injection H4 as Hm. subst m4.
    exists s, 0. split; [reflexivity|].
    split; [now left|].
    rewrite H5, H3, H2, H1. unfold clearing. cbn [repeat].
    now rewrite <- !app_assoc.
Qed.

End Typing.

(** X18.  [type_and_enter] never raises and leaves the object as it is.  When
    it answers [True] there was a value, and the requests it issued
    are: the probe of the mask (and the script that hides it), the wait
    for the field, the scroll, the click, the clearing keys, the value
    one character at a time, in order, and [ENTER].  Without a value it
    answers [False]. *)
Theorem type_and_enter_types_the_value :
  forall (B : Browser) (xpath : string) (value : option string) (m : machine),
    let l := XPath xpath in
    (exists (b : bool) (m' : machine),
        V2.type_and_enter xpath value m = (Ok b, m') /\ self m' = self m
        /\ (value = None -> b = false))
    /\ (forall m',
           V2.type_and_enter xpath value m = (Ok true, m') ->
           exists (s : string) (probe : list request) (n : nat),
             value = Some s
             /\ (probe = [IsDisplayed (ById "mask")]
                 \/ probe = [IsDisplayed (ById "mask");
                             ExecuteScript V2.hide_mask])
             /\ (n = 0 \/ 6 <= n)
             /\ requests m'
                = requests m ++ probe
                  ++ [WaitClickable l; ScrollIntoView l; Click l]
                  ++ clearing l n ++ typed l s
                  ++ [SendKeys (Element l) ENTER]).
Proof.
  intros B xpath value m l.
  assert (Htrue : forall m',
             V2.type_and_enter xpath value m = (Ok true, m') ->
             exists (s : string) (probe : list request) (n : nat),
               value = Some s
               /\ (probe = [IsDisplayed (ById "mask")]
                   \/ probe = [IsDisplayed (ById "mask");
                               ExecuteScript V2.hide_mask])
               /\ (n = 0 \/ 6 <= n)
               /\ requests m'
                  = requests m ++ probe
                    ++ [WaitClickable l; ScrollIntoView l; Click l]
                    ++ clearing l n ++ typed l s
                    ++ [SendKeys (Element l) ENTER]).
  { intros m' H. unfold V2.type_and_enter in H. apply try_true in H.
    destruct (mask_probe_run m) as (m1 & probe & Ep & _ & Hp & Hprobe).
    rewrite (bind_run _ _ _ _ _ Ep) in H.
    binv H as a2 m2 H2. apply call_ok in H2 as [_ H2].
    binv H as a3 m3 H3. apply call_ok in H3 as [_ H3].
    binv H as a4 m4 H4. apply call_ok in H4 as [_ H4].
    binv H as ok m5 H5. destruct ok; [|discriminate H].
    binv H as a6 m6 H6. apply call_ok in H6 as [_ H6]. injection H as <-.
    destruct (enhanced_true _ _ _ _ H5) as (s & n & -> & Hn & H5').
    exists s, probe, n. split; [reflexivity|]. split; [exact Hprobe|].
    split; [exact Hn|].
    rewrite H6, H5', H4, H3, H2, Hp. fold l.
    now rewrite <- !app_assoc. }
  split; [|exact Htrue].
  destruct (try_false_total
              (try_except
                 (shown <- ask_flag (IsDisplayed (ById "mask")) ;;
                  if shown then call (ExecuteScript V2.hide_mask) ;; pass
                  else pass)
                 any_exception pass ;;
               call (WaitClickable (XPath xpath)) ;;
               call (ScrollIntoView (XPath xpath)) ;;
               call (Click (XPath xpath)) ;;
               typed <- V2.enhanced_text_clear_and_type (XPath xpath) value ;;
               if typed
               then call (SendKeys (Element (XPath xpath)) ENTER) ;; ret true
               else ret false) m) as (b & m' & E).
  change (V2.type_and_enter xpath value m = (Ok b, m')) in E.
  exists b, m'. split; [exact E|]. split.
  - pose proof (keeps_type_and_enter xpath value m) as Hk.
    now rewrite E in Hk.
  - intros ->. destruct b; [|reflexivity].
    destruct (Htrue m' E) as (s & _ & _ & Hs & _). discriminate Hs.
Qed.

Lemma type_and_enter_types_the_value_witness :
  exists (s : string) (probe : list request) (n : nat),
    Some "Waco" = Some s
    /\ (probe = [IsDisplayed (ById "mask")]
        \/ probe = [IsDisplayed (ById "mask"); ExecuteScript V2.hide_mask])
    /\ (n = 0 \/ 6 <= n)
    /\ requests
         (snd (V2.type_and_enter V2.step7_xpath (Some "Waco")
                 (on_lab (faulty_lab []) new_automation)))
       = requests (on_lab (faulty_lab []) new_automation) ++ probe
         ++ [WaitClickable (XPath V2.step7_xpath);
             ScrollIntoView (XPath V2.step7_xpath);
             Click (XPath V2.step7_xpath)]
         ++ clearing (XPath V2.step7_xpath) n
         ++ typed (XPath V2.step7_xpath) s
         ++ [SendKeys (Element (XPath V2.step7_xpath)) ENTER].
Proof.
  apply (proj2 (type_and_enter_types_the_value
                  (lab_browser (faulty_lab [])) V2.step7_xpath (Some "Waco")
                  (on_lab (faulty_lab []) new_automation))).
  vm_compute. reflexivity.
Defined.

(** ** The batch and [main] *)

Section FieldFrames.
Context {B : Browser} {X : Type} (f : automation -> X).

Lemma keeps_of_self {A} (c : M A) : keeps_self c -> keeps f c.
Proof. intros H m. now rewrite H. Qed.

Lemma keeps_field_bind {A C} (c : M A) (k : A -> M C) :
  keeps f c -> (forall a, keeps f (k a)) -> keeps f (bind c k).
Proof.
  intros Hc Hk m. unfold bind. specialize (Hc m).
  destruct (c m) as [[a|e] m1]; cbn [snd] in *; [|exact Hc].
  now rewrite Hk.
Qed.

Lemma keeps_field_try {A} (c h : M A) (handles : exn -> bool) :
  keeps f c -> keeps f h -> keeps f (try_except c handles h).
Proof.
  intros Hc Hh m. unfold try_except. specialize (Hc m).
  destruct (c m) as [[a|e] m1]; cbn [snd] in *; [exact Hc|].
  destruct (handles e); [now rewrite Hh | exact Hc].
Qed.

Lemma keeps_field_modify (g : automation -> automation) :
  (forall a, f (g a) = f a) -> keeps f (modify_self g).
Proof. intros H m. apply H. Qed.

End FieldFrames.

(** Decompose a goal [keeps f c] along the structure of [c]. *)
Ltac field_frame :=
  repeat (intros;
          first [ assumption
                | solve [auto 1]
                | apply keeps_of_self; solve [auto 1 | frame]
                | apply keeps_field_modify; solve [reflexivity | intros []; reflexivity]
                | apply keeps_field_bind | apply keeps_field_try
                | match goal with
                  | |- keeps _ (match ?x with _ => _ end) => destruct x
                  | |- keeps _ (if ?x then _ else _) => destruct x
                  end ]).

Section DriverFrame.
Context {B : Browser}.

Lemma keeps_save_to_csv (data_list : list result_row) :
  keeps_self (V2.save_to_csv data_list).
Proof. unfold V2.save_to_csv, pass. pose proof keeps_ask_flag. frame. Qed.

Lemma keeps_type_revenue (v : V2.variant) : keeps_self (V2.type_revenue v).
Proof.
  unfold V2.type_revenue. pose proof keeps_type_and_enter. frame.
Qed.

Lemma keeps_driver_run_complete : keeps driver V2.run_complete_automation.
Proof.
  unfold V2.run_complete_automation, V2.append_data, V2.type_location,
    V2.type_industry, pass.
  pose proof keeps_wait_and_click. pose proof keeps_dropdown.
  pose proof keeps_type_eri_code. pose proof keeps_click_confirmation.
  pose proof keeps_type_and_enter. pose proof keeps_type_revenue.
  pose proof keeps_extract.
  field_frame.
Qed.

Lemma keeps_driver_run_subsequent (row : input_row) :
  keeps driver (V2.run_subsequent_automation row).
Proof.
  unfold V2.run_subsequent_automation, V2.append_data, V2.type_location,
    V2.type_industry, pass.
  pose proof keeps_wait_and_click. pose proof keeps_dropdown.
  pose proof keeps_type_eri_code. pose proof keeps_click_confirmation.
  pose proof keeps_type_and_enter. pose proof keeps_type_revenue.
  pose proof keeps_extract.
  field_frame.
Qed.

Lemma keeps_driver_subsequent_rows (rows : list input_row) :
  keeps driver (V2.subsequent_rows rows).
Proof.
  induction rows as [|row rest IH]; cbn [V2.subsequent_rows]; unfold pass.
  - field_frame.
  - pose proof (keeps_driver_run_subsequent row). field_frame.
Qed.

Lemma keeps_driver_run_rows (rows : list input_row) :
  keeps driver (V2.run_rows rows).
Proof.
  unfold V2.run_rows, pass.
  pose proof keeps_driver_run_complete. pose proof keeps_driver_subsequent_rows.
  pose proof keeps_save_to_csv.
  field_frame.
Qed.

End DriverFrame.

Section LoginFrame.
Context {B : Browser}.

Lemma keeps_ask_cookies (r : request) : keeps_self (ask_cookies r).
Proof. unfold ask_cookies. frame. Qed.

Lemma keeps_is_on_login_page : keeps_self Login._is_on_login_page.
Proof.
  unfold Login._is_on_login_page. pose proof keeps_ask_text.
  pose proof keeps_ask_flag. frame.
Qed.

Lemma keeps_is_logged_in : keeps_self Login._is_logged_in.
Proof.
  unfold Login._is_logged_in. pose proof keeps_is_on_login_page.
  pose proof keeps_ask_text. pose proof keeps_ask_flag. frame.
Qed.

Lemma keeps_add_cookies_loop (cookies : list cookie) (netloc : string) :
  forall added, keeps_self (Login.add_cookies_loop cookies netloc added).
Proof.
  induction cookies as [|raw rest IH]; intros added;
    cbn [Login.add_cookies_loop]; frame.
Qed.

Lemma keeps_load_cookies_safely (path : string) :
  keeps_self (Login._load_cookies_safely path).
Proof.
  unfold Login._load_cookies_safely, Login._add_cookies_for_host.
  pose proof keeps_ask_flag. pose proof keeps_ask_cookies.
  pose proof keeps_add_cookies_loop. frame.
Qed.

Lemma keeps_save_fresh_cookies (path : string) :
  keeps_self (Login._save_fresh_cookies path).
Proof.
  unfold Login._save_fresh_cookies, pass. pose proof keeps_ask_cookies. frame.
Qed.

Lemma keeps_find_first_displayed (selectors : list string) :
  keeps_self (Login.find_first_displayed selectors).
Proof.
  induction selectors as [|sel rest IH]; cbn [Login.find_first_displayed];
    pose proof keeps_ask_flag; frame.
Qed.

Lemma keeps_poll_logged_in (n : nat) : keeps_self (Login.poll_logged_in n).
Proof.
  induction n as [|n IH]; cbn [Login.poll_logged_in];
    pose proof keeps_is_logged_in; frame.
Qed.

Lemma keeps_wait_ready_or_pass (t : nat) :
  keeps_self (Login.wait_ready_or_pass t).
Proof. unfold Login.wait_ready_or_pass, Login._wait_ready, pass. frame. Qed.

Lemma keeps_attempt_auto_login : keeps_self Login._attempt_auto_login.
Proof.
  unfold Login._attempt_auto_login, Login._read_creds, pass.
  pose proof keeps_wait_ready_or_pass. pose proof keeps_find_first_displayed.
  pose proof keeps_poll_logged_in. frame.
Qed.

Lemma keeps_login_with_selenium (cookies_file : string) :
  keeps_self (Login.login_with_selenium cookies_file).
Proof.
  unfold Login.login_with_selenium, Login._build_driver, pass.
  pose proof keeps_wait_ready_or_pass. pose proof keeps_is_logged_in.
  pose proof keeps_load_cookies_safely. pose proof keeps_save_fresh_cookies.
  pose proof keeps_attempt_auto_login. frame.
Qed.

End LoginFrame.

(** X19.  [run_multi_automation] starts nothing for an input without rows:
    when the file cannot be read, or has no row, the run returns after
    the reading, having started no browser and asked nothing of the
    operator. *)
Theorem batch_without_rows_starts_nothing :
  forall (B : Browser) (csv_file_path : string) (m : machine),
    match answer (ReadCsv csv_file_path) m with
    | Rows (_ :: _) => False
    | _ => True
    end ->
    V2.run_multi_automation csv_file_path m
    = (Ok tt, answered (ReadCsv csv_file_path) m).
Proof.
  intros B p m H. unfold V2.run_multi_automation, V2.read_csv_input.
  unfold bind at 1, try_except, bind at 1. rewrite call_run.
  unfold raised. destruct (answer (ReadCsv p) m) as [| | | | |[|row rows]|];
    try reflexivity. contradiction.
Qed.

Lemma batch_without_rows_starts_nothing_witness :
  V2.run_multi_automation "input_data.csv"
    (on_lab (faulty_lab [0]) new_automation)
  = (Ok tt,
     @Build_machine (lab_browser (faulty_lab [0])) new_automation 1
       [ReadCsv "input_data.csv"]).
Proof.
  exact (batch_without_rows_starts_nothing (lab_browser (faulty_lab [0]))
           "input_data.csv" (on_lab (faulty_lab [0]) new_automation) I).
Defined.

(** X20.  [main], on an input with rows: whatever happens while the session
    is acquired and the rows are run, the operator is asked for a key at
    the end, and the browser is closed after that when, and only when,
    the acquisition of the session had returned. *)
Theorem main_waits_then_quits :
  forall (B : Browser) (m : machine) (row : input_row)
         (rows : list input_row),
    let start :=
      answered (ReadCsv "input_data.csv")
        {| self := new_automation; page := page m; requests := requests m |} in
    answer (ReadCsv "input_data.csv") m = Rows (row :: rows) ->
    exists (res : result unit) (m' : machine) (pre : list request),
      V2.main m = (res, m')
      /\ (requests m' = pre ++ [WaitForEnter]
          \/ requests m' = pre ++ [WaitForEnter; Quit])
      /\ ((forall e, fst (Login.login_with_selenium "cookies.json" start)
                     = Raised e -> requests m' = pre ++ [WaitForEnter]))
      /\ (res = Ok tt ->
          (exists ok, fst (Login.login_with_selenium "cookies.json" start)
                      = Ok ok) ->
          requests m' = pre ++ [WaitForEnter; Quit]).
Proof.
  intros B m row rows start Hrows.
  unfold V2.main.
  rewrite (bind_run (modify_self (fun _ => new_automation)) _ m
             {| self := new_automation; page := page m;
                requests := requests m |} (Ok tt) eq_refl).
  unfold V2.run_multi_automation.
  assert (Hread : V2.read_csv_input "input_data.csv"
                    {| self := new_automation; page := page m;
                       requests := requests m |}
                  = (Ok (row :: rows), start)).
  { unfold V2.read_csv_input, try_except, bind, ret. rewrite call_run.
    change (answer (ReadCsv "input_data.csv")
              {| self := new_automation; page := page m;
                 requests := requests m |})
      with (answer (ReadCsv "input_data.csv") m).
    rewrite Hrows. reflexivity. }
  rewrite (bind_run _ _ _ _ _ Hread).
  assert (Hbody : exists m1,
             try_except
               (Login.login_with_selenium "cookies.json" ;;
                modify_self (set_driver true) ;; V2.run_rows (row :: rows))
               any_exception pass start = (Ok tt, m1)
             /\ driver (self m1)
                = match fst (Login.login_with_selenium "cookies.json" start) with
                  | Ok _ => true
                  | Raised _ => false
                  end).
  { unfold try_except, bind at 1.
    pose proof (keeps_login_with_selenium "cookies.json" start) as Hl.
    destruct (Login.login_with_selenium "cookies.json" start) as [[ok|e] ml];
      cbn [snd fst] in *.
    - unfold bind at 1, modify_self.
      match goal with
      | |- context [V2.run_rows ?rs ?x] =>
          pose proof (keeps_driver_run_rows rs x) as Hr;
          destruct (V2.run_rows rs x) as [[[]|e] m3]
      end; cbn [snd self set_driver driver] in Hr;
        eexists; (split; [reflexivity | exact Hr]).
    - eexists. split; [reflexivity|]. rewrite Hl. reflexivity. }
  destruct Hbody as (m1 & Hb & Hd).
  rewrite (bind_run _ _ _ _ _ Hb).
  unfold bind at 1. rewrite call_run.
  destruct (raised (answer WaitForEnter m1)) as [e|].
  - exists (Raised e), (answered WaitForEnter m1), (requests m1).
    split; [reflexivity|]. split; [now left|].
    split; [reflexivity | discriminate].
  - unfold bind at 1, get_self. cbn [answered self]. rewrite Hd.
    destruct (fst (Login.login_with_selenium "cookies.json" start)) as [ok|e].
    + unfold bind, pass, ret. rewrite call_run.
      destruct (raised (answer Quit (answered WaitForEnter m1)));
        (eexists _, _, (requests m1); split; [reflexivity|];
         cbn [answered requests]; rewrite <- app_assoc;
         split; [now right|]; split; [discriminate | reflexivity]).
    + eexists _, _, (requests m1). split; [reflexivity|].
      split; [now left|]. split; [reflexivity|].
      intros _ [ok Hok]. discriminate Hok.
Qed.

Lemma main_waits_then_quits_witness :
  let B := lab_with (faulty_lab []) (input_file three_rows) in
  let m := on_lab_with (faulty_lab []) (input_file three_rows) new_automation in
  let start := answered (ReadCsv "input_data.csv") m in
  exists (res : result unit) (m' : machine (B := B)) (pre : list request),
    V2.main m = (res, m')
    /\ (requests m' = pre ++ [WaitForEnter]
        \/ requests m' = pre ++ [WaitForEnter; Quit])
    /\ (forall e, fst (Login.login_with_selenium "cookies.json" start)
                  = Raised e -> requests m' = pre ++ [WaitForEnter])
    /\ (res = Ok tt ->
        (exists ok, fst (Login.login_with_selenium "cookies.json" start)
                    = Ok ok) ->
        requests m' = pre ++ [WaitForEnter; Quit]).
Proof.
  exact (main_waits_then_quits
           (lab_with (faulty_lab []) (input_file three_rows))
           (on_lab_with (faulty_lab []) (input_file three_rows) new_automation)
           dallas_row [austin_row; houston_row] eq_refl).
Defined.

Section PageOnly.
Context {B : Browser}.

Abbreviation page_only := (issues (fun r => on_page r = true)).

Lemma page_only_press_down (n : nat) : page_only (V2.press_down n).
Proof. induction n; cbn [V2.press_down]; unfold pass; only_issues. Qed.

Lemma page_only_press_backspace (l : locator) (n : nat) :
  page_only (V2.press_backspace l n).
Proof. induction n; cbn [V2.press_backspace]; unfold pass; only_issues. Qed.

Lemma page_only_type_chars (l : locator) (text : string) :
  page_only (V2.type_chars l text).
Proof. induction text; cbn [V2.type_chars]; unfold pass; only_issues. Qed.

Lemma page_only_wait_and_click (xpath : string) :
  page_only (V2.wait_and_click xpath).
Proof. unfold V2.wait_and_click. only_issues. Qed.

Lemma page_only_dropdown : page_only V2.dropdown_keyboard_selection.
Proof.
  unfold V2.dropdown_keyboard_selection. pose proof page_only_press_down.
  only_issues.
Qed.

Lemma page_only_type_and_enter (xpath : string) (value : option string) :
  page_only (V2.type_and_enter xpath value).
Proof.
  unfold V2.type_and_enter, V2.enhanced_text_clear_and_type, V2.type_text, pass.
  pose proof page_only_press_backspace. pose proof page_only_type_chars.
  only_issues.
Qed.

Lemma page_only_type_eri_code : page_only V2.type_eri_code.
Proof. unfold V2.type_eri_code. only_issues. Qed.

Lemma page_only_click_confirmation (v : V2.variant) :
  page_only (V2.click_confirmation v).
Proof. unfold V2.click_confirmation, pass. only_issues. Qed.

Lemma page_only_type_revenue (v : V2.variant) : page_only (V2.type_revenue v).
Proof.
  unfold V2.type_revenue. pose proof page_only_type_and_enter. only_issues.
Qed.

Lemma page_only_check_row (row_num : nat) (target : string)
    (dt : option string) : page_only (V2.check_row row_num target dt).
Proof. unfold V2.check_row. only_issues. Qed.

Lemma page_only_scan_rows (row_nums : list nat) (target : string)
    (dt : option string) (v : string) :
  page_only (V2.scan_rows row_nums target dt v).
Proof.
  induction row_nums; cbn [V2.scan_rows]; pose proof page_only_check_row;
    only_issues.
Qed.

Lemma page_only_extract : page_only V2.extract_years_experience_data.
Proof.
  unfold V2.extract_years_experience_data. pose proof page_only_scan_rows.
  only_issues.
Qed.

Lemma page_only_run_complete : page_only V2.run_complete_automation.
Proof.
  unfold V2.run_complete_automation, V2.append_data, V2.type_location,
    V2.type_industry, pass.
  pose proof page_only_wait_and_click. pose proof page_only_dropdown.
  pose proof page_only_type_eri_code. pose proof page_only_click_confirmation.
  pose proof page_only_type_and_enter. pose proof page_only_type_revenue.
  pose proof page_only_extract.
  only_issues.
Qed.

Lemma page_only_run_subsequent (row : input_row) :
  page_only (V2.run_subsequent_automation row).
Proof.
  unfold V2.run_subsequent_automation, V2.append_data, V2.type_location,
    V2.type_industry, pass.
  pose proof page_only_wait_and_click. pose proof page_only_dropdown.
  pose proof page_only_type_eri_code. pose proof page_only_click_confirmation.
  pose proof page_only_type_and_enter. pose proof page_only_type_revenue.
  pose proof page_only_extract.
  only_issues.
Qed.

Lemma page_only_subsequent_rows (rows : list input_row) :
  page_only (V2.subsequent_rows rows).
Proof.
  induction rows; cbn [V2.subsequent_rows]; unfold pass;
    pose proof page_only_run_subsequent; only_issues.
Qed.

End PageOnly.

Section SaveOnce.
Context {B : Browser}.

Lemma save_to_csv_run (data_list : list result_row) (m : machine) :
  data_list <> [] ->
  exists m' tail,
    V2.save_to_csv data_list m = (Ok tt, m')
    /\ self m' = self m
    /\ requests m' = requests m ++ tail
    /\ (tail = [CsvFileExists]
        \/ exists header, tail = [CsvFileExists; AppendCsv header data_list]).
Proof.
  intros Hne. destruct data_list as [|d ds]; [congruence|].
  unfold V2.save_to_csv, try_except, ask_flag, bind, pass, ret.
  rewrite call_run.
  destruct (raised (answer CsvFileExists m)).
  - eexists _, _. split; [reflexivity|]. split; [reflexivity|].
    split; [reflexivity | now left].
  - rewrite call_run.
    destruct (raised (answer (AppendCsv _ _) _));
      (eexists _, _; split; [reflexivity|]; split; [reflexivity|];
       split; [cbn [answered requests]; rewrite <- app_assoc; reflexivity
              | right; eauto]).
Qed.

End SaveOnce.

(** X21.  The batch of [run_multi_automation] acts on the page only: it
    neither navigates, nor touches the session, nor ends the browser
    between two records.  It writes the file of results once at most,
    as its last request, and what it writes then are all the rows
    extracted, in [all_data]. *)
Theorem batch_writes_once_at_the_end :
  forall (B : Browser) (rows : list input_row) (m : machine),
    exists (res : result unit) (m' : machine) (rs tail : list request),
      V2.run_rows rows m = (res, m')
      /\ requests m' = requests m ++ rs ++ tail
      /\ Forall (fun r => on_page r = true) rs
      /\ (tail = [] \/ tail = [CsvFileExists]
          \/ exists header,
               tail = [CsvFileExists; AppendCsv header (all_data (self m'))]
               /\ all_data (self m') <> []).
Proof.
  intros B rows m. destruct rows as [|first rest].
  - exists (Raised OtherError), m, [], []. cbn. rewrite app_nil_r.
    repeat split; [constructor | now left].
  - unfold V2.run_rows. unfold bind at 1, modify_self. unfold bind at 1.
    set (m1 := {| self := V2.load_row first (self m); page := page m;
                  requests := requests m |}).
    destruct (page_only_run_complete m1) as (rs1 & Hr1 & HP1).
    destruct (V2.run_complete_automation m1) as [[[]|e] m2]; cbn [snd] in Hr1.
    + unfold bind at 1.
      destruct (page_only_subsequent_rows rest m2) as (rs2 & Hr2 & HP2).
      destruct (V2.subsequent_rows rest m2) as [[[]|e] m3]; cbn [snd] in Hr2.
      * unfold bind at 1, get_self.
        destruct (all_data (self m3)) as [|d ds] eqn:Ed.
        -- exists (Ok tt), m3, (rs1 ++ rs2), [].
           split; [reflexivity|]. rewrite Hr2, Hr1. cbn [m1 requests].
           rewrite app_nil_r, app_assoc. split; [reflexivity|].
           split; [now apply Forall_app | now left].
        -- destruct (save_to_csv_run (d :: ds) m3 ltac:(discriminate))
             as (m4 & tail & E & Hs & Hr & Ht).
           exists (Ok tt), m4, (rs1 ++ rs2), tail. split; [exact E|].
           rewrite Hr, Hr2, Hr1. cbn [m1 requests].
           rewrite <- !app_assoc. split; [reflexivity|].
           split; [now apply Forall_app|].
           right. destruct Ht as [->|[header ->]]; [now left|].
           right. exists header. rewrite Hs, Ed. split; [reflexivity|discriminate].
      * exists (Raised e), m3, (rs1 ++ rs2), [].
        split; [reflexivity|]. rewrite Hr2, Hr1. cbn [m1 requests].
        rewrite app_nil_r, app_assoc. split; [reflexivity|].
        split; [now apply Forall_app | now left].
    + exists (Ok tt), m2, rs1, []. split; [reflexivity|].
      rewrite Hr1. cbn [m1 requests]. rewrite app_nil_r.
      split; [reflexivity|]. split; [exact HP1 | now left].
    + exists (Raised e), m2, rs1, []. split; [reflexivity|].
      rewrite Hr1. cbn [m1 requests]. rewrite app_nil_r.
      split; [reflexivity|]. split; [exact HP1 | now left].
Qed.

(** X22.  A first record whose revenue [int] does not read ends the
    batch: no later record is run, no row is extracted and nothing is
    written, whatever the browser does.  The rows of [read_csv_input]
    keep their commas, so that a revenue written [565,000,000] in the
    first line of the file has this effect. *)
Theorem first_revenue_ends_batch :
  forall (B : Browser) (first : input_row) (rest : list input_row)
         (m : machine),
    Py.int (row_revenue first) = None ->
    exists (m' : machine) (rs : list request),
      V2.run_rows (first :: rest) m = (Ok tt, m')
      /\ self m' = V2.load_row first (self m)
      /\ all_data (self m') = all_data (self m)
      /\ requests m' = requests m ++ rs
      /\ Forall (fun r => on_page r = true) rs.
Proof.
  intros B first rest m H. unfold V2.run_rows.
  unfold bind at 1, modify_self.
  set (m1 := {| self := V2.load_row first (self m); page := page m;
                requests := requests m |}).
  destruct (run_complete_fails m1) as (m' & E & Hs); [cbn; exact H|].
  destruct (page_only_run_complete m1) as (rs & Hr & HP).
  rewrite E in Hr. cbn [snd] in Hr.
  exists m', rs. unfold bind at 1. rewrite E. unfold pass, ret.
  split; [reflexivity|]. split; [exact Hs|].
  split; [rewrite Hs; reflexivity|]. split; [exact Hr | exact HP].
Qed.

Lemma first_revenue_ends_batch_witness :
  let first := {| row_eri_code := "4006"; row_location := "Dallas, Texas";
                  row_revenue := "565,000,000";
                  row_industry := "All Industries - Diversified";
                  row_years_experience := Some "11";
                  row_data_type := "75th Percentile" |} in
  V2.read_rows
    [csv_of "4006" "Dallas, Texas" " 565,000,000 "
       "All Industries - Diversified" "11" "75th Percentile"] []
  = [first]
  /\ exists m' rs,
       V2.run_rows [first; austin_row; houston_row]
         (on_lab (faulty_lab []) new_automation) = (Ok tt, m')
       /\ self m' = V2.load_row first new_automation
       /\ all_data (self m') = []
       /\ requests m' = rs
       /\ Forall (fun r => on_page r = true) rs.
Proof.
  split; [vm_compute; reflexivity|].
  exact (first_revenue_ends_batch (lab_browser (faulty_lab []))
           {| row_eri_code := "4006"; row_location := "Dallas, Texas";
              row_revenue := "565,000,000";
              row_industry := "All Industries - Diversified";
              row_years_experience := Some "11";
              row_data_type := "75th Percentile" |}
           [austin_row; houston_row]
           (on_lab (faulty_lab []) new_automation) eq_refl).
Defined.

(** ** More on the session *)

Lemma sanitize_same_site (c : cookie) :
  Login._sanitize_cookie c !! "sameSite" = None
  /\ Login._sanitize_cookie c !! "hostOnly" = None.
Proof.
  unfold Login._sanitize_cookie.
  destruct (c !! "expiry") as [[]|];
    repeat match goal with
           | |- context [match ?m !! ?k with Some _ => _ | None => _ end] =>
               destruct (m !! k) eqn:?
           end;
    split; simplify_map_eq; reflexivity.
Qed.

Lemma sanitize_flags (c : cookie) (k : string) (v : json) :
  k = "httpOnly" \/ k = "secure" ->
  Login._sanitize_cookie c !! k = Some v -> exists b, v = JBool b.
Proof.
  unfold Login._sanitize_cookie. intros Hk.
  destruct (c !! "expiry") as [[]|];
    repeat match goal with
           | |- context [match ?m !! ?k with Some _ => _ | None => _ end] =>
               destruct (m !! k) eqn:?
           end;
    destruct Hk as [-> | ->]; intros H; simplify_map_eq; eauto.
Qed.

Lemma sanitize_idem (c : cookie) :
  Login._sanitize_cookie (Login._sanitize_cookie c) = Login._sanitize_cookie c.
Proof.
  set (s := Login._sanitize_cookie c).
  pose proof (sanitize_expiry c) as He. fold s in He.
  destruct (sanitize_same_site c) as [Hs Hh]. fold s in Hs, Hh.
  pose proof (sanitize_flags c "httpOnly") as Hf1. fold s in Hf1.
  pose proof (sanitize_flags c "secure") as Hf2. fold s in Hf2.
  unfold Login._sanitize_cookie at 1.
  assert (E1 : match s !! "expiry" with
               | None | Some JNull | Some (JStr _) => delete "expiry" s
               | Some _ => s
               end = s).
  { destruct (s !! "expiry") as [v|] eqn:E; [|now apply delete_id].
    destruct (c !! "expiry") as [[]|]; cbn in He; try discriminate;
      injection He as ->; reflexivity. }
  rewrite E1. rewrite (delete_id s "sameSite" Hs), (delete_id s "hostOnly" Hh).
  assert (E2 : match s !! "httpOnly" with
               | Some v => <["httpOnly" := JBool (json_truth v)]> s
               | None => s
               end = s).
  { destruct (s !! "httpOnly") as [v|] eqn:E; [|reflexivity].
    destruct (Hf1 v (or_introl eq_refl) eq_refl) as [b ->].
    now apply insert_id. }
  rewrite E2.
  destruct (s !! "secure") as [v|] eqn:E; [|reflexivity].
  destruct (Hf2 v (or_intror eq_refl) eq_refl) as [b ->].
  now apply insert_id.
Qed.

Lemma sanitize_dom (c : cookie) (k : string) :
  is_Some (Login._sanitize_cookie c !! k) -> is_Some (c !! k).
Proof.
  unfold Login._sanitize_cookie.
  destruct (c !! "expiry") as [[]|] eqn:Ee;
    repeat match goal with
           | |- context [match ?m !! ?k with Some _ => _ | None => _ end] =>
               destruct (m !! k) eqn:?
           end;
    intros [v Hv];
    repeat match goal with
           | H : <[?i := _]> _ !! k = Some _ |- _ =>
               destruct (decide (i = k)) as [<-|];
               [ simplify_map_eq; eauto
               | rewrite lookup_insert_ne in H by assumption ]
           | H : delete ?i _ !! k = Some _ |- _ =>
               apply lookup_delete_Some in H as [_ H]
           end; eauto.
Qed.

(** X23.  [_sanitize_cookie] puts a cookie in a form that sanitizing again
    leaves alone: no [sameSite], no [hostOnly], an [expiry] that is
    neither a string nor null, [httpOnly] and [secure] booleans when
    present; it adds no key. *)
Theorem sanitize_cookie_normal_form (c : cookie) :
  let s := Login._sanitize_cookie c in
  Login._sanitize_cookie s = s
  /\ s !! "sameSite" = None /\ s !! "hostOnly" = None
  /\ (forall v, s !! "expiry" = Some v ->
        v <> JNull /\ forall t, v <> JStr t)
  /\ (forall v, s !! "httpOnly" = Some v -> exists b, v = JBool b)
  /\ (forall v, s !! "secure" = Some v -> exists b, v = JBool b)
  /\ (forall k, is_Some (s !! k) -> is_Some (c !! k)).
Proof.
  cbn zeta. split; [apply sanitize_idem|].
  split; [apply sanitize_same_site|]. split; [apply sanitize_same_site|].
  split; [|split; [|split]].
  - intros v. rewrite sanitize_expiry.
    destruct (c !! "expiry") as [[]|]; cbn; intros [= <-]; split;
      try discriminate; intros t; discriminate.
  - intros v. apply sanitize_flags. now left.
  - intros v. apply sanitize_flags. now right.
  - apply sanitize_dom.
Qed.

Lemma endswith_iff (s suffix : string) :
  Py.endswith s suffix = true <-> exists p, s = p +:+ suffix.
Proof.
  split.
  - induction s as [|c s IH]; cbn [Py.endswith]; intros H.
    + rewrite orb_false_r in H. apply String.eqb_eq in H. exists EmptyString.
      now subst.
    + apply orb_prop in H as [H|H].
      * apply String.eqb_eq in H. exists EmptyString. now subst.
      * destruct (IH H) as [p ->]. now exists (String c p).
  - intros [p ->]. induction p as [|c p IH].
    + cbn [String.append]. destruct suffix; cbn [Py.endswith];
        rewrite String.eqb_refl; reflexivity.
    + change (String c p +:+ suffix) with (String c (p +:+ suffix)).
      cbn [Py.endswith]. rewrite IH. apply orb_true_r.
Qed.

(** X24.  The domain test of [_add_cookies_for_host] holds exactly when the
    domain is not empty and the host name ends with it: the end of the
    host name need not start at a label, and a domain longer than the
    host name never passes. *)
Theorem domain_test_is_a_suffix_test (netloc domain : string) :
  (Login.domain_matches netloc domain = true
   <-> domain <> EmptyString /\ exists p, netloc = p +:+ domain)
  /\ (String.length netloc < String.length domain ->
      Login.domain_matches netloc domain = false).
Proof.
  assert (Hiff : Login.domain_matches netloc domain = true
                 <-> domain <> EmptyString /\ exists p, netloc = p +:+ domain).
  { unfold Login.domain_matches. split.
    - intros H. apply andb_prop in H as [Ht H]. split; [now apply truthy_nonempty|].
      apply orb_prop in H as [H|H].
      + apply String.eqb_eq in H. exists EmptyString. now subst.
      + now apply endswith_iff.
    - intros [Hne Hp]. apply andb_true_intro. split; [now destruct domain|].
      apply orb_true_intro. right. now apply endswith_iff. }
  split; [exact Hiff|].
  intros Hlen. apply not_true_is_false. intros E.
  apply Hiff in E as [_ [p ->]].
  assert (Hl : forall a b, String.length (a +:+ b) = String.length a + String.length b).
  { intros a b. induction a as [|x a IH]; cbn; [reflexivity | now rewrite IH]. }
  rewrite Hl in Hlen. lia.
Qed.

Lemma startswith_contains (b s a : string) :
  Py.startswith s (a +:+ b) = true -> Py.contains b s = true.
Proof.
  revert s. induction a as [|x a IH]; intros s H.
  - cbn [String.append] in H. destruct s; cbn [Py.contains]; now rewrite H.
  - change (String x a +:+ b) with (String x (a +:+ b)) in H.
    destruct s as [|c s]; [discriminate|]. cbn [Py.startswith] in H.
    apply andb_prop in H as [_ H]. cbn [Py.contains].
    rewrite (IH s H). apply orb_true_r.
Qed.

Lemma contains_suffix (a b s : string) :
  Py.contains (a +:+ b) s = true -> Py.contains b s = true.
Proof.
  induction s as [|c s IH]; intros H.
  - cbn [Py.contains] in H. rewrite orb_false_r in H.
    now apply (startswith_contains b EmptyString a).
  - cbn [Py.contains] in H. apply orb_prop in H as [H|H].
    + now apply (startswith_contains b _ a).
    + cbn [Py.contains]. rewrite (IH H). apply orb_true_r.
Qed.

(** X25.  On a browser whose address does not change between two readings,
    [_is_logged_in] answers the opposite of [_is_on_login_page]: the
    search for a logout link decides nothing, and every page that is
    not recognised as the login page counts as a session. *)
Theorem logged_in_means_not_on_login_page :
  forall (B : Browser) (u : string) (m : machine),
    (forall w, fst (respond CurrentUrl w) = Text u) ->
    exists (on_login : bool) (m1 m2 : machine),
      Login._is_on_login_page m = (Ok on_login, m1)
      /\ Login._is_logged_in m = (Ok (negb on_login), m2).
Proof.
  intros B u m Hu.
  assert (Hurl : forall x, ask_text CurrentUrl x = (Ok u, answered CurrentUrl x)).
  { intros x. unfold ask_text, bind, ret. rewrite call_run.
    unfold answer. now rewrite Hu. }
  assert (Hon : exists on_login m1,
             Login._is_on_login_page m = (Ok on_login, m1)
             /\ (on_login = false -> Py.contains "login" (Py.lower u) = false)).
  { unfold Login._is_on_login_page. rewrite (bind_run _ _ _ _ _ (Hurl m)).
    destruct (Py.contains "login" (Py.lower u)) eqn:E1; cbn [orb].
    - eexists _, _. split; [reflexivity | discriminate].
    - destruct (Py.contains "signin" (Py.lower u)).
      + eexists _, _. split; [reflexivity | discriminate].
      + unfold try_except.
        destruct (ask_flag _ _) as [[[]|e] m1];
          eexists _, _; (split; [reflexivity | auto; discriminate]). }
  destruct Hon as (on_login & m1 & E & Hno).
  exists on_login, m1. unfold Login._is_logged_in.
  rewrite (bind_run _ _ _ _ _ E).
  destruct on_login; [eexists; split; [exact E | reflexivity]|].
  specialize (Hno eq_refl).
  assert (Hacc : Py.contains "account/login" (Py.lower u) = false).
  { apply not_true_is_false. intros H.
    apply (contains_suffix "account/" "login") in H. congruence. }
  unfold bind at 1, try_except.
  destruct (ask_flag _ m1) as [[[]|e] m2].
  - eexists. split; [exact E | reflexivity].
  - rewrite (bind_run _ _ _ _ _ (Hurl m2)). rewrite Hacc.
    eexists. split; [exact E | reflexivity].
  - cbn [any_exception ret]. rewrite (bind_run _ _ _ _ _ (Hurl m2)).
    rewrite Hacc. eexists. split; [exact E | reflexivity].
Qed.

Lemma logged_in_means_not_on_login_page_witness :
  exists (on_login : bool) m1 m2,
    Login._is_on_login_page
      (on_table example_table None new_automation []) = (Ok on_login, m1)
    /\ Login._is_logged_in
         (on_table example_table None new_automation [])
       = (Ok (negb on_login), m2).
Proof.
  apply (logged_in_means_not_on_login_page
           (table_browser example_table None) Login.HOME_URL).
  intros w. reflexivity.
Defined.

Section Snapshot.
Context {B : Browser}.

Lemma add_cookies_for_host_ok (cookies : list cookie) (host : string)
    (m m' : machine) (n : nat) :
  Login._add_cookies_for_host cookies host m = (Ok n, m') ->
  requests m' = requests m ++ Get host :: map AddCookie (admitted host cookies)
  /\ n <= length (admitted host cookies).
Proof.
  unfold Login._add_cookies_for_host. intros H. binv H as a m1 Hc.
  apply call_ok in Hc as [_ Hc].
  destruct (add_cookies_loop_requests cookies (Login.host_netloc host) 0 m1)
    as [_ Hl].
  rewrite H in Hl. destruct (Hl n eq_refl) as [Hr Hn]. cbn [snd] in Hr.
  unfold admitted. rewrite Hr, Hc, <- app_assoc. split; [reflexivity | exact Hn].
Qed.

End Snapshot.


(** X26.  [_load_cookies_safely] answers [True] only after it has deleted the
    cookies of the browser and handed over, for the two hosts in turn,
    every cookie of the file that passes the domain test, at least one
    of them in all.  Without a file it answers [False] and touches
    nothing. *)
Theorem cookie_load_answers_true_after_adding :
  forall (B : Browser) (cookies_path : string) (m : machine),
    (answer (CookieFileExists cookies_path) m = Flag false ->
     Login._load_cookies_safely cookies_path m
     = (Ok false, answered (CookieFileExists cookies_path) m))
    /\ (forall m',
           Login._load_cookies_safely cookies_path m = (Ok true, m') ->
           let cookies := snapshot cookies_path m in
           requests m'
           = requests m
             ++ [CookieFileExists cookies_path; ReadCookieFile cookies_path;
                 DeleteAllCookies]
             ++ Get Login.HOME_URL
                :: map AddCookie (admitted Login.HOME_URL cookies)
             ++ Get "https://erieri.com/"
                :: map AddCookie (admitted "https://erieri.com/" cookies)
             ++ [Get Login.HOME_URL]
           /\ (admitted Login.HOME_URL cookies <> []
               \/ admitted "https://erieri.com/" cookies <> [])).
Proof.
  intros B p m. split.
  - intros Hf. unfold Login._load_cookies_safely, ask_flag.
    unfold bind at 1 2, ret. rewrite call_run, Hf. reflexivity.
  - intros m' H. unfold snapshot. cbn zeta.
    unfold Login._load_cookies_safely in H.
    unfold bind at 1 in H.
    assert (Hflag : exists there,
               ask_flag (CookieFileExists p) m
               = (match raised (answer (CookieFileExists p) m) with
                  | Some e => Raised e
                  | None => Ok there
                  end, answered (CookieFileExists p) m)).
    { exists (match answer (CookieFileExists p) m with
              | Flag b => b
              | _ => false
              end).
      unfold ask_flag, bind, ret. rewrite call_run.
      destruct (raised (answer (CookieFileExists p) m)); reflexivity. }
    destruct Hflag as [there Hflag]. rewrite Hflag in H.
    destruct (raised (answer (CookieFileExists p) m)); [discriminate|].
    destruct there; cbn [negb] in H; [|discriminate].
    apply try_true in H.
    unfold bind at 1, ask_cookies, bind at 1, ret in H.
    rewrite call_run in H.
    destruct (raised (answer (ReadCookieFile p)
                        (answered (CookieFileExists p) m))); [discriminate|].
    binv H as a1 m1 H1. apply call_ok in H1 as [_ H1].
    binv H as a m2 H2. apply add_cookies_for_host_ok in H2 as [H2 Ha].
    binv H as b m3 H3. apply add_cookies_for_host_ok in H3 as [H3 Hb].
    binv H as a4 m4 H4. apply call_ok in H4 as [_ H4].
    injection H as Hab <-. apply Nat.ltb_lt in Hab.
    set (cookies := match answer (ReadCookieFile p)
                            (answered (CookieFileExists p) m) with
                    | Cookies l => l
                    | _ => []
                    end) in *.
    split.
    + rewrite H4, H3, H2, H1. cbn [answered requests].
      rewrite <- !app_assoc. reflexivity.
    + destruct (admitted Login.HOME_URL cookies);
        [|left; discriminate].
      destruct (admitted "https://erieri.com/" cookies);
        [|right; discriminate].
      cbn [length] in *. lia.
Qed.

Lemma cookie_load_answers_true_after_adding_witness :
  let m := on_lab_with (login_page_lab [])
             (cookie_file [stale_cookie; foreign_cookie]) new_automation in
  let cookies := snapshot "cookies.json" m in
  requests (snd (Login._load_cookies_safely "cookies.json" m))
  = requests m
    ++ [CookieFileExists "cookies.json"; ReadCookieFile "cookies.json";
        DeleteAllCookies]
    ++ Get Login.HOME_URL :: map AddCookie (admitted Login.HOME_URL cookies)
    ++ Get "https://erieri.com/"
       :: map AddCookie (admitted "https://erieri.com/" cookies)
    ++ [Get Login.HOME_URL]
  /\ (admitted Login.HOME_URL cookies <> []
      \/ admitted "https://erieri.com/" cookies <> []).
Proof.
  apply (proj2 (cookie_load_answers_true_after_adding
                  (lab_with (login_page_lab [])
                     (cookie_file [stale_cookie; foreign_cookie]))
                  "cookies.json"
                  (on_lab_with (login_page_lab [])
                     (cookie_file [stale_cookie; foreign_cookie])
                     new_automation))).
  vm_compute. reflexivity.
Defined.

(** X27.  [find_first_displayed] never raises and leaves the object as it
    is.  It asks for the selectors in the order of the list, the first
    [k] of them; a selector asked for has an element displayed and
    enabled exactly when it is the last one asked for and the one
    returned: so the selector returned is the first of the list with
    such an element, and nothing is returned only when all selectors
    were asked for in vain. *)
Theorem find_first_displayed_in_order :
  forall (B : Browser) (selectors : list string) (m : machine),
    exists (found : option locator) (m' : machine) (k : nat),
      Login.find_first_displayed selectors m = (Ok found, m')
      /\ m' = answered_all (map probe_of (take k selectors)) m
      /\ self m' = self m
      /\ requests m' = requests m ++ map probe_of (take k selectors)
      /\ (forall (j : nat) (sel : string),
            selectors !! j = Some sel -> j < k ->
            (answer (probe_of sel)
               (answered_all (map probe_of (take j selectors)) m)
             = Flag true
             <-> found = Some (Login.selector_locator sel) /\ S j = k))
      /\ match found with
         | Some l =>
             exists sel, selectors !! (k - 1) = Some sel /\ 1 <= k
                         /\ l = Login.selector_locator sel
         | None => k = length selectors
         end.
Proof.
  intros B selectors. induction selectors as [|sel rest IH]; intros m.
  - exists None, m, 0. cbn. rewrite app_nil_r.
    repeat split; try reflexivity; intros; lia.
  - cbn [Login.find_first_displayed]. unfold bind at 1, try_except, ask_flag.
    unfold bind at 1, ret. rewrite call_run. fold (probe_of sel).
    assert (Hnext : answer (probe_of sel) m <> Flag true ->
               exists found m' k,
               Login.find_first_displayed rest (answered (probe_of sel) m)
               = (Ok found, m')
               /\ m' = answered_all (map probe_of (take k (sel :: rest))) m
               /\ self m' = self m
               /\ requests m'
                  = requests m ++ map probe_of (take k (sel :: rest))
               /\ (forall j s,
                      (sel :: rest) !! j = Some s -> j < k ->
                      (answer (probe_of s)
                         (answered_all
                            (map probe_of (take j (sel :: rest))) m)
                       = Flag true
                       <-> found = Some (Login.selector_locator s)
                           /\ S j = k))
               /\ match found with
                  | Some l =>
                      exists s, (sel :: rest) !! (k - 1) = Some s /\ 1 <= k
                                /\ l = Login.selector_locator s
                  | None => k = length (sel :: rest)
                  end).
    { intros Hno.
      destruct (IH (answered (probe_of sel) m))
        as (found & m' & k & E & Hm & Hs & Hr & Hj & Hf).
      exists found, m', (S k). split; [exact E|]. split; [exact Hm|].
      split; [exact Hs|].
      split; [rewrite Hr; cbn [answered requests take map];
              now rewrite <- app_assoc|].
      split.
      - intros [|j] s Hl Hlt.
        + cbn in Hl. injection Hl as <-. cbn [take map answered_all fold_left].
          split; [intros H; now destruct (Hno H)|].
          intros [Hfound Hk]. assert (k = 0) by lia. subst k.
          rewrite Hfound in Hf. destruct Hf as (? & _ & ? & _). lia.
        + cbn in Hl. specialize (Hj j s Hl ltac:(lia)).
          cbn [take map answered_all fold_left].
          fold (answered_all (map probe_of (take j rest))
                  (answered (probe_of sel) m)).
          rewrite Hj. split; intros [? ?]; (split; [assumption | lia]).
      - destruct found as [l|]; [|cbn [length]; now rewrite Hf].
        destruct Hf as (s & Hk & Hk1 & ->). exists s.
        split; [|split; [lia | reflexivity]].
        replace (S k - 1) with (S (k - 1)) by lia. exact Hk. }
    destruct (raised (answer (probe_of sel) m)) eqn:Er.
    { apply Hnext. intros H. rewrite H in Er. discriminate Er. }
    destruct (answer (probe_of sel) m) as [| |[]| | | |] eqn:Ea;
      try (apply Hnext; discriminate).
    exists (Some (Login.selector_locator sel)), (answered (probe_of sel) m), 1.
    split; [reflexivity|]. split; [reflexivity|]. split; [reflexivity|].
    split; [reflexivity|]. split.
    + intros [|j] s Hl Hlt; [|lia]. cbn in Hl. injection Hl as <-.
      cbn [take map answered_all fold_left]. rewrite Ea.
      split; [now intros _ | reflexivity].
    + exists sel. repeat split. lia.
Qed.

(** X28.  Without a user name and a password, both non-empty,
    [_attempt_auto_login] answers [False] after the reading of the
    credentials: the login page is not opened and nothing is typed. *)
Theorem auto_login_needs_both_credentials :
  forall (B : Browser) (m : machine),
    match answer ReadCreds m with
    | Creds (Some (user, pw)) => user = EmptyString \/ pw = EmptyString
    | Raise _ => False
    | _ => True
    end ->
    Login._attempt_auto_login m = (Ok false, answered ReadCreds m).
Proof.
  intros B m H. unfold Login._attempt_auto_login, Login._read_creds.
  unfold bind at 1 2, ret. rewrite call_run.
  destruct (answer ReadCreds m) as [| | | |[[u p]|]| |]; try reflexivity;
    [|contradiction].
  cbn [raised]. destruct H as [-> | ->]; [reflexivity|].
  destruct u; reflexivity.
Qed.

Lemma auto_login_needs_both_credentials_witness :
  Login._attempt_auto_login
    (on_lab_with (login_page_lab []) (credentials "analyst" "") new_automation)
  = (Ok false,
     @Build_machine (lab_with (login_page_lab []) (credentials "analyst" ""))
       new_automation 1 [ReadCreds]).
Proof.
  exact (auto_login_needs_both_credentials
           (lab_with (login_page_lab []) (credentials "analyst" ""))
           (on_lab_with (login_page_lab []) (credentials "analyst" "")
              new_automation)
           (or_intror eq_refl)).
Defined.

(** X29.  Looking at the session changes nothing: [_is_on_login_page] and
    [_is_logged_in] only read the address and ask whether elements are
    displayed, the first with two requests at most, the second with
    four. *)
Theorem session_checks_only_look :
  forall (B : Browser) (m : machine),
    (exists rs,
        requests (snd (Login._is_on_login_page m)) = requests m ++ rs
        /\ Forall (fun r => looks r = true) rs /\ length rs <= 2)
    /\ (exists rs,
           requests (snd (Login._is_logged_in m)) = requests m ++ rs
           /\ Forall (fun r => looks r = true) rs /\ length rs <= 4).
Proof.
  intros B m.
  assert (Hon : issues (fun r => looks r = true) Login._is_on_login_page).
  { unfold Login._is_on_login_page. only_issues. }
  assert (Hin : issues (fun r => looks r = true) Login._is_logged_in).
  { unfold Login._is_logged_in. only_issues. }
  assert (Con : forall x,
             length (requests (snd (Login._is_on_login_page x)))
             <= length (requests x) + 2).
  { intros x. unfold Login._is_on_login_page, ask_text, ask_flag, try_except,
      bind, ret. rewrite call_run.
    destruct (raised (answer CurrentUrl x));
      [cbn; rewrite length_app; cbn; lia|].
    destruct (_ || _); [cbn; rewrite length_app; cbn; lia|].
    rewrite call_run. destruct (raised _); cbn; rewrite !length_app; cbn; lia. }
  split.
  - destruct (Hon m) as (rs & Hr & HP). exists rs. split; [exact Hr|].
    split; [exact HP|]. specialize (Con m). rewrite Hr, length_app in Con. lia.
  - destruct (Hin m) as (rs & Hr & HP). exists rs. split; [exact Hr|].
    split; [exact HP|].
    assert (Cin : length (requests (snd (Login._is_logged_in m)))
                  <= length (requests m) + 4).
    { unfold Login._is_logged_in. unfold bind at 1. specialize (Con m).
      destruct (Login._is_on_login_page m) as [[[]|e] m1]; cbn [snd] in *;
        [cbn; lia | | lia].
      unfold bind, try_except, ask_flag, ask_text, bind, ret.
      rewrite call_run.
      destruct (raised _).
      - cbn [any_exception]. rewrite call_run.
        destruct (raised _); cbn; rewrite !length_app; cbn; lia.
      - destruct (match answer _ m1 with Flag b => b | _ => false end).
        + cbn; rewrite !length_app; cbn; lia.
        + rewrite call_run.
          destruct (raised _); cbn; rewrite !length_app; cbn; lia. }
    rewrite Hr, length_app in Cin. lia.
Qed.

Section Acquires.
Context {B : Browser}.
Variable cookies_file : string.

Abbreviation acquiring := (issues (fun r => acquires cookies_file r = true)).

Ltac acquiring_requests :=
  only_issues; try (cbn; rewrite ?String.eqb_refl; reflexivity).

Lemma issues_ask_cookies (P : request -> Prop) (r : request) :
  P r -> issues P (ask_cookies r).
Proof.
  intros Hr. unfold ask_cookies. apply issues_bind; [now apply issues_call|].
  intros a. apply issues_ret.
Qed.

Lemma acquiring_is_on_login_page : acquiring Login._is_on_login_page.
Proof. unfold Login._is_on_login_page. acquiring_requests. Qed.

Lemma acquiring_is_logged_in : acquiring Login._is_logged_in.
Proof.
  unfold Login._is_logged_in. pose proof acquiring_is_on_login_page.
  acquiring_requests.
Qed.

Lemma acquiring_add_cookies_loop (cookies : list cookie) (netloc : string) :
  forall added, acquiring (Login.add_cookies_loop cookies netloc added).
Proof.
  induction cookies as [|raw rest IH]; intros added;
    cbn [Login.add_cookies_loop]; acquiring_requests.
Qed.

Lemma acquiring_load_cookies_safely :
  acquiring (Login._load_cookies_safely cookies_file).
Proof.
  unfold Login._load_cookies_safely, Login._add_cookies_for_host.
  pose proof acquiring_add_cookies_loop.
  pose proof (issues_ask_cookies (fun r => acquires cookies_file r = true)).
  acquiring_requests.
Qed.

Lemma acquiring_save_fresh_cookies :
  acquiring (Login._save_fresh_cookies cookies_file).
Proof.
  unfold Login._save_fresh_cookies, pass.
  pose proof (issues_ask_cookies (fun r => acquires cookies_file r = true)).
  acquiring_requests.
Qed.

Lemma acquiring_find_first_displayed (selectors : list string) :
  acquiring (Login.find_first_displayed selectors).
Proof.
  induction selectors as [|sel rest IH]; cbn [Login.find_first_displayed];
    acquiring_requests.
Qed.

Lemma acquiring_poll_logged_in (n : nat) : acquiring (Login.poll_logged_in n).
Proof.
  induction n as [|n IH]; cbn [Login.poll_logged_in];
    pose proof acquiring_is_logged_in; acquiring_requests.
Qed.

Lemma acquiring_wait_ready_or_pass (t : nat) :
  acquiring (Login.wait_ready_or_pass t).
Proof.
  unfold Login.wait_ready_or_pass, Login._wait_ready, pass. acquiring_requests.
Qed.

Lemma acquiring_attempt_auto_login : acquiring Login._attempt_auto_login.
Proof.
  unfold Login._attempt_auto_login, Login._read_creds, pass.
  pose proof acquiring_wait_ready_or_pass.
  pose proof acquiring_find_first_displayed.
  pose proof acquiring_poll_logged_in. acquiring_requests.
Qed.

Lemma acquiring_after_start :
  acquiring
    (try_except (call ExecuteCdp ;; pass) any_exception pass ;;
     call (Get Login.HOME_URL) ;;
     Login.wait_ready_or_pass 20 ;;
     fast <- Login._is_logged_in ;;
     if fast then Login._save_fresh_cookies cookies_file ;; ret true
     else
       loaded <- Login._load_cookies_safely cookies_file ;;
       by_cookies <- (if loaded
                      then Login.wait_ready_or_pass 15 ;; Login._is_logged_in
                      else ret false) ;;
       if by_cookies then Login._save_fresh_cookies cookies_file ;; ret true
       else
         by_creds <- Login._attempt_auto_login ;;
         if by_creds then Login._save_fresh_cookies cookies_file ;; ret true
         else
           call (Get Login.LOGIN_URL) ;;
           Login.wait_ready_or_pass 20 ;;
           ret false).
Proof.
  unfold pass.
  pose proof acquiring_wait_ready_or_pass. pose proof acquiring_is_logged_in.
  pose proof acquiring_load_cookies_safely.
  pose proof acquiring_save_fresh_cookies.
  pose proof acquiring_attempt_auto_login. acquiring_requests.
Qed.

End Acquires.

(** X30.  Whatever the browser answers, [login_with_selenium] starts
    Chrome first and leaves the object as it is; after that it opens no
    address but the home page, the login page and [https://erieri.com/],
    reads and writes no file of cookies but the one it was given, and
    never ends the browser: the session it returns, logged in or not,
    is still open. *)
Theorem acquisition_stays_on_the_site :
  forall (B : Browser) (cookies_file : string) (m : machine),
    exists rs,
      requests (snd (Login.login_with_selenium cookies_file m))
      = requests m ++ StartChrome :: rs
      /\ Forall (fun r => acquires cookies_file r = true) rs
      /\ ~ In Quit rs
      /\ self (snd (Login.login_with_selenium cookies_file m)) = self m.
Proof.
  intros B f m.
  assert (H : exists rs,
             requests (snd (Login.login_with_selenium f m))
             = requests m ++ StartChrome :: rs
             /\ Forall (fun r => acquires f r = true) rs).
  { unfold Login.login_with_selenium, Login._build_driver.
    unfold bind at 1 2. rewrite call_run.
    destruct (raised (answer StartChrome m)).
    - exists []. split; [reflexivity | constructor].
    - destruct (acquiring_after_start f (answered StartChrome m))
        as (rs & Hr & HP).
      exists rs. split; [|exact HP].
      unfold bind in Hr |- *. rewrite Hr. cbn [answered requests].
      now rewrite <- app_assoc. }
  destruct H as (rs & Hr & HP). exists rs. split; [exact Hr|].
  split; [exact HP|]. split; [|apply keeps_login_with_selenium].
  intros Hq. rewrite List.Forall_forall in HP.
  apply HP in Hq. discriminate Hq.
Qed.
